(** * The Synbi assistant: task store, delete confirmation, command dispatch

    A shallow embedding of three parts of the assistant and the
    properties proved of them.

    - [task_manager.py], class [TaskManager]: module [TaskManager].
      [self.tasks] is a record with the four keys of the dictionary and a
      task is a record with the seven keys [add_task] gives it.  A method
      is a function from the manager and its environment to a result and
      the manager it leaves; a result is a returned value or a raised
      exception, so that [try]/[except ValueError] is what it is in the
      source.  The environment holds the readings of
      [datetime.datetime.now().isoformat()], the text of the file at
      [self.file_path] and whether that file can be written.
    - [json.dump(..., indent=2, ensure_ascii=False)] and [json.load], as
      [save_tasks] and [load_tasks] use them: module [Json], a printer and
      a reader of the text of the file.
    - [file_manager.py], [delete_item] and [listen_for_confirmation]:
      module [FileManager].  The environment holds the file system, what
      the microphone yields at each attempt and the removals asked for.
    - [Synbi.py], the chain of tests of [main_process] and its new-task
      branch: module [Synbi].

    A Python [str] is the [string] of its bytes in UTF-8.  Module [Py]
    gives [in], [replace] with a literal to look for and [strip] for
    every text.  It gives [lower] and [int] for ASCII text, where a
    capital is one of A to Z and a digit one of 0 to 9: a statement that
    rests on [lower] or [int] of a text that is not a literal of the
    source says that the text is ASCII ([Py.is_ascii]). *)

From Stdlib Require Import List String Ascii ZArith Lia Bool Arith.
From Stdlib Require Import DecimalString DecimalZ DecimalNat.
Import ListNotations.
Open Scope string_scope.
Open Scope nat_scope.
#[local] Set Warnings "-register-all".

(* ================================================================= *)
(** ** Python text primitives *)

Module Py.

Definition code (c : ascii) : nat := nat_of_ascii c.

Definition is_upper (c : ascii) : bool :=
  (65 <=? code c) && (code c <=? 90).

Definition lower_char (c : ascii) : ascii :=
  if is_upper c then ascii_of_nat (code c + 32) else c.

(** [s.lower()] for an ASCII text: A to Z become a to z. *)
Fixpoint lower (s : string) : string :=
  match s with
  | EmptyString => EmptyString
  | String c r => String (lower_char c) (lower r)
  end.

(** [s.isascii()] *)
Fixpoint is_ascii (s : string) : bool :=
  match s with
  | EmptyString => true
  | String c r => (code c <? 128) && is_ascii r
  end.

(** The blanks of [str.strip()]: the characters for which [str.isspace]
    holds.  Below 128 they are U+0009 to U+000D and U+001C to U+0020. *)
Definition is_space (c : ascii) : bool :=
  ((9 <=? code c) && (code c <=? 13))
  || ((28 <=? code c) && (code c <=? 32)).

(** U+0085 and U+00A0, in two bytes. *)
Definition is_space2 (a b : ascii) : bool :=
  (code a =? 194) && ((code b =? 133) || (code b =? 160)).

(** U+1680, U+2000 to U+200A, U+2028, U+2029, U+202F, U+205F and U+3000,
    in three bytes. *)
Definition is_space3 (a b c : ascii) : bool :=
  ((code a =? 225) && (code b =? 154) && (code c =? 128))
  || ((code a =? 226) && (code b =? 128)
      && (((128 <=? code c) && (code c <=? 138))
          || (code c =? 168) || (code c =? 169) || (code c =? 175)))
  || ((code a =? 226) && (code b =? 129) && (code c =? 159))
  || ((code a =? 227) && (code b =? 128) && (code c =? 128)).

(** The text after the blank [s] begins with, when it begins with one. *)
Definition after_blank (s : string) : option string :=
  match s with
  | EmptyString => None
  | String a r =>
      if is_space a then Some r
      else
        match r with
        | EmptyString => None
        | String b r1 =>
            if is_space2 a b then Some r1
            else
              match r1 with
              | EmptyString => None
              | String c r2 => if is_space3 a b c then Some r2 else None
              end
        end
  end.

(** [s.lstrip()] *)
Fixpoint lstrip (s : string) : string :=
  match s with
  | EmptyString => EmptyString
  | String a r =>
      if is_space a then lstrip r
      else
        match r with
        | EmptyString => s
        | String b r1 =>
            if is_space2 a b then lstrip r1
            else
              match r1 with
              | EmptyString => s
              | String c r2 => if is_space3 a b c then lstrip r2 else s
              end
        end
  end.

(** [s.isspace()], or [s] is empty. *)
Definition is_blank (s : string) : bool :=
  match lstrip s with
  | EmptyString => true
  | _ => false
  end.

(** [s.rstrip()]: [s] up to the blanks it ends with. *)
Fixpoint rstrip (s : string) : string :=
  match s with
  | EmptyString => EmptyString
  | String a r => if is_blank s then EmptyString else String a (rstrip r)
  end.

(** [s.strip()] *)
Definition strip (s : string) : string := rstrip (lstrip s).

(** [s.startswith(p)] *)
Fixpoint startswith (p s : string) : bool :=
  match p, s with
  | EmptyString, _ => true
  | String _ _, EmptyString => false
  | String a p', String b s' => Ascii.eqb a b && startswith p' s'
  end.

(** [needle in hay] *)
Fixpoint contains (needle hay : string) : bool :=
  startswith needle hay
  || match hay with
     | EmptyString => false
     | String _ r => contains needle r
     end.

(** [new.join(s)] with [new] also at both ends: what [s.replace("", new)]
    gives for an ASCII [s]. *)
Fixpoint interleave (new s : string) : string :=
  match s with
  | EmptyString => new
  | String c r => new ++ String c (interleave new r)
  end.

(** Left-to-right scan of [s.replace(old, new)] for a non-empty [old]:
    [skip] counts the characters of the occurrence just replaced that
    are still to be dropped. *)
Fixpoint replace_scan (old new : string) (skip : nat) (s : string) : string :=
  match s with
  | EmptyString => EmptyString
  | String c r =>
      match skip with
      | S k => replace_scan old new k r
      | O =>
          if startswith old s
          then new ++ replace_scan old new (String.length old - 1) r
          else String c (replace_scan old new 0 r)
      end
  end.

(** [s.replace(old, new)] *)
Definition replace (old new s : string) : string :=
  match old with
  | EmptyString => interleave new s
  | _ => replace_scan old new 0 s
  end.

Definition is_digit (c : ascii) : bool :=
  (48 <=? code c) && (code c <=? 57).

Definition digit_val (c : ascii) : Z := Z.of_nat (code c - 48).

(** Digits of an [int()] literal; a single underscore may sit between
    two digits.  [after_digit] tells whether the previous character was
    a digit. *)
Fixpoint int_digits (after_digit : bool) (acc : Z) (s : string) : option Z :=
  match s with
  | EmptyString => if after_digit then Some acc else None
  | String c r =>
      if is_digit c then int_digits true (10 * acc + digit_val c) r
      else if Ascii.eqb c "_" && after_digit then int_digits false acc r
      else None
  end.

(** The blanks [int()] skips at both ends of an ASCII text: those of
    [isspace] of C, which U+001C to U+001F are not. *)
Definition is_int_space (c : ascii) : bool :=
  ((9 <=? code c) && (code c <=? 13)) || (code c =? 32).

Fixpoint int_lstrip (s : string) : string :=
  match s with
  | EmptyString => EmptyString
  | String c r => if is_int_space c then int_lstrip r else s
  end.

Fixpoint int_rstrip (s : string) : string :=
  match s with
  | EmptyString => EmptyString
  | String c r =>
      match int_rstrip r with
      | EmptyString => if is_int_space c then EmptyString else String c EmptyString
      | r' => String c r'
      end
  end.

(** The longest text for which no interpreter limits the number of
    digits [int()] reads ([sys.int_info.str_digits_check_threshold]). *)
Definition int_unlimited : nat := 640.

(** [int(s)] for an ASCII text of at most [int_unlimited] characters:
    [None] stands for [ValueError]. *)
Definition int (s : string) : option Z :=
  match int_rstrip (int_lstrip s) with
  | String "+" r => int_digits false 0 r
  | String "-" r => option_map Z.opp (int_digits false 0 r)
  | t => int_digits false 0 t
  end.

(** [str(n)] for a natural number. *)
Definition str_nat (n : nat) : string :=
  NilZero.string_of_uint (Nat.to_uint n).

(** [str(z)] / [int.__repr__]. *)
Definition str_int (z : Z) : string :=
  NilZero.string_of_int (Z.to_int z).

(** [sep.join(l)] *)
Fixpoint join (sep : string) (l : list string) : string :=
  match l with
  | [] => ""
  | [x] => x
  | x :: r => x ++ sep ++ join sep r
  end.

(** The text whose UTF-8 form is the bytes [l]. *)
Definition bytes (l : list nat) : string :=
  fold_right (fun n s => String (ascii_of_nat n) s) "" l.

End Py.

(* ================================================================= *)
(** ** JSON documents and [json.dump(..., indent=2, ensure_ascii=False)] *)

Module Json.

(** The values [json.load] builds for a task file: [None], [bool],
    [int], [str], [list] and [dict] with keys in document order. *)
Inductive value : Type :=
| JNull
| JBool (b : bool)
| JInt (z : Z)
| JStr (s : string)
| JArr (l : list value)
| JObj (m : list (string * value)).

Definition dquote : ascii := ascii_of_nat 34.
Definition backslash : ascii := ascii_of_nat 92.
Definition newline : ascii := ascii_of_nat 10.

Definition hex_digit (n : nat) : ascii :=
  if n <? 10 then ascii_of_nat (48 + n) else ascii_of_nat (87 + n).

(** [ESCAPE_DCT] of [json.encoder]: the quote, the backslash and the
    control characters are escaped, every other character is written as
    it is. *)
Definition escape_char (c : ascii) : string :=
  let n := Py.code c in
  if n =? 34 then String backslash (String dquote "")
  else if n =? 92 then String backslash (String backslash "")
  else if n =? 8 then String backslash "b"
  else if n =? 12 then String backslash "f"
  else if n =? 10 then String backslash "n"
  else if n =? 13 then String backslash "r"
  else if n =? 9 then String backslash "t"
  else if n <? 32
       then String backslash
              (String "u" (String "0" (String "0"
                 (String (hex_digit (n / 16)) (String (hex_digit (n mod 16)) "")))))
  else String c "".

Fixpoint escape (s : string) : string :=
  match s with
  | EmptyString => EmptyString
  | String c r => escape_char c ++ escape r
  end.

(** [encode_basestring] *)
Definition quote (s : string) : string :=
  String dquote (escape s ++ String dquote "").

Fixpoint spaces (level : nat) : string :=
  match level with
  | O => ""
  | S k => "  " ++ spaces k
  end.

(** A line break followed by the indentation of [level]. *)
Definition newline_indent (level : nat) : string :=
  String newline (spaces level).

(** [_iterencode] at nesting depth [level], with [indent=2]: the item
    separator is a comma followed by a line break, the key separator is
    a colon and a space, and empty containers are written closed. *)
Fixpoint dump_at (level : nat) (j : value) : string :=
  match j with
  | JNull => "null"
  | JBool true => "true"
  | JBool false => "false"
  | JInt z => Py.str_int z
  | JStr s => quote s
  | JArr [] => "[]"
  | JArr (x :: xs) =>
      "[" ++ newline_indent (S level) ++ dump_at (S level) x
      ++ (fix items (l : list value) : string :=
            match l with
            | [] => ""
            | y :: ys => "," ++ newline_indent (S level) ++ dump_at (S level) y ++ items ys
            end) xs
      ++ newline_indent level ++ "]"
  | JObj [] => "{}"
  | JObj ((k, x) :: xs) =>
      "{" ++ newline_indent (S level) ++ quote k ++ ": " ++ dump_at (S level) x
      ++ (fix members (l : list (string * value)) : string :=
            match l with
            | [] => ""
            | (k', y) :: ys =>
                "," ++ newline_indent (S level) ++ quote k' ++ ": "
                ++ dump_at (S level) y ++ members ys
            end) xs
      ++ newline_indent level ++ "}"
  end.

(** [json.dumps(j, indent=2, ensure_ascii=False)] *)
Definition dumps (j : value) : string := dump_at 0 j.

(** *** [json.loads]

    The reader follows [json.decoder] and [json.scanner] on the grammar
    [dump_at] writes and on white space, literals, integers, escapes and
    nesting around it.  [Err] stands for [JSONDecodeError].  [Beyond] is
    returned where the text leaves what is modelled here (a number with
    a fraction or an exponent, [NaN], [Infinity], an escape of a
    character above 127, or more nesting than the fuel allows): nothing
    is said about such a text. *)
Inductive parsed (A : Type) : Type :=
| Ok (a : A) (rest : string)
| Err
| Beyond.
Arguments Ok {A} a rest.
Arguments Err {A}.
Arguments Beyond {A}.

Definition pmap {A B : Type} (f : A -> B) (p : parsed A) : parsed B :=
  match p with
  | Ok a rest => Ok (f a) rest
  | Err => Err
  | Beyond => Beyond
  end.

(** [WHITESPACE]: blank, tab, line feed, carriage return. *)
Definition is_ws (c : ascii) : bool :=
  let n := Py.code c in
  (n =? 32) || (n =? 9) || (n =? 10) || (n =? 13).

Fixpoint skip_ws (s : string) : string :=
  match s with
  | EmptyString => EmptyString
  | String c r => if is_ws c then skip_ws r else s
  end.

Definition hex_val (c : ascii) : option nat :=
  let n := Py.code c in
  if (48 <=? n) && (n <=? 57) then Some (n - 48)
  else if (97 <=? n) && (n <=? 102) then Some (n - 87)
  else if (65 <=? n) && (n <=? 70) then Some (n - 55)
  else None.

Definition hex4 (a b c d : ascii) : option nat :=
  match hex_val a, hex_val b, hex_val c, hex_val d with
  | Some x, Some y, Some z, Some w => Some (((x * 16 + y) * 16 + z) * 16 + w)
  | _, _, _, _ => None
  end.

(** [scanstring] in strict mode, from the character after the opening
    quote. *)
Fixpoint scan_string (s : string) : parsed string :=
  match s with
  | EmptyString => Err
  | String c r =>
      if Ascii.eqb c dquote then Ok "" r
      else if Ascii.eqb c backslash then
        match r with
        | EmptyString => Err
        | String e r' =>
            if Ascii.eqb e dquote then pmap (String dquote) (scan_string r')
            else if Ascii.eqb e backslash then pmap (String backslash) (scan_string r')
            else if Ascii.eqb e "/" then pmap (String "/") (scan_string r')
            else if Ascii.eqb e "b" then pmap (String (ascii_of_nat 8)) (scan_string r')
            else if Ascii.eqb e "f" then pmap (String (ascii_of_nat 12)) (scan_string r')
            else if Ascii.eqb e "n" then pmap (String (ascii_of_nat 10)) (scan_string r')
            else if Ascii.eqb e "r" then pmap (String (ascii_of_nat 13)) (scan_string r')
            else if Ascii.eqb e "t" then pmap (String (ascii_of_nat 9)) (scan_string r')
            else if Ascii.eqb e "u" then
              match r' with
              | String h1 (String h2 (String h3 (String h4 r''))) =>
                  match hex4 h1 h2 h3 h4 with
                  | Some n =>
                      if n <? 128
                      then pmap (String (ascii_of_nat n)) (scan_string r'')
                      else Beyond
                  | None => Err
                  end
              | _ => Err
              end
            else Err
        end
      else if Py.code c <? 32 then Err
      else pmap (String c) (scan_string r)
  end.

Fixpoint span_digits (s : string) : string * string :=
  match s with
  | EmptyString => ("", "")
  | String c r =>
      if Py.is_digit c
      then let '(ds, rest) := span_digits r in (String c ds, rest)
      else ("", s)
  end.

Definition float_follows (rest : string) : bool :=
  match rest with
  | String c _ => Ascii.eqb c "." || Ascii.eqb c "e" || Ascii.eqb c "E"
  | EmptyString => false
  end.

(** Whether [s] starts with the character [c]. *)
Definition head_is (c : ascii) (s : string) : bool :=
  match s with
  | String a _ => Ascii.eqb a c
  | EmptyString => false
  end.

Definition head_digit (s : string) : bool :=
  match s with
  | String a _ => Py.is_digit a
  | EmptyString => false
  end.

Definition tail (s : string) : string :=
  match s with
  | String _ r => r
  | EmptyString => EmptyString
  end.

(** The integer part of [NUMBER_RE]: a lone zero, or digits that do not
    start with a zero.  After a zero a further digit matches nothing that
    may follow a value, so it is an error where it stands. *)
Definition parse_digits (s : string) : parsed Z :=
  let '(ds, rest) := span_digits s in
  if String.eqb ds "" then Err
  else if head_is "0" ds && negb (String.eqb (tail ds) "") then Err
  else if float_follows rest then Beyond
  else match NilZero.uint_of_string ds with
       | Some d => Ok (Z.of_uint d) rest
       | None => Err
       end.

Definition parse_number (s : string) : parsed Z :=
  if head_is "-" s
  then if head_is "I" (tail s) then Beyond else pmap Z.opp (parse_digits (tail s))
  else parse_digits s.

Fixpoint drop (n : nat) (s : string) : string :=
  match n, s with
  | S k, String _ r => drop k r
  | _, _ => s
  end.

(** [scan_once], [JSONArray] and [JSONObject].  [parse_items] and
    [parse_members] start at the first character of an item, white space
    skipped. *)
Fixpoint parse_value (fuel : nat) (s : string) {struct fuel} : parsed value :=
  match fuel with
  | O => Beyond
  | S fuel' =>
      if head_is dquote s then pmap JStr (scan_string (tail s))
      else if head_is "{" s then
        let r := skip_ws (tail s) in
        if head_is "}" r then Ok (JObj []) (tail r)
        else pmap JObj (parse_members fuel' r)
      else if head_is "[" s then
        let r := skip_ws (tail s) in
        if head_is "]" r then Ok (JArr []) (tail r)
        else pmap JArr (parse_items fuel' r)
      else if Py.startswith "null" s then Ok JNull (drop 4 s)
      else if Py.startswith "true" s then Ok (JBool true) (drop 4 s)
      else if Py.startswith "false" s then Ok (JBool false) (drop 5 s)
      else if head_is "-" s || head_digit s then pmap JInt (parse_number s)
      else if head_is "N" s || head_is "I" s then Beyond
      else Err
  end
with parse_items (fuel : nat) (s : string) {struct fuel} : parsed (list value) :=
  match fuel with
  | O => Beyond
  | S fuel' =>
      match parse_value fuel' s with
      | Ok v r =>
          let r1 := skip_ws r in
          if head_is "]" r1 then Ok [v] (tail r1)
          else if head_is "," r1
               then pmap (cons v) (parse_items fuel' (skip_ws (tail r1)))
               else Err
      | Err => Err
      | Beyond => Beyond
      end
  end
with parse_members (fuel : nat) (s : string) {struct fuel} : parsed (list (string * value)) :=
  match fuel with
  | O => Beyond
  | S fuel' =>
      if head_is dquote s then
        match scan_string (tail s) with
        | Ok k r =>
            let r1 := skip_ws r in
            if head_is ":" r1 then
              match parse_value fuel' (skip_ws (tail r1)) with
              | Ok v r2 =>
                  let r3 := skip_ws r2 in
                  if head_is "}" r3 then Ok [(k, v)] (tail r3)
                  else if head_is "," r3
                       then pmap (cons (k, v)) (parse_members fuel' (skip_ws (tail r3)))
                       else Err
              | Err => Err
              | Beyond => Beyond
              end
            else Err
        | Err => Err
        | Beyond => Beyond
        end
      else Err
  end.

(** [json.loads]: one value, white space around it, nothing after. *)
Definition loads (s : string) : parsed value :=
  match parse_value (S (String.length s)) (skip_ws s) with
  | Ok j rest =>
      match skip_ws rest with
      | EmptyString => Ok j ""
      | _ => Err
      end
  | Err => Err
  | Beyond => Beyond
  end.

End Json.

(* ================================================================= *)
(** ** [task_manager.py] *)

Module TaskManager.

(** One entry of ["tasks"] or ["completed"]: the dictionary [add_task]
    builds, with its seven keys. *)
Record Task : Type := mkTask {
  id : Z;
  text : string;
  priority : string;
  status : string;
  created : string;
  due_date : option string;
  completed_date : option string
}.

(** The dictionary [self.tasks]. *)
Record Store : Type := mkStore {
  tasks : list Task;
  completed : list Task;
  created_date : string;
  last_modified : string
}.

(** The environment of a manager: the successive readings of
    [datetime.datetime.now().isoformat()] ([clock k] is the k-th reading,
    [ticks] counts the readings taken), the content of the file at
    [self.file_path] ([None]: no such file) and whether the file can be
    opened for writing. *)
Record World : Type := mkWorld {
  clock : nat -> string;
  ticks : nat;
  disk : option string;
  writable : bool
}.

(** A [TaskManager] object together with its environment. *)
Record Manager : Type := mkManager {
  self_tasks : Store;
  world : World
}.

Inductive exn : Type := ValueError | IndexError.

Inductive result (A : Type) : Type :=
| Returned (a : A)
| Raised (e : exn).
Arguments Returned {A} a.
Arguments Raised {A} e.

(** Methods: state passing over the manager, with exceptions. *)
Definition M (A : Type) : Type := Manager -> result A * Manager.

Definition ret {A : Type} (a : A) : M A := fun m => (Returned a, m).

Definition raise {A : Type} (e : exn) : M A := fun m => (Raised e, m).

Definition bind {A B : Type} (c : M A) (k : A -> M B) : M B :=
  fun m =>
    match c m with
    | (Returned a, m') => k a m'
    | (Raised e, m') => (Raised e, m')
    end.

Notation "x <- c ;; k" := (bind c (fun x => k))
  (at level 61, c at next level, right associativity).
Notation "c ;;; k" := (bind c (fun _ => k))
  (at level 61, right associativity).

Definition exn_eqb (a b : exn) : bool :=
  match a, b with
  | ValueError, ValueError | IndexError, IndexError => true
  | _, _ => false
  end.

(** [try: body except e: handler]; the handler starts from the state the
    body left. *)
Definition try_except {A : Type} (body : M A) (e : exn) (handler : M A) : M A :=
  fun m =>
    match body m with
    | (Raised e', m') => if exn_eqb e e' then handler m' else (Raised e', m')
    | r => r
    end.

Definition or_raise {A : Type} (e : exn) (o : option A) : M A :=
  match o with
  | Some a => ret a
  | None => raise e
  end.

Definition gets {A : Type} (f : Store -> A) : M A :=
  fun m => (Returned (f (self_tasks m)), m).

Definition modify (f : Store -> Store) : M unit :=
  fun m => (Returned tt, mkManager (f (self_tasks m)) (world m)).

Definition set_tasks (l : list Task) (st : Store) : Store :=
  mkStore l (completed st) (created_date st) (last_modified st).

Definition set_completed (l : list Task) (st : Store) : Store :=
  mkStore (tasks st) l (created_date st) (last_modified st).

Definition set_last_modified (ts : string) (st : Store) : Store :=
  mkStore (tasks st) (completed st) (created_date st) ts.

(** [datetime.datetime.now().isoformat()] *)
Definition now (w : World) : string * World :=
  (clock w (ticks w), mkWorld (clock w) (S (ticks w)) (disk w) (writable w)).

Definition now_isoformat : M string :=
  fun m =>
    let '(ts, w) := now (world m) in
    (Returned ts, mkManager (self_tasks m) w).

(** *** The document written to the file *)

Definition opt_to_json (o : option string) : Json.value :=
  match o with
  | Some s => Json.JStr s
  | None => Json.JNull
  end.

Definition task_to_json (t : Task) : Json.value :=
  Json.JObj
    [ ("id", Json.JInt (id t));
      ("text", Json.JStr (text t));
      ("priority", Json.JStr (priority t));
      ("status", Json.JStr (status t));
      ("created", Json.JStr (created t));
      ("due_date", opt_to_json (due_date t));
      ("completed_date", opt_to_json (completed_date t)) ].

Definition store_to_json (st : Store) : Json.value :=
  Json.JObj
    [ ("tasks", Json.JArr (map task_to_json (tasks st)));
      ("completed", Json.JArr (map task_to_json (completed st)));
      ("created_date", Json.JStr (created_date st));
      ("last_modified", Json.JStr (last_modified st)) ].

(** *** The document read from the file

    [json.load] hands back whatever document the file holds.  The
    documents that are task stores are those [store_of_json] reads: the
    keys [save_tasks] writes, in the order it writes them. *)

Definition opt_of_json (j : Json.value) : option (option string) :=
  match j with
  | Json.JStr s => Some (Some s)
  | Json.JNull => Some None
  | _ => None
  end.

Definition task_of_json (j : Json.value) : option Task :=
  match j with
  | Json.JObj
      [ ("id", Json.JInt i); ("text", Json.JStr t); ("priority", Json.JStr p);
        ("status", Json.JStr s); ("created", Json.JStr c);
        ("due_date", d); ("completed_date", e) ] =>
      match opt_of_json d, opt_of_json e with
      | Some d', Some e' => Some (mkTask i t p s c d' e')
      | _, _ => None
      end
  | _ => None
  end.

Fixpoint tasks_of_json (l : list Json.value) : option (list Task) :=
  match l with
  | [] => Some []
  | j :: r =>
      match task_of_json j, tasks_of_json r with
      | Some t, Some ts => Some (t :: ts)
      | _, _ => None
      end
  end.

Definition store_of_json (j : Json.value) : option Store :=
  match j with
  | Json.JObj
      [ ("tasks", Json.JArr p); ("completed", Json.JArr c);
        ("created_date", Json.JStr cd); ("last_modified", Json.JStr lm) ] =>
      match tasks_of_json p, tasks_of_json c with
      | Some p', Some c' => Some (mkStore p' c' cd lm)
      | _, _ => None
      end
  | _ => None
  end.

(** What [load_tasks] returns: a task store, or a document that is none
    (the methods are not defined on it here). *)
Inductive loaded : Type :=
| Loaded (st : Store)
| Foreign.

(** The dictionary of both fall-back branches of [load_tasks]: the clock
    is read once for each of the two dates. *)
Definition new_structure (w : World) : Store * World :=
  let '(cd, w1) := now w in
  let '(lm, w2) := now w1 in
  (mkStore [] [] cd lm, w2).

(** [load_tasks]: the document of the file when there is one; a new
    structure when there is no file, and also when reading it raises. *)
Definition load_tasks (w : World) : loaded * World :=
  match disk w with
  | Some content =>
      match Json.loads content with
      | Json.Ok j _ =>
          match store_of_json j with
          | Some st => (Loaded st, w)
          | None => (Foreign, w)
          end
      | Json.Err => let '(st, w') := new_structure w in (Loaded st, w')
      | Json.Beyond => (Foreign, w)
      end
  | None => let '(st, w') := new_structure w in (Loaded st, w')
  end.

(** [__init__] *)
Definition init (w : World) : option Manager :=
  match load_tasks w with
  | (Loaded st, w') => Some (mkManager st w')
  | (Foreign, _) => None
  end.

(** [open(self.file_path, 'w')] followed by [json.dump]: the file is
    replaced by the text of the document. *)
Definition write_file (content : string) : M unit :=
  fun m =>
    let w := world m in
    (Returned tt,
     mkManager (self_tasks m) (mkWorld (clock w) (ticks w) (Some content) (writable w))).

Definition can_write : M bool :=
  fun m => (Returned (writable (world m)), m).

(** [save_tasks]: the time stamp is set before the file is opened, so it
    is set also when the writing fails and [False] is returned. *)
Definition save_tasks : M bool :=
  ts <- now_isoformat ;;
  modify (set_last_modified ts) ;;;
  ok <- can_write ;;
  if ok
  then st <- gets (fun st => st) ;;
       write_file (Json.dumps (store_to_json st)) ;;;
       ret true
  else ret false.

(** *** Python list operations on the task lists *)

Definition opt_eqb (a b : option string) : bool :=
  match a, b with
  | Some x, Some y => String.eqb x y
  | None, None => true
  | _, _ => false
  end.

(** [==] on two task dictionaries. *)
Definition task_eqb (a b : Task) : bool :=
  Z.eqb (id a) (id b) && String.eqb (text a) (text b)
  && String.eqb (priority a) (priority b) && String.eqb (status a) (status b)
  && String.eqb (created a) (created b) && opt_eqb (due_date a) (due_date b)
  && opt_eqb (completed_date a) (completed_date b).

(** The [for] loops of [delete_task] and [complete_task]: the position of
    the first task, from position [i] on, for which the test holds. *)
Fixpoint first_index (test : Task -> bool) (i : nat) (l : list Task) : option nat :=
  match l with
  | [] => None
  | task :: rest => if test task then Some i else first_index test (S i) rest
  end.

(** The list without its element at position [i]. *)
Definition remove_nth (i : nat) (l : list Task) : list Task :=
  (firstn i l ++ skipn (S i) l)%list.

(** [self.tasks["tasks"].pop(i)] *)
Definition pop (i : nat) : M Task :=
  l <- gets tasks ;;
  task <- or_raise IndexError (nth_error l i) ;;
  modify (set_tasks (remove_nth i l)) ;;;
  ret task.

(** [l.remove(x)]: the first element equal to [x] goes; [None] stands for
    the [ValueError] of a list without such an element. *)
Fixpoint list_remove (x : Task) (l : list Task) : option (list Task) :=
  match l with
  | [] => None
  | e :: r => if task_eqb e x then Some r else option_map (cons e) (list_remove x r)
  end.

(** Assignment to a key of the task at position [i] of the pending list:
    the dictionary is changed where it is. *)
Fixpoint update_at (i : nat) (f : Task -> Task) (l : list Task) : list Task :=
  match l, i with
  | [], _ => []
  | t :: r, O => f t :: r
  | t :: r, S k => t :: update_at k f r
  end.

Definition set_status (s : string) (t : Task) : Task :=
  mkTask (id t) (text t) (priority t) s (created t) (due_date t) (completed_date t).

Definition set_completed_date (d : option string) (t : Task) : Task :=
  mkTask (id t) (text t) (priority t) (status t) (created t) (due_date t) d.

(** *** The methods *)

(** [add_task] *)
Definition add_task (task_text priority : string) (due_date : option string) : M string :=
  if String.eqb (Py.strip task_text) ""
  then ret "Error: Task cannot be empty."
  else
    l <- gets tasks ;;
    let task_id := Z.of_nat (List.length l + 1) in
    ts <- now_isoformat ;;
    let new_task :=
      mkTask task_id (Py.strip task_text) (Py.lower priority) "pending" ts due_date None in
    modify (fun st => set_tasks (tasks st ++ [new_task])%list st) ;;;
    ok <- save_tasks ;;
    if ok
    then ret ("Task added successfully: " ++ Py.strip task_text)
    else ret "Error: Could not save task.".

(** The body both loops of [delete_task] run on the first task that
    passes their test. *)
Definition delete_at (i : nat) : M string :=
  deleted_task <- pop i ;;
  save_tasks ;;;
  ret ("Task deleted: " ++ text deleted_task).

(** [delete_task] *)
Definition delete_task (task_identifier : string) : M string :=
  try_except
    (task_id <- or_raise ValueError (Py.int task_identifier) ;;
     l <- gets tasks ;;
     match first_index (fun task => Z.eqb (id task) task_id) 0 l with
     | Some i => delete_at i
     | None => ret "Task not found with that ID."
     end)
    ValueError
    (let task_text := Py.lower task_identifier in
     l <- gets tasks ;;
     match first_index (fun task => Py.contains task_text (Py.lower (text task))) 0 l with
     | Some i => delete_at i
     | None => ret "Task not found with that text."
     end).

(** The body both loops of [complete_task] run on the first task that
    passes their test.  [task] is the dictionary at position [i] of the
    pending list: the two assignments change it in that list, the same
    dictionary is appended to ["completed"], and [remove] then drops the
    first pending entry equal to it. *)
Definition complete_at (i : nat) : M string :=
  modify (fun st => set_tasks (update_at i (set_status "completed") (tasks st)) st) ;;;
  ts <- now_isoformat ;;
  modify (fun st => set_tasks (update_at i (set_completed_date (Some ts)) (tasks st)) st) ;;;
  l <- gets tasks ;;
  task <- or_raise IndexError (nth_error l i) ;;
  modify (fun st => set_completed (completed st ++ [task])%list st) ;;;
  l' <- or_raise ValueError (list_remove task l) ;;
  modify (set_tasks l') ;;;
  save_tasks ;;;
  ret ("Task completed: " ++ text task).

(** [complete_task] *)
Definition complete_task (task_identifier : string) : M string :=
  try_except
    (task_id <- or_raise ValueError (Py.int task_identifier) ;;
     l <- gets tasks ;;
     match first_index (fun task => Z.eqb (id task) task_id) 0 l with
     | Some i => complete_at i
     | None => ret "Task not found with that ID."
     end)
    ValueError
    (let task_text := Py.lower task_identifier in
     l <- gets tasks ;;
     match first_index (fun task => Py.contains task_text (Py.lower (text task))) 0 l with
     | Some i => complete_at i
     | None => ret "Task not found with that text."
     end).

(** [get_pending_tasks] *)
Definition get_pending_tasks : M (list Task) := gets tasks.

(** [get_completed_tasks] *)
Definition get_completed_tasks : M (list Task) := gets completed.

(** [get_tasks_by_priority] *)
Definition get_tasks_by_priority (priority_ : string) : M (list Task) :=
  let p := Py.lower priority_ in
  l <- gets tasks ;;
  ret (filter (fun task => String.eqb (priority task) p) l).

Definition plural (n : nat) : string := if n =? 1 then "" else "s".

(** [get_tasks_summary] *)
Definition get_tasks_summary : M string :=
  pending_count <- gets (fun st => List.length (tasks st)) ;;
  completed_count <- gets (fun st => List.length (completed st)) ;;
  if (pending_count =? 0) && (completed_count =? 0)
  then ret "You have no tasks."
  else
    let summary :=
      "You have " ++ Py.str_nat pending_count ++ " pending task" ++ plural pending_count in
    if 0 <? completed_count
    then ret (summary ++ " and " ++ Py.str_nat completed_count
                ++ " completed task" ++ plural completed_count)
    else ret summary.

(** [clear_completed_tasks] *)
Definition clear_completed_tasks : M string :=
  count <- gets (fun st => List.length (completed st)) ;;
  modify (set_completed []) ;;;
  save_tasks ;;;
  ret ("Cleared " ++ Py.str_nat count ++ " completed task" ++ plural count ++ ".").

(** [search_tasks] *)
Definition search_tasks (search_term : string) : M (list Task) :=
  let term := Py.lower search_term in
  l <- gets tasks ;;
  ret (filter (fun task => Py.contains term (Py.lower (text task))) l).

(** The mark [get_tasks_text] puts before a task: a red, yellow or green
    disc for the three priorities and a white one for any other. *)
Definition priority_emoji (p : string) : string :=
  if String.eqb p "high" then Py.bytes [240; 159; 148; 180]
  else if String.eqb p "medium" then Py.bytes [240; 159; 159; 161]
  else if String.eqb p "low" then Py.bytes [240; 159; 159; 162]
  else Py.bytes [226; 154; 170].

(** One entry of [task_list]: the number, the mark and the text. *)
Definition task_line (i : nat) (task : Task) : string :=
  Py.str_nat i ++ ". " ++ priority_emoji (priority task) ++ " " ++ text task.

(** [for i, task in enumerate(l, i)] collecting the entries. *)
Fixpoint task_lines (i : nat) (l : list Task) : list string :=
  match l with
  | [] => []
  | task :: rest => task_line i task :: task_lines (S i) rest
  end.

(** [get_tasks_text] *)
Definition get_tasks_text : M string :=
  l <- gets tasks ;;
  match l with
  | [] => ret "You have no pending tasks."
  | _ => ret ("Your pending tasks are: " ++ Py.join ". " (task_lines 1 l))
  end.

End TaskManager.

(* ================================================================= *)
(** ** [file_manager.py]: deletion behind a spoken confirmation *)

Module FileManager.

(** What the file system holds at a path: a folder or something else,
    and whether it can be read. *)
Record entry : Type := mkEntry {
  is_folder : bool;
  readable : bool
}.

(** What one pass through the [try] block of [listen_for_confirmation]
    meets: a recognised phrase, or one of the exceptions it catches. *)
Inductive capture : Type :=
| Heard (response : string)
| WaitTimeoutError
| UnknownValueError
| OtherError.

(** How a call of [shutil.rmtree] or [os.remove] ends. *)
Inductive removal : Type :=
| Removed
| PermissionError
| OSError (message : string).

Inductive fs_call : Type :=
| Rmtree (path : string)
| Remove (path : string).

(** The environment of [delete_item]: the platform's [os.path.expanduser]
    and [os.path.join], the entries of the file system, what the
    microphone yields at each attempt ([heard] attempts were made so
    far), how a removal at a path ends, and the removals asked for so
    far, oldest first. *)
Record Env : Type := mkEnv {
  expanduser : string -> string;
  join : string -> string -> string;
  entries : string -> option entry;
  captures : nat -> capture;
  heard : nat;
  on_remove : string -> removal;
  calls : list fs_call
}.

Definition F (A : Type) : Type := Env -> A * Env.

Definition ret {A : Type} (a : A) : F A := fun e => (a, e).

Definition bind {A B : Type} (c : F A) (k : A -> F B) : F B :=
  fun e => let '(a, e') := c e in k a e'.

Notation "x <- c ;; k" := (bind c (fun x => k))
  (at level 61, c at next level, right associativity).

Definition ask {A : Type} (f : Env -> A) : F A := fun e => (f e, e).

(** [validate_path] *)
Definition validate_path (path : string) : F bool :=
  ask (fun e => match entries e path with
                | Some x => readable x
                | None => false
                end).

Definition folder_mapping : list (string * string) :=
  [ ("desktop", "~/Desktop"); ("documents", "~/Documents");
    ("downloads", "~/Downloads"); ("pictures", "~/Pictures");
    ("music", "~/Music"); ("videos", "~/Videos") ].

Fixpoint lookup (k : string) (d : list (string * string)) : option string :=
  match d with
  | [] => None
  | (k', v) :: r => if String.eqb k k' then Some v else lookup k r
  end.

(** [get_full_path] *)
Definition get_full_path (folder_path : string) : F string :=
  let folder_lower := Py.lower folder_path in
  match lookup folder_lower folder_mapping with
  | Some p => ask (fun e => expanduser e p)
  | None => ask (fun e => expanduser e folder_path)
  end.

Definition isdir (path : string) : F bool :=
  ask (fun e => match entries e path with
                | Some x => is_folder x
                | None => false
                end).

(** One reading of the microphone. *)
Definition next_capture : F capture :=
  fun e =>
    (captures e (heard e),
     mkEnv (expanduser e) (join e) (entries e) (captures e) (S (heard e))
           (on_remove e) (calls e)).

Definition affirmative : list string :=
  ["yes"; "yeah"; "yep"; "sure"; "okay"; "ok"; "confirm"].

Definition negative : list string :=
  ["no"; "nope"; "nah"; "cancel"; "stop"].

Definition mem (s : string) (l : list string) : bool :=
  existsb (String.eqb s) l.

(** The [for attempt in range(...)] loop of [listen_for_confirmation]
    with [attempts] passes left, and the [return "no"] after it. *)
Fixpoint listen_loop (attempts : nat) : F string :=
  match attempts with
  | O => ret "no"
  | S k =>
      c <- next_capture ;;
      match c with
      | Heard r =>
          let response := Py.lower r in
          if mem response affirmative then ret "yes"
          else if mem response negative then ret "no"
          else listen_loop k
      | WaitTimeoutError => listen_loop k
      | UnknownValueError => listen_loop k
      | OtherError => listen_loop k
      end
  end.

Definition max_attempts : nat := 3.

(** [listen_for_confirmation] *)
Definition listen_for_confirmation : F string := listen_loop max_attempts.

(** [shutil.rmtree(path)] / [os.remove(path)]: the call is recorded; when
    it goes through, the entry is gone. *)
Definition remove_path (call : fs_call) (path : string) : F removal :=
  fun e =>
    let r := on_remove e path in
    let entries' :=
      match r with
      | Removed => fun p => if String.eqb p path then None else entries e p
      | _ => entries e
      end in
    (r, mkEnv (expanduser e) (join e) entries' (captures e) (heard e)
              (on_remove e) (calls e ++ [call])%list).

Definition quoted (s : string) : string := "'" ++ s ++ "'".

(** [delete_item]; what it prints is left out. *)
Definition delete_item (item_name from_folder : string) : F string :=
  folder <- get_full_path from_folder ;;
  from_path <- ask (fun e => join e folder item_name) ;;
  valid <- validate_path from_path ;;
  if negb valid
  then ret ("Error: " ++ quoted item_name ++ " not found in " ++ quoted from_folder
              ++ " or path is not accessible.")
  else
    confirmation <- listen_for_confirmation ;;
    if negb (String.eqb confirmation "yes")
    then ret "Delete operation cancelled."
    else
      dir <- isdir from_path ;;
      r <- remove_path (if dir then Rmtree from_path else Remove from_path) from_path ;;
      match r with
      | Removed =>
          ret ("Successfully deleted " ++ quoted item_name ++ " from "
                 ++ quoted from_folder ++ ".")
      | PermissionError =>
          ret ("Error: Permission denied. Cannot delete " ++ quoted item_name ++ ".")
      | OSError msg =>
          ret ("Error deleting " ++ quoted item_name ++ ": " ++ msg)
      end.

End FileManager.

(* ================================================================= *)
(** ** [file_manager.py]: moving and copying *)

Module FileTransfer.

(** How [os.makedirs], [shutil.move], [shutil.copytree] or
    [shutil.copy2] ends: it goes through, it raises [PermissionError], or
    it raises another exception whose text is [message]. *)
Inductive outcome : Type :=
| Done
| Denied (message : string)
| Failed (message : string).

Inductive call : Type :=
| Makedirs (path : string)
| Move (source destination : string)
| Copytree (source destination : string)
| Copy2 (source destination : string).

(** The environment of [move_item] and [copy_item]: that of
    [delete_item], how the creation of a folder and how a transfer from
    one path to another end, and the calls made so far, oldest first.
    Of a folder only the entry at its own path is kept track of. *)
Record Disk : Type := mkDisk {
  env : FileManager.Env;
  on_makedirs : string -> outcome;
  on_transfer : string -> string -> outcome;
  made : list call
}.

Definition T (A : Type) : Type := Disk -> A * Disk.

Definition ret {A : Type} (a : A) : T A := fun d => (a, d).

Definition bind {A B : Type} (c : T A) (k : A -> T B) : T B :=
  fun d => let '(a, d') := c d in k a d'.

Notation "x <- c ;; k" := (bind c (fun x => k))
  (at level 61, c at next level, right associativity).

(** A function of [file_manager.py] that works on the environment of
    [delete_item]. *)
Definition lift {A : Type} (c : FileManager.F A) : T A :=
  fun d =>
    let '(a, e') := c (env d) in
    (a, mkDisk e' (on_makedirs d) (on_transfer d) (made d)).

(** [os.path.exists] *)
Definition path_exists (path : string) : T bool :=
  lift (FileManager.ask
          (fun e => match FileManager.entries e path with
                    | Some _ => true
                    | None => false
                    end)).

(** The environment with [x] at [path]. *)
Definition put (path : string) (x : option FileManager.entry) (e : FileManager.Env)
  : FileManager.Env :=
  FileManager.mkEnv (FileManager.expanduser e) (FileManager.join e)
    (fun p => if String.eqb p path then x else FileManager.entries e p)
    (FileManager.captures e) (FileManager.heard e) (FileManager.on_remove e)
    (FileManager.calls e).

Definition record (c : call) (f : FileManager.Env -> FileManager.Env) : T unit :=
  fun d =>
    (tt, mkDisk (f (env d)) (on_makedirs d) (on_transfer d) (made d ++ [c])%list).

(** [os.makedirs(path)]: when it goes through there is a folder at
    [path]. *)
Definition makedirs (path : string) : T outcome :=
  r <- (fun d => (on_makedirs d path, d)) ;;
  _ <- record (Makedirs path)
         (match r with
          | Done => put path (Some (FileManager.mkEntry true true))
          | _ => fun e => e
          end) ;;
  ret r.

(** [shutil.move(source, destination)]: when it goes through, what was
    at [source] is at [destination] and nothing is at [source]. *)
Definition move (source destination : string) : T outcome :=
  r <- (fun d => (on_transfer d source destination, d)) ;;
  _ <- record (Move source destination)
         (match r with
          | Done =>
              fun e => put source None (put destination (FileManager.entries e source) e)
          | _ => fun e => e
          end) ;;
  ret r.

(** [shutil.copytree] for a folder and [shutil.copy2] for anything else:
    when it goes through, what is at [source] is at [destination] too. *)
Definition copy (source destination : string) : T outcome :=
  folder <- lift (FileManager.isdir source) ;;
  r <- (fun d => (on_transfer d source destination, d)) ;;
  _ <- record (if folder then Copytree source destination else Copy2 source destination)
         (match r with
          | Done => fun e => put destination (FileManager.entries e source) e
          | _ => fun e => e
          end) ;;
  ret r.

Definition quoted := FileManager.quoted.

(** The part [move_item] and [copy_item] share: the paths, the check of
    the source, the creation of the destination folder and the refusal
    to overwrite; [verb] is "move" or "copy", [verbed] "moved" or
    "copied", [verbing] "moving" or "copying" and [transfer] the
    operation itself. *)
Definition transfer_item (verb verbed verbing : string)
  (transfer : string -> string -> T outcome)
  (item_name from_folder to_folder : string) : T string :=
  from <- lift (FileManager.get_full_path from_folder) ;;
  from_path <- lift (FileManager.ask (fun e => FileManager.join e from item_name)) ;;
  to_path <- lift (FileManager.get_full_path to_folder) ;;
  to_item_path <- lift (FileManager.ask (fun e => FileManager.join e to_path item_name)) ;;
  valid <- lift (FileManager.validate_path from_path) ;;
  if negb valid
  then ret ("Error: " ++ quoted item_name ++ " not found in " ++ quoted from_folder
              ++ " or path is not accessible.")
  else
    there <- path_exists to_path ;;
    created <- (if there then ret Done else makedirs to_path) ;;
    match created with
    | Denied msg | Failed msg =>
        ret ("Error: Could not create destination folder " ++ quoted to_folder
               ++ ": " ++ msg)
    | Done =>
        taken <- path_exists to_item_path ;;
        if taken
        then ret ("Error: " ++ quoted item_name ++ " already exists in "
                    ++ quoted to_folder ++ ". Cannot " ++ verb ++ ".")
        else
          r <- transfer from_path to_item_path ;;
          match r with
          | Done =>
              ret ("Successfully " ++ verbed ++ " " ++ quoted item_name ++ " from "
                     ++ quoted from_folder ++ " to " ++ quoted to_folder ++ ".")
          | Denied _ =>
              ret ("Error: Permission denied. Cannot " ++ verb ++ " "
                     ++ quoted item_name ++ ".")
          | Failed msg =>
              ret ("Error " ++ verbing ++ " " ++ quoted item_name ++ ": " ++ msg)
          end
    end.

(** [move_item] *)
Definition move_item : string -> string -> string -> T string :=
  transfer_item "move" "moved" "moving" move.

(** [copy_item] *)
Definition copy_item : string -> string -> string -> T string :=
  transfer_item "copy" "copied" "copying" copy.

End FileTransfer.

(* ================================================================= *)
(** ** [Synbi.py]: the branch chain of [main_process] *)

Module Synbi.

(** The branches of the [if]/[elif] chain, in the order of the file.
    [NoInput] is the [continue] on an empty request and [Wait] the
    [break] that precede the chain. *)
Inductive branch : Type :=
| NoInput
| Wait | Hello
| PlaySpotify | PauseSpotify | ResumeSpotify | NextSong | PreviousSong
| ShuffleOn | ShuffleOff | RepeatSong | RepeatPlaylist | RepeatOff | SpotifyStatus
| PlayYoutube | PauseVideo | ResumeVideo | NextVideo | PreviousVideo
| MuteVideo | FullscreenVideo
| TakePicture | RecordVideo | Screenshot
| InternetSpeed | BatteryStatus | SystemInfo | Weather
| SetBrightness | SetVolume | SayTime | SayDate
| NewTask | DeleteTask | CompleteTask | ListTasks | TaskSummary | ShowTasks
| ClearCompleted | SearchTask
| MoveItem | CopyItem | DeleteItem
| OpenApp | Wikipedia | SearchGoogle | SearchYoutube
| OpenWhatsapp | SendWhatsapp
| ListProcesses | CloseProcess
| StartGesture | StopGesture
| Exit
| Unknown.

(** [any(p in request for p in phrases)] *)
Definition any_in (phrases : list string) (request : string) : bool :=
  existsb (fun p => Py.contains p request) phrases.

(** [all(p in request for p in phrases)] *)
Definition all_in (phrases : list string) (request : string) : bool :=
  forallb (fun p => Py.contains p request) phrases.

(** The tests of the chain, top to bottom. *)
Definition chain : list (branch * (string -> bool)) :=
  [ (NoInput, fun r => String.eqb r "");
    (Wait, any_in ["wait"]);
    (Hello, any_in ["hello"]);
    (PlaySpotify, any_in ["play spotify"]);
    (PauseSpotify, any_in ["pause spotify"; "stop spotify"]);
    (ResumeSpotify, any_in ["resume spotify"]);
    (NextSong, any_in ["next song"]);
    (PreviousSong, any_in ["previous song"]);
    (ShuffleOn, any_in ["shuffle on"]);
    (ShuffleOff, any_in ["shuffle off"]);
    (RepeatSong, any_in ["repeat song"]);
    (RepeatPlaylist, any_in ["repeat playlist"]);
    (RepeatOff, any_in ["repeat off"]);
    (SpotifyStatus, any_in ["spotify status"]);
    (PlayYoutube,
     fun r => Py.contains "play" r && any_in ["youtube"; "video"; "song"; "music"] r);
    (PauseVideo, any_in ["pause youtube"; "pause video"]);
    (ResumeVideo, any_in ["resume youtube"; "resume video"]);
    (NextVideo, any_in ["next youtube"; "next video"]);
    (PreviousVideo, any_in ["previous youtube"; "previous video"]);
    (MuteVideo, any_in ["mute youtube"; "mute video"]);
    (FullscreenVideo, any_in ["fullscreen youtube"; "fullscreen video"]);
    (TakePicture, any_in ["take picture"; "take a photo"]);
    (RecordVideo, any_in ["record video"]);
    (Screenshot, any_in ["take screenshot"; "screenshot"]);
    (InternetSpeed, any_in ["internet speed"; "network speed"; "check internet"]);
    (BatteryStatus, any_in ["battery status"; "battery level"; "check battery"]);
    (SystemInfo, any_in ["system info"; "system status"; "check system"]);
    (Weather, any_in ["weather"; "temperature"; "forecast"]);
    (SetBrightness, any_in ["set brightness"]);
    (SetVolume, any_in ["set volume"]);
    (SayTime, any_in ["say time"]);
    (SayDate, any_in ["say date"]);
    (NewTask, any_in ["new task"; "add task"]);
    (DeleteTask, any_in ["delete task"; "remove task"]);
    (CompleteTask, any_in ["complete task"; "mark task complete"; "finish task"]);
    (ListTasks, any_in ["speak task"; "read tasks"; "list tasks"]);
    (TaskSummary, any_in ["task summary"; "task status"]);
    (ShowTasks, any_in ["show work"; "show tasks"]);
    (ClearCompleted, any_in ["clear completed"; "clear finished tasks"]);
    (SearchTask, any_in ["search task"; "find task"]);
    (MoveItem, all_in ["move"; "from"; "to"]);
    (CopyItem, all_in ["copy"; "from"; "to"]);
    (DeleteItem, all_in ["delete"; "from"]);
    (OpenApp, any_in ["open"]);
    (Wikipedia, any_in ["wikipedia"]);
    (SearchGoogle, any_in ["search google"]);
    (SearchYoutube, any_in ["search youtube"]);
    (OpenWhatsapp, any_in ["open whatsapp"; "launch whatsapp"; "start whatsapp"]);
    (SendWhatsapp, any_in ["send whatsapp"; "whatsapp message"; "send message"]);
    (ListProcesses, any_in ["list processes"; "show processes"; "running processes"]);
    (CloseProcess, any_in ["close"; "kill"]);
    (StartGesture,
     any_in ["start gesture control"; "enable gesture control"; "begin gesture control"]);
    (StopGesture,
     any_in ["stop gesture control"; "disable gesture control"; "end gesture control"]);
    (Exit, any_in ["exit"; "quit"]) ].

(** The first branch whose test the request passes; the final [else]
    when there is none. *)
Fixpoint select (tests : list (branch * (string -> bool))) (request : string) : branch :=
  match tests with
  | [] => Unknown
  | (b, test) :: rest => if test request then b else select rest request
  end.

Definition route (request : string) : branch := select chain request.

(** What the new-task branch takes as the text of the task. *)
Definition new_task_text (request : string) : string :=
  Py.strip (Py.replace "add task" "" (Py.replace "new task" "" request)).

Definition new_task_priority (request : string) : string :=
  if any_in ["high priority"; "urgent"; "important"] request then "high"
  else if any_in ["low priority"; "not urgent"] request then "low"
  else "medium".

(** The body of the new-task branch.  [follow_up] is what [command()]
    returns when the branch has to ask for the task; the result lists
    what is spoken. *)
Definition new_task_branch (request follow_up : string) : TaskManager.M (list string) :=
  let task_text := new_task_text request in
  if negb (String.eqb task_text "")
  then
    TaskManager.bind (TaskManager.add_task task_text (new_task_priority request) None)
      (fun result => TaskManager.ret [result])
  else if negb (String.eqb follow_up "")
  then
    TaskManager.bind (TaskManager.add_task follow_up "medium" None)
      (fun result => TaskManager.ret ["What task would you like to add?"; result])
  else TaskManager.ret ["What task would you like to add?"; "No task specified."].

(** *** [command()]: one request from the microphone *)

(** What one pass through the [try] block of [command] meets. *)
Inductive reading : Type :=
| Said (content : string)
| WaitTimeout
| UnknownValue
| RequestError
| OtherFailure.

(** The microphone and the voice: what the [k]-th reading meets, the
    number of readings taken and what was spoken, oldest first. *)
Record Mic : Type := mkMic {
  readings : nat -> reading;
  taken : nat;
  spoken : list string
}.

Definition speak (audio : string) (mic : Mic) : Mic :=
  mkMic (readings mic) (taken mic) (spoken mic ++ [audio])%list.

Definition read (mic : Mic) : reading * Mic :=
  (readings mic (taken mic), mkMic (readings mic) (S (taken mic)) (spoken mic)).

(** The [for attempt in range(retries)] loop of [command] with [attempts]
    passes left, and the [return ""] after it; [RequestError] leaves the
    loop. *)
Fixpoint command_loop (attempts : nat) (mic : Mic) : string * Mic :=
  match attempts with
  | O => ("", mic)
  | S k =>
      let '(r, mic1) := read mic in
      match r with
      | Said content => (Py.lower content, mic1)
      | WaitTimeout => command_loop k mic1
      | UnknownValue =>
          command_loop k (speak "Sorry, I didn't catch that. Please say again." mic1)
      | RequestError =>
          ("", speak "Sorry, I am unable to connect to the speech service." mic1)
      | OtherFailure =>
          command_loop k (speak "Sorry, something went wrong. Please try again." mic1)
      end
  end.

Definition retries : nat := 3.

(** [command] *)
Definition command (mic : Mic) : string * Mic := command_loop retries mic.

(** *** The delete-task and complete-task branches *)

(** The common shape of the two branches: [phrases] are taken out of the
    request in turn, [act] is [delete_task] or [complete_task], and
    [follow_up] is what [command()] returns when the branch has to ask
    which task is meant.  The result lists what is spoken. *)
Definition pick_task_branch (phrases : list string) (act : string -> TaskManager.M string)
  (question nothing : string) (request follow_up : string) : TaskManager.M (list string) :=
  let task_identifier :=
    Py.strip (fold_left (fun r phrase => Py.replace phrase "" r) phrases request) in
  if negb (String.eqb task_identifier "")
  then TaskManager.bind (act task_identifier) (fun result => TaskManager.ret [result])
  else
    TaskManager.bind TaskManager.get_pending_tasks (fun tasks =>
      match tasks with
      | [] => TaskManager.ret [nothing]
      | _ =>
          TaskManager.bind TaskManager.get_tasks_text (fun listing =>
            if negb (String.eqb follow_up "")
            then TaskManager.bind (act follow_up)
                   (fun result => TaskManager.ret [question; listing; result])
            else TaskManager.ret [question; listing])
      end).

(** The branch of ["delete task"] and ["remove task"]. *)
Definition delete_task_branch : string -> string -> TaskManager.M (list string) :=
  pick_task_branch ["delete task"; "remove task"] TaskManager.delete_task
    "Which task would you like to delete? Say the number or task name."
    "You have no tasks to delete.".

(** The branch of ["complete task"], ["mark task complete"] and
    ["finish task"]. *)
Definition complete_task_branch : string -> string -> TaskManager.M (list string) :=
  pick_task_branch ["complete task"; "mark task complete"; "finish task"]
    TaskManager.complete_task
    "Which task would you like to complete? Say the number or task name."
    "You have no tasks to complete.".

End Synbi.

(* ================================================================= *)
(** * Vocabulary of the statements *)

(** [t] is the first task of [l] that passes [test], and it sits at
    position [i]. *)
Definition FirstMatch (test : TaskManager.Task -> bool) (l : list TaskManager.Task)
  (i : nat) (t : TaskManager.Task) : Prop :=
  nth_error l i = Some t
  /\ test t = true
  /\ forall j u, j < i -> nth_error l j = Some u -> test u = false.

(** The entry [complete_task] appends to ["completed"] for the pending
    task [t] when the clock reads [ts]. *)
Definition completed_entry (t : TaskManager.Task) (ts : string) : TaskManager.Task :=
  TaskManager.mkTask (TaskManager.id t) (TaskManager.text t) (TaskManager.priority t)
    "completed" (TaskManager.created t) (TaskManager.due_date t) (Some ts).

(** A test that looks at the id and the text of a task only. *)
Definition by_id_and_text (test : TaskManager.Task -> bool) : Prop :=
  forall a b,
    TaskManager.id a = TaskManager.id b -> TaskManager.text a = TaskManager.text b ->
    test a = test b.

(** The two ways an identifier picks a pending task: by its id, or by
    its text, capitals aside. *)
Definition id_is (n : Z) : TaskManager.Task -> bool :=
  fun task => Z.eqb (TaskManager.id task) n.

Definition text_has (identifier : string) : TaskManager.Task -> bool :=
  fun task => Py.contains (Py.lower identifier) (Py.lower (TaskManager.text task)).

(** The way that applies to an identifier: by id when the identifier
    reads as an integer, by text only when it does not. *)
Definition strategy (identifier : string) : TaskManager.Task -> bool :=
  match Py.int identifier with
  | Some n => id_is n
  | None => text_has identifier
  end.

(** The texts of the tasks of [l] are ASCII. *)
Definition ascii_texts (l : list TaskManager.Task) : bool :=
  forallb (fun task => Py.is_ascii (TaskManager.text task)) l.

(** The answer when the applicable way finds no pending task. *)
Definition not_found (identifier : string) : string :=
  match Py.int identifier with
  | Some _ => "Task not found with that ID."
  | None => "Task not found with that text."
  end.

(** The managers a session can hold: it starts without a file, and then
    adds, deletes, completes and clears, in any order and in any
    environment. *)
Inductive Reachable : TaskManager.Manager -> Prop :=
| reach_start (w : TaskManager.World) (m : TaskManager.Manager) :
    TaskManager.disk w = None -> TaskManager.init w = Some m -> Reachable m
| reach_world (st : TaskManager.Store) (w w' : TaskManager.World) :
    Reachable (TaskManager.mkManager st w) -> Reachable (TaskManager.mkManager st w')
| reach_add (m m' : TaskManager.Manager) (task_text priority : string)
    (due_date : option string) (r : TaskManager.result string) :
    Reachable m ->
    TaskManager.add_task task_text priority due_date m = (r, m') -> Reachable m'
| reach_delete (m m' : TaskManager.Manager) (identifier : string)
    (r : TaskManager.result string) :
    Reachable m -> TaskManager.delete_task identifier m = (r, m') -> Reachable m'
| reach_complete (m m' : TaskManager.Manager) (identifier : string)
    (r : TaskManager.result string) :
    Reachable m -> TaskManager.complete_task identifier m = (r, m') -> Reachable m'
| reach_clear (m m' : TaskManager.Manager) (r : TaskManager.result string) :
    Reachable m -> TaskManager.clear_completed_tasks m = (r, m') -> Reachable m'.


(** The managers reached from a start without a file by additions alone. *)
Inductive Grown : TaskManager.Manager -> Prop :=
| grown_start (w : TaskManager.World) (m : TaskManager.Manager) :
    TaskManager.disk w = None -> TaskManager.init w = Some m -> Grown m
| grown_world (st : TaskManager.Store) (w w' : TaskManager.World) :
    Grown (TaskManager.mkManager st w) -> Grown (TaskManager.mkManager st w')
| grown_add (m m' : TaskManager.Manager) (task_text priority : string)
    (due_date : option string) (r : TaskManager.result string) :
    Grown m ->
    TaskManager.add_task task_text priority due_date m = (r, m') -> Grown m'.

(** [found] keeps some entries of [l], in the order they have in [l]. *)
Inductive InOrder : list TaskManager.Task -> list TaskManager.Task -> Prop :=
| in_order_nil : InOrder [] []
| in_order_keep (t : TaskManager.Task) (found l : list TaskManager.Task) :
    InOrder found l -> InOrder (t :: found) (t :: l)
| in_order_skip (t : TaskManager.Task) (found l : list TaskManager.Task) :
    InOrder found l -> InOrder found (t :: l).

(** The manager a method leaves. *)
Definition after {A : Type} (c : TaskManager.M A) (m : TaskManager.Manager)
  : TaskManager.Manager :=
  snd (c m).

(** *** A session used in the checks

    No file at the start, a clock that reads [T0], [T1], ... and a file
    that can be written. *)
Definition demo_world : TaskManager.World :=
  TaskManager.mkWorld (fun k => "T" ++ Py.str_nat k) 0 None true.

Definition demo_start : TaskManager.Manager :=
  match TaskManager.init demo_world with
  | Some m => m
  | None => TaskManager.mkManager (TaskManager.mkStore [] [] "" "") demo_world
  end.

(** One pending task, "pay rent". *)
Definition demo_rent : TaskManager.Manager :=
  after (TaskManager.add_task "pay rent" "medium" None) demo_start.

(** Three additions, then the deletion of task 1: the ids left are 2 and 3. *)
Definition demo_after_delete : TaskManager.Manager :=
  after (TaskManager.delete_task "1")
    (after (TaskManager.add_task "c" "medium" None)
       (after (TaskManager.add_task "b" "medium" None)
          (after (TaskManager.add_task "a" "medium" None) demo_start))).

(** The fuel [Json.parse_value] needs on the text of a document: one
    unit for each value and one more for each item of a list or a
    dictionary. *)
Fixpoint weight (j : Json.value) : nat :=
  match j with
  | Json.JArr l =>
      S ((fix items (l : list Json.value) : nat :=
            match l with
            | [] => 0
            | x :: r => S (weight x + items r)
            end) l)
  | Json.JObj m =>
      S ((fix members (m : list (string * Json.value)) : nat :=
            match m with
            | [] => 0
            | (_, x) :: r => S (weight x + members r)
            end) m)
  | _ => 1
  end.

(** What may stand right after a value in a text [Json.dump_at] writes:
    nothing, a comma or a line break. *)
Definition delimited (rest : string) : bool :=
  match rest with
  | EmptyString => true
  | String c _ => Ascii.eqb c "," || Ascii.eqb c Json.newline
  end.

(** A numeral that is not empty and has no zero before other digits. *)
Definition plain_numeral (d : Decimal.uint) : Prop :=
  match d with
  | Decimal.Nil => False
  | Decimal.D0 Decimal.Nil => True
  | Decimal.D0 _ => False
  | _ => True
  end.

(** The items of a list after the first, as [Json.dump_at] writes them
    at depth [level]. *)
Definition items_text (level : nat) (l : list Json.value) : string :=
  (fix items (l : list Json.value) : string :=
     match l with
     | [] => ""
     | y :: ys =>
         "," ++ Json.newline_indent level ++ Json.dump_at level y ++ items ys
     end) l.

(** The members of a dictionary after the first. *)
Definition members_text (level : nat) (m : list (string * Json.value)) : string :=
  (fix members (l : list (string * Json.value)) : string :=
     match l with
     | [] => ""
     | (k', y) :: ys =>
         "," ++ Json.newline_indent level ++ Json.quote k' ++ ": "
         ++ Json.dump_at level y ++ members ys
     end) m.

Definition items_weight (l : list Json.value) : nat :=
  (fix items (l : list Json.value) : nat :=
     match l with
     | [] => 0
     | x :: r => S (weight x + items r)
     end) l.

Definition members_weight (m : list (string * Json.value)) : nat :=
  (fix members (m : list (string * Json.value)) : nat :=
     match m with
     | [] => 0
     | (_, x) :: r => S (weight x + members r)
     end) m.

(** [Json.parse_value] reads [j] back from the text [Json.dump_at]
    writes for it, whatever the depth and whatever follows. *)
Definition reads_back (j : Json.value) : Prop :=
  forall level fuel rest,
    weight j <= fuel -> delimited rest = true ->
    Json.parse_value fuel (Json.dump_at level j ++ rest) = Json.Ok j rest.

(** A text that starts with a character that is no white space and
    closes nothing. *)
Definition opens (s : string) : Prop :=
  Json.skip_ws s = s /\ Json.head_is "]" s = false /\ Json.head_is "}" s = false.

(** What one reading of the microphone settles: [Some true] for a word of
    assent, [Some false] for a word of refusal, [None] for anything else
    and for a reading that failed. *)
Definition token (c : FileManager.capture) : option bool :=
  match c with
  | FileManager.Heard r =>
      if FileManager.mem (Py.lower r) FileManager.affirmative then Some true
      else if FileManager.mem (Py.lower r) FileManager.negative then Some false
      else None
  | _ => None
  end.

(** A word of assent is captured: one of the next [n] readings is a word
    of assent and every reading before it settles nothing. *)
Definition AffirmedWithin (n : nat) (e : FileManager.Env) : Prop :=
  exists k,
    k < n
    /\ token (FileManager.captures e (FileManager.heard e + k)) = Some true
    /\ forall j, j < k ->
         token (FileManager.captures e (FileManager.heard e + j)) = None.

Definition Affirmed (e : FileManager.Env) : Prop :=
  AffirmedWithin FileManager.max_attempts e.

(** The path [delete_item] works on. *)
Definition target (e : FileManager.Env) (item_name from_folder : string) : string :=
  FileManager.join e (fst (FileManager.get_full_path from_folder e)) item_name.

(** The path exists and can be read. *)
Definition accessible (e : FileManager.Env) (path : string) : bool :=
  fst (FileManager.validate_path path e).

(** The first settling token among the [n] readings from the [k]-th on is
    a word of assent. *)
Fixpoint assent_first (n : nat) (caps : nat -> FileManager.capture) (k : nat) : bool :=
  match n with
  | O => false
  | S n' =>
      match token (caps k) with
      | Some b => b
      | None => assent_first n' caps (S k)
      end
  end.

(** *** A folder used in the checks

    [~/Downloads/report.docx] is a readable file and removals go
    through; [heard_words] is what the microphone yields. *)
Definition demo_env (heard_words : nat -> FileManager.capture) : FileManager.Env :=
  FileManager.mkEnv
    (fun p => p)
    (fun a b => a ++ "/" ++ b)
    (fun p =>
       if String.eqb p "~/Downloads/report.docx"
       then Some (FileManager.mkEntry false true)
       else None)
    heard_words 0 (fun _ => FileManager.Removed) [].

(** *** Further vocabulary *)

(** The value of the digits [d] read from the left after digits worth
    [acc]. *)
Fixpoint uint_val (acc : Z) (d : Decimal.uint) : Z :=
  match d with
  | Decimal.Nil => acc
  | Decimal.D0 d => uint_val (10 * acc + 0) d
  | Decimal.D1 d => uint_val (10 * acc + 1) d
  | Decimal.D2 d => uint_val (10 * acc + 2) d
  | Decimal.D3 d => uint_val (10 * acc + 3) d
  | Decimal.D4 d => uint_val (10 * acc + 4) d
  | Decimal.D5 d => uint_val (10 * acc + 5) d
  | Decimal.D6 d => uint_val (10 * acc + 6) d
  | Decimal.D7 d => uint_val (10 * acc + 7) d
  | Decimal.D8 d => uint_val (10 * acc + 8) d
  | Decimal.D9 d => uint_val (10 * acc + 9) d
  end.

(** No character of [s] is a blank of [int()]. *)
Fixpoint no_space (s : string) : bool :=
  match s with
  | EmptyString => true
  | String c r => negb (Py.is_int_space c) && no_space r
  end.

(** The file holds the store the manager has in memory. *)
Definition in_sync (m : TaskManager.Manager) : Prop :=
  TaskManager.disk (TaskManager.world m)
  = Some (Json.dumps (TaskManager.store_to_json (TaskManager.self_tasks m))).

(** The number of tasks a store holds, pending or completed. *)
Definition total (m : TaskManager.Manager) : nat :=
  List.length (TaskManager.tasks (TaskManager.self_tasks m))
  + List.length (TaskManager.completed (TaskManager.self_tasks m)).

(** The manager [save_tasks] leaves. *)
Definition committed (m : TaskManager.Manager) : TaskManager.Manager :=
  after TaskManager.save_tasks m.

(** The manager with its pending list replaced. *)
Definition with_tasks (l : list TaskManager.Task) (m : TaskManager.Manager)
  : TaskManager.Manager :=
  TaskManager.mkManager (TaskManager.set_tasks l (TaskManager.self_tasks m))
    (TaskManager.world m).

(** The manager after one reading of the clock. *)
Definition ticked (m : TaskManager.Manager) : TaskManager.Manager :=
  TaskManager.mkManager (TaskManager.self_tasks m)
    (snd (TaskManager.now (TaskManager.world m))).

(** The task [add_task] builds in [m]. *)
Definition new_task (m : TaskManager.Manager) (task_text priority : string)
  (due_date : option string) : TaskManager.Task :=
  TaskManager.mkTask
    (Z.of_nat (List.length (TaskManager.tasks (TaskManager.self_tasks m)) + 1))
    (Py.strip task_text) (Py.lower priority) "pending"
    (TaskManager.clock (TaskManager.world m) (TaskManager.ticks (TaskManager.world m)))
    due_date None.

(** Something is at [path], readable or not. *)
Definition occupied (e : FileManager.Env) (path : string) : bool :=
  match FileManager.entries e path with
  | Some _ => true
  | None => false
  end.

(** The answer of [delete_item], [move_item] and [copy_item] for an item
    that is not there or cannot be read. *)
Definition not_accessible (item_name from_folder : string) : string :=
  "Error: " ++ FileManager.quoted item_name ++ " not found in "
  ++ FileManager.quoted from_folder ++ " or path is not accessible.".

(** The folder a name stands for. *)
Definition folder_of (e : FileManager.Env) (folder : string) : string :=
  fst (FileManager.get_full_path folder e).

(** A disk used in the checks: the file of [demo_env] with the folders
    [~/Downloads] and [~/Documents] in place, where transfers go
    through. *)
Definition demo_disk : FileTransfer.Disk :=
  FileTransfer.mkDisk
    (FileTransfer.put "~/Documents" (Some (FileManager.mkEntry true true))
       (FileTransfer.put "~/Downloads" (Some (FileManager.mkEntry true true))
          (demo_env (fun _ => FileManager.WaitTimeoutError))))
    (fun _ => FileTransfer.Done) (fun _ _ => FileTransfer.Done) [].

(** [taken] is the branch [b] of the chain of [main_process] or a
    branch tested before it. *)
Definition no_later_than (b taken : Synbi.branch) : Prop :=
  exists pre post test,
    Synbi.chain = (pre ++ (b, test) :: post)%list
    /\ In taken (map fst pre ++ [b])%list.

(** The readings after which the loop of [command] goes on to the next
    attempt. *)
Definition passes (r : Synbi.reading) : bool :=
  match r with
  | Synbi.Said _ | Synbi.RequestError => false
  | _ => true
  end.

(** Three readings with nothing understood, then a request. *)
Definition demo_mic : Synbi.Mic :=
  Synbi.mkMic
    (fun k => match k with
              | 0 => Synbi.WaitTimeout
              | 1 => Synbi.UnknownValue
              | 2 => Synbi.Said "New Task Buy Milk"
              | _ => Synbi.RequestError
              end)
    0 [].

(* ================================================================= *)
(** * Checks on concrete inputs *)

Example lower_ex : Py.lower "Buy MILK 2x" = "buy milk 2x".
Proof. reflexivity. Qed.

Example strip_ex : Py.strip "  a b  " = "a b".
Proof. reflexivity. Qed.

(** A no-break space (U+00A0) and an ideographic space (U+3000) are
    stripped, a zero-width space (U+200B) is not, and a file separator
    (U+001C) is a blank for [strip] but not for [int]. *)
Example strip_blanks_ex :
  (Py.strip (Py.bytes [194; 160]),
   Py.strip (Py.bytes [227; 128; 128; 97; 32; 98; 194; 160; 9]),
   Py.strip (Py.bytes [226; 128; 139]),
   Py.strip (Py.bytes [28; 49]),
   Py.int (Py.bytes [28; 49]),
   Py.int (Py.bytes [9; 49; 32]))
  = ("", "a b", Py.bytes [226; 128; 139], "1", None, Some 1%Z).
Proof. reflexivity. Qed.

Example replace_ex : Py.replace "aa" "" "aaab aa c" = "ab  c".
Proof. reflexivity. Qed.

Example int_ex :
  (Py.int " 12 ", Py.int "-1_000", Py.int "", Py.int "1__0", Py.int "two", Py.int "007")
  = (Some 12%Z, Some (-1000)%Z, None, None, None, Some 7%Z).
Proof. reflexivity. Qed.

Example str_ex :
  (Py.str_nat 0, Py.str_nat 42, Py.str_int (-17), Py.str_int 0) = ("0", "42", "-17", "0").
Proof. reflexivity. Qed.

Example contains_ex :
  (Py.contains "call" "call mom", Py.contains "" "", Py.contains "mom " "call mom")
  = (true, true, false).
Proof. reflexivity. Qed.

Example dumps_ex :
  Json.dumps (Json.JArr [Json.JInt 1; Json.JArr []; Json.JObj []; Json.JNull; Json.JInt (-20)])
  = "[
  1,
  [],
  {},
  null,
  -20
]".
Proof. reflexivity. Qed.

Example loads_ex :
  (Json.loads "[1, [ ] ,null]", Json.loads "[1,]", Json.loads "01", Json.loads "",
   Json.loads "1.5", Json.loads "-0")
  = (Json.Ok (Json.JArr [Json.JInt 1; Json.JArr []; Json.JNull]) "", Json.Err, Json.Err,
     Json.Err, Json.Beyond, Json.Ok (Json.JInt 0) "").
Proof. reflexivity. Qed.

(** A start without a file gives an empty store dated by the clock. *)
Example init_ex :
  option_map TaskManager.self_tasks (TaskManager.init demo_world)
  = Some (TaskManager.mkStore [] [] "T0" "T1").
Proof. reflexivity. Qed.

(** The store comes back from the file a session left. *)
Example reload_ex :
  option_map TaskManager.self_tasks (TaskManager.init (TaskManager.world demo_after_delete))
  = Some (TaskManager.self_tasks demo_after_delete).
Proof. reflexivity. Qed.

(** With "call mom" as the one pending task, [delete_task("call")] finds
    it by its text and leaves the pending list empty. *)
Example delete_by_text_ex :
  let m := after (TaskManager.add_task "call mom" "medium" None) demo_start in
  let '(r, m') := TaskManager.delete_task "call" m in
  (r, TaskManager.tasks (TaskManager.self_tasks m'))
  = (TaskManager.Returned "Task deleted: call mom", []).
Proof. reflexivity. Qed.

(** An identifier that reads as an integer is never looked up in the
    texts. *)
Example digits_are_an_id_ex :
  let m := after (TaskManager.add_task "2 apples" "low" None) demo_start in
  TaskManager.delete_task "2" m = (TaskManager.Returned "Task not found with that ID.", m).
Proof. reflexivity. Qed.

Example summary_ex :
  fst (TaskManager.get_tasks_summary demo_after_delete)
  = TaskManager.Returned "You have 2 pending tasks".
Proof. reflexivity. Qed.

Example route_ex :
  (Synbi.route "", Synbi.route "hello there", Synbi.route "delete task 2",
   Synbi.route "delete report.docx from downloads", Synbi.route "sing")
  = (Synbi.NoInput, Synbi.Hello, Synbi.DeleteTask, Synbi.DeleteItem, Synbi.Unknown).
Proof. reflexivity. Qed.

(* ================================================================= *)
(** * Reading back what [json.dump] wrote *)

Section JsonRoundTrip.
Import Json.

Lemma append_assoc (a b c : string) : ((a ++ b) ++ c = a ++ (b ++ c))%string.
Proof. induction a as [|x a IH]; simpl; [reflexivity | now rewrite IH]. Qed.

Lemma length_append (a b : string) :
  String.length (a ++ b) = String.length a + String.length b.
Proof. induction a as [|x a IH]; simpl; [reflexivity | now rewrite IH]. Qed.

(** Induction on documents, with the hypothesis at hand for every item of
    a list and every value of a dictionary. *)
Lemma value_nested_ind (P : value -> Prop) :
  P JNull ->
  (forall b, P (JBool b)) ->
  (forall z, P (JInt z)) ->
  (forall s, P (JStr s)) ->
  (forall l, Forall P l -> P (JArr l)) ->
  (forall m, Forall (fun kv => P (snd kv)) m -> P (JObj m)) ->
  forall j, P j.
Proof.
  intros Hn Hb Hi Hs Ha Ho.
  fix IH 1. intros [| b | z | s | l | m].
  - exact Hn.
  - apply Hb.
  - apply Hi.
  - apply Hs.
  - apply Ha. induction l as [|x l IHl]; constructor; [apply IH | exact IHl].
  - apply Ho. induction m as [|[k x] m IHm]; constructor; [apply IH | exact IHm].
Qed.

(** One character of a string comes back from its escaped form. *)
Lemma scan_escape_char (c : ascii) (t : string) :
  scan_string (escape_char c ++ t) = pmap (String c) (scan_string t).
Proof.
  destruct c as [[] [] [] [] [] [] [] []]; reflexivity.
Qed.

Lemma scan_escape (s rest : string) :
  scan_string (escape s ++ String dquote rest) = Ok s rest.
Proof.
  induction s as [|c s IH]; simpl.
  - reflexivity.
  - rewrite append_assoc, scan_escape_char, IH. reflexivity.
Qed.

Lemma scan_quote (s rest : string) :
  scan_string (tail (quote s ++ rest)) = Ok s rest.
Proof.
  unfold quote. simpl. rewrite append_assoc. apply scan_escape.
Qed.

Lemma delimited_no_digit (rest : string) :
  delimited rest = true -> head_digit rest = false /\ float_follows rest = false.
Proof.
  destruct rest as [|c r]; simpl; [auto|].
  intro H. apply orb_true_iff in H.
  destruct H as [H|H]; apply Ascii.eqb_eq in H; subst c; split; reflexivity.
Qed.

Lemma span_digits_uint (d : Decimal.uint) (rest : string) :
  head_digit rest = false ->
  span_digits (NilEmpty.string_of_uint d ++ rest) = (NilEmpty.string_of_uint d, rest).
Proof.
  intro H. induction d; simpl; try (rewrite IHd; reflexivity).
  destruct rest as [|c r]; simpl in *; [reflexivity | now rewrite H].
Qed.

Lemma parse_digits_uint (d : Decimal.uint) (rest : string) :
  plain_numeral d -> delimited rest = true ->
  parse_digits (NilZero.string_of_uint d ++ rest) = Ok (Z.of_uint d) rest.
Proof.
  intros Hd Hr. destruct (delimited_no_digit rest Hr) as [H1 H2].
  assert (Hnil : d <> Decimal.Nil) by (intros ->; exact Hd).
  assert (E : NilZero.string_of_uint d = NilEmpty.string_of_uint d)
    by (destruct d; [contradiction | reflexivity ..]).
  unfold parse_digits. rewrite E, (span_digits_uint d rest H1), <- E.
  rewrite (NilZero.usu d Hnil), H2.
  destruct d as [|d'| | | | | | | | |]; try contradiction; try reflexivity.
  destruct d'; try contradiction. reflexivity.
Qed.

Lemma to_uint_plain (p : positive) : plain_numeral (Pos.to_uint p).
Proof.
  pose proof (DecimalPos.Unsigned.to_of (Pos.to_uint p)) as U.
  rewrite DecimalPos.Unsigned.of_to in U. simpl in U.
  pose proof (DecimalPos.Unsigned.to_uint_nonnil p) as N1.
  pose proof (DecimalPos.Unsigned.to_uint_nonzero p) as N2.
  destruct (Pos.to_uint p) as [|u| | | | | | | | |] eqn:E; simpl; auto.
  destruct u; auto; exfalso.
  all: rewrite DecimalFacts.unorm_D0 in U;
    match type of U with
    | Decimal.D0 ?v = Decimal.unorm ?v =>
        destruct (Decimal.nzhead v) eqn:Z;
        [ apply DecimalFacts.unorm_0 in Z; rewrite Z in U; discriminate
        | rewrite DecimalFacts.unorm_nzhead in U by (rewrite Z; discriminate);
          symmetry in U; now apply DecimalFacts.nzhead_nonzero in U .. ]
    end.
Qed.

(** The text of an integer starts with a sign or a digit. *)
Lemma str_int_head (z : Z) (rest : string) :
  exists c r, (Py.str_int z ++ rest)%string = String c r
              /\ (head_is "-" (String c r) || head_digit (String c r)) = true.
Proof.
  unfold Py.str_int. destruct z as [|p|p]; simpl.
  - do 2 eexists. split; reflexivity.
  - pose proof (to_uint_plain p) as H.
    destruct (Pos.to_uint p) as [|u| | | | | | | | |]; try contradiction;
      try (do 2 eexists; split; reflexivity).
  - do 2 eexists. split; reflexivity.
Qed.

Lemma parse_number_str_int (z : Z) (rest : string) :
  delimited rest = true ->
  parse_number (Py.str_int z ++ rest) = Ok z rest.
Proof.
  intro Hr. unfold Py.str_int. destruct z as [|p|p]; simpl Z.to_int; simpl NilZero.string_of_int.
  - change "0" with (NilZero.string_of_uint (Decimal.D0 Decimal.Nil)).
    unfold parse_number. simpl head_is.
    now rewrite parse_digits_uint.
  - pose proof (to_uint_plain p) as H.
    assert (Hh : head_is "-" (NilZero.string_of_uint (Pos.to_uint p) ++ rest) = false).
    { destruct (Pos.to_uint p) as [|u| | | | | | | | |]; try contradiction; reflexivity. }
    unfold parse_number. rewrite Hh, (parse_digits_uint _ _ H Hr).
    unfold Z.of_uint. now rewrite DecimalPos.Unsigned.of_to.
  - pose proof (to_uint_plain p) as H.
    assert (Hh : head_is "I" (NilZero.string_of_uint (Pos.to_uint p) ++ rest) = false).
    { destruct (Pos.to_uint p) as [|u| | | | | | | | |]; try contradiction; reflexivity. }
    unfold parse_number. simpl head_is. simpl tail.
    rewrite Hh, (parse_digits_uint _ _ H Hr).
    unfold Z.of_uint. now rewrite DecimalPos.Unsigned.of_to.
Qed.

Lemma skip_ws_spaces (n : nat) (s : string) :
  skip_ws (spaces n ++ s) = skip_ws s.
Proof. induction n as [|n IH]; simpl; [reflexivity | exact IH]. Qed.

Lemma skip_ws_newline_indent (n : nat) (s : string) :
  skip_ws (newline_indent n ++ s) = skip_ws s.
Proof. unfold newline_indent. simpl. apply skip_ws_spaces. Qed.

Lemma head_number_opens (c : ascii) (r : string) :
  (head_is "-" (String c r) || head_digit (String c r)) = true -> opens (String c r).
Proof.
  unfold opens. simpl.
  destruct c as [[] [] [] [] [] [] [] []]; simpl; intro H;
    try discriminate; repeat split.
Qed.

Lemma dump_opens (level : nat) (j : value) (rest : string) :
  opens (dump_at level j ++ rest).
Proof.
  destruct j as [| [|] | z | s | [|x l] | [|[k x] m]]; try (repeat split; fail).
  destruct (str_int_head z rest) as (c & r & E & H).
  simpl dump_at. rewrite E. now apply head_number_opens.
Qed.

Lemma parse_value_number (fuel : nat) (c : ascii) (r : string) :
  (head_is "-" (String c r) || head_digit (String c r)) = true ->
  parse_value (S fuel) (String c r) = pmap JInt (parse_number (String c r)).
Proof.
  simpl.
  destruct c as [[] [] [] [] [] [] [] []]; simpl; intro H;
    try discriminate; reflexivity.
Qed.

Lemma int_reads_back (z : Z) : reads_back (JInt z).
Proof.
  intros level [|fuel] rest Hw Hr; [simpl in Hw; lia|].
  destruct (str_int_head z rest) as (c & r & E & H).
  simpl dump_at. rewrite E, (parse_value_number fuel c r H), <- E.
  now rewrite parse_number_str_int.
Qed.

Lemma atom_reads_back (j : value) :
  match j with JArr _ | JObj _ => False | _ => True end -> reads_back j.
Proof.
  destruct j as [| [|] | z | s | l | m]; intros []; try apply int_reads_back;
    intros level [|fuel] rest Hw Hr; try (simpl in Hw; lia); try reflexivity.
  change (parse_value (S fuel) (dump_at level (JStr s) ++ rest))
    with (pmap JStr (scan_string (tail (quote s ++ rest)))).
  now rewrite scan_quote.
Qed.

Lemma parse_items_step (fuel : nat) (s : string) :
  parse_items (S fuel) s
  = match parse_value fuel s with
    | Ok v r =>
        let r1 := skip_ws r in
        if head_is "]" r1 then Ok [v] (tail r1)
        else if head_is "," r1
             then pmap (cons v) (parse_items fuel (skip_ws (tail r1)))
             else Err
    | Err => Err
    | Beyond => Beyond
    end.
Proof. reflexivity. Qed.

Lemma parse_members_step (fuel : nat) (s : string) :
  parse_members (S fuel) s
  = if head_is dquote s then
      match scan_string (tail s) with
      | Ok k r =>
          let r1 := skip_ws r in
          if head_is ":" r1 then
            match parse_value fuel (skip_ws (tail r1)) with
            | Ok v r2 =>
                let r3 := skip_ws r2 in
                if head_is "}" r3 then Ok [(k, v)] (tail r3)
                else if head_is "," r3
                     then pmap (cons (k, v)) (parse_members fuel (skip_ws (tail r3)))
                     else Err
            | Err => Err
            | Beyond => Beyond
            end
          else Err
      | Err => Err
      | Beyond => Beyond
      end
    else Err.
Proof. reflexivity. Qed.

Lemma delimited_newline_indent (n : nat) (s : string) :
  delimited (newline_indent n ++ s) = true.
Proof. reflexivity. Qed.

Lemma items_read_back (xs : list value) :
  Forall reads_back xs ->
  forall x level n fuel rest,
    reads_back x ->
    items_weight (x :: xs) <= fuel ->
    parse_items fuel
      (dump_at level x ++ items_text level xs ++ newline_indent n ++ String "]" rest)
    = Ok (x :: xs) rest.
Proof.
  induction 1 as [|y ys Hy _ IH]; intros x level n [|fuel] rest Hx Hw;
    try (simpl in Hw; lia); rewrite parse_items_step.
  - change (items_text level [] ++ newline_indent n ++ String "]" rest)%string
      with (newline_indent n ++ String "]" rest)%string.
    rewrite (Hx level fuel _) by (simpl in Hw; try lia; apply delimited_newline_indent).
    cbv zeta. rewrite skip_ws_newline_indent. reflexivity.
  - change (items_text level (y :: ys) ++ newline_indent n ++ String "]" rest)%string
      with (String ","
              ((newline_indent level ++ dump_at level y ++ items_text level ys)
                 ++ newline_indent n ++ String "]" rest))%string.
    rewrite !append_assoc.
    match goal with
    | |- context [String "," ?t] => remember t as T eqn:ET
    end.
    rewrite (Hx level fuel _) by (simpl in Hw; try lia; reflexivity).
    cbv zeta. simpl. subst T.
    rewrite skip_ws_newline_indent.
    destruct (dump_opens level y
                (items_text level ys ++ newline_indent n ++ String "]" rest)) as (-> & _).
    rewrite IH; [reflexivity | exact Hy |].
    change (items_weight (x :: y :: ys)) with (S (weight x + items_weight (y :: ys))) in Hw.
    lia.
Qed.

Lemma members_read_back (ms : list (string * value)) :
  Forall (fun kv => reads_back (snd kv)) ms ->
  forall k x level n fuel rest,
    reads_back x ->
    members_weight ((k, x) :: ms) <= fuel ->
    parse_members fuel
      (quote k ++ ": " ++ dump_at level x ++ members_text level ms
         ++ newline_indent n ++ String "}" rest)
    = Ok ((k, x) :: ms) rest.
Proof.
  induction 1 as [|[k' y] ys Hy _ IH]; intros k x level n [|fuel] rest Hx Hw;
    try (simpl in Hw; lia); rewrite parse_members_step.
  - change (members_text level [] ++ newline_indent n ++ String "}" rest)%string
      with (newline_indent n ++ String "}" rest)%string.
    change (head_is dquote (quote k ++ ?t)) with true. cbv iota.
    rewrite scan_quote. cbv zeta.
    change (": " ++ ?t)%string with (String ":" (String " " t)).
    remember (dump_at level x ++ newline_indent n ++ String "}" rest)%string as T eqn:ET.
    simpl. subst T.
    destruct (dump_opens level x (newline_indent n ++ String "}" rest)) as (-> & _).
    rewrite (Hx level fuel _) by (simpl in Hw; try lia; apply delimited_newline_indent).
    rewrite skip_ws_newline_indent. reflexivity.
  - change (members_text level ((k', y) :: ys) ++ newline_indent n ++ String "}" rest)%string
      with (String ","
              ((newline_indent level ++ quote k' ++ ": " ++ dump_at level y
                  ++ members_text level ys)
                 ++ newline_indent n ++ String "}" rest))%string.
    rewrite !append_assoc.
    change (head_is dquote (quote k ++ ?t)) with true. cbv iota.
    rewrite scan_quote. cbv zeta.
    change (": " ++ ?t)%string with (String ":" (String " " t)).
    match goal with
    | |- context [String "," ?t] => remember t as U eqn:EU
    end.
    remember (dump_at level x ++ String "," U)%string as T eqn:ET.
    simpl. subst T.
    destruct (dump_opens level x (String "," U)) as (-> & _).
    rewrite (Hx level fuel _) by (simpl in Hw; try lia; reflexivity).
    simpl. subst U.
    rewrite skip_ws_newline_indent.
    change (skip_ws (quote k' ++ ?t)) with (quote k' ++ t)%string.
    rewrite IH; [reflexivity | exact Hy |].
    change (members_weight ((k, x) :: (k', y) :: ys))
      with (S (weight x + members_weight ((k', y) :: ys))) in Hw.
    lia.
Qed.

Theorem every_value_reads_back (j : value) : reads_back j.
Proof.
  induction j as [| b | z | s | l Hl | m Hm] using value_nested_ind;
    try (apply atom_reads_back; exact I).
  - destruct Hl as [|x xs Hx Hxs].
    + intros level [|fuel] rest Hw Hr; [simpl in Hw; lia | reflexivity].
    + intros level [|fuel] rest Hw Hr; [simpl in Hw; lia|].
      change (dump_at level (JArr (x :: xs)) ++ rest)%string
        with (String "["
                ((newline_indent (S level) ++ dump_at (S level) x
                    ++ items_text (S level) xs ++ newline_indent level ++ "]") ++ rest))%string.
      rewrite !append_assoc.
      change ("]" ++ rest)%string with (String "]" rest).
      change (parse_value (S fuel) (String "[" ?t))
        with (let r := skip_ws t in
              if head_is "]" r then Ok (JArr []) (tail r)
              else pmap JArr (parse_items fuel r)).
      cbv zeta. rewrite skip_ws_newline_indent.
      destruct (dump_opens (S level) x
                  (items_text (S level) xs ++ newline_indent level ++ String "]" rest))
        as (-> & -> & _).
      rewrite items_read_back; [reflexivity | exact Hxs | exact Hx |].
      change (weight (JArr (x :: xs))) with (S (items_weight (x :: xs))) in Hw. lia.
  - destruct Hm as [|[k x] xs Hx Hxs].
    + intros level [|fuel] rest Hw Hr; [simpl in Hw; lia | reflexivity].
    + intros level [|fuel] rest Hw Hr; [simpl in Hw; lia|].
      change (dump_at level (JObj ((k, x) :: xs)) ++ rest)%string
        with (String "{"
                ((newline_indent (S level) ++ quote k ++ ": " ++ dump_at (S level) x
                    ++ members_text (S level) xs ++ newline_indent level ++ "}") ++ rest))%string.
      rewrite !append_assoc.
      change ("}" ++ rest)%string with (String "}" rest).
      change (parse_value (S fuel) (String "{" ?t))
        with (let r := skip_ws t in
              if head_is "}" r then Ok (JObj []) (tail r)
              else pmap JObj (parse_members fuel r)).
      cbv zeta. rewrite skip_ws_newline_indent.
      change (skip_ws (quote k ++ ?t)) with (quote k ++ t)%string.
      change (head_is "}" (quote k ++ ?t)) with false. cbv iota.
      rewrite members_read_back; [reflexivity | exact Hxs | exact Hx |].
      change (weight (JObj ((k, x) :: xs))) with (S (members_weight ((k, x) :: xs))) in Hw.
      lia.
Qed.

Lemma append_nil_r (s : string) : (s ++ "")%string = s.
Proof. induction s as [|c s IH]; simpl; [reflexivity | now rewrite IH]. Qed.

Lemma str_int_length (z : Z) : 1 <= String.length (Py.str_int z).
Proof.
  destruct (str_int_head z "") as (c & r & E & _).
  rewrite append_nil_r in E. rewrite E. simpl. lia.
Qed.

Lemma items_weight_le_length (level : nat) (xs : list value) :
  Forall (fun x => forall level, weight x <= String.length (dump_at level x)) xs ->
  items_weight xs <= String.length (items_text level xs).
Proof.
  induction 1 as [|y ys Hy _ IH]; [apply Nat.le_refl|].
  change (items_weight (y :: ys)) with (S (weight y + items_weight ys)).
  change (items_text level (y :: ys))
    with (String "," (newline_indent level ++ dump_at level y ++ items_text level ys))%string.
  cbn [String.length]. rewrite !length_append. specialize (Hy level). lia.
Qed.

Lemma members_weight_le_length (level : nat) (xs : list (string * value)) :
  Forall (fun kv => forall level, weight (snd kv) <= String.length (dump_at level (snd kv))) xs ->
  members_weight xs <= String.length (members_text level xs).
Proof.
  induction 1 as [|[k y] ys Hy _ IH]; [apply Nat.le_refl|].
  change (members_weight ((k, y) :: ys)) with (S (weight y + members_weight ys)).
  change (members_text level ((k, y) :: ys))
    with (String ","
            (newline_indent level ++ quote k ++ ": " ++ dump_at level y
               ++ members_text level ys))%string.
  cbn [String.length]. rewrite !length_append. specialize (Hy level). simpl in Hy. lia.
Qed.

Lemma weight_le_length (j : value) :
  forall level, weight j <= String.length (dump_at level j).
Proof.
  induction j as [| b | z | s | l Hl | m Hm] using value_nested_ind; intro level.
  - simpl. lia.
  - destruct b; simpl; lia.
  - apply str_int_length.
  - simpl. lia.
  - destruct Hl as [|x xs Hx Hxs]; [simpl; lia|].
    change (weight (JArr (x :: xs))) with (S (S (weight x + items_weight xs))).
    change (dump_at level (JArr (x :: xs)))
      with (String "["
              (newline_indent (S level) ++ dump_at (S level) x
                 ++ items_text (S level) xs ++ newline_indent level ++ "]"))%string.
    cbn [String.length]. rewrite !length_append.
    pose proof (items_weight_le_length (S level) xs Hxs). specialize (Hx (S level)).
    unfold newline_indent. cbn [String.length]. lia.
  - destruct Hm as [|[k x] xs Hx Hxs]; [simpl; lia|].
    change (weight (JObj ((k, x) :: xs))) with (S (S (weight x + members_weight xs))).
    change (dump_at level (JObj ((k, x) :: xs)))
      with (String "{"
              (newline_indent (S level) ++ quote k ++ ": " ++ dump_at (S level) x
                 ++ members_text (S level) xs ++ newline_indent level ++ "}"))%string.
    cbn [String.length]. rewrite !length_append.
    pose proof (members_weight_le_length (S level) xs Hxs). specialize (Hx (S level)).
    simpl in Hx. unfold newline_indent. cbn [String.length]. lia.
Qed.

(** [json.loads] gives back the document [json.dumps] wrote. *)
Theorem loads_dumps (j : value) : loads (dumps j) = Ok j "".
Proof.
  unfold loads, dumps.
  destruct (dump_opens 0 j "") as (H & _). rewrite append_nil_r in H. rewrite H.
  pose proof (every_value_reads_back j 0 (S (String.length (dump_at 0 j))) "") as P.
  rewrite append_nil_r in P. rewrite P; [reflexivity | | reflexivity].
  pose proof (weight_le_length j 0). lia.
Qed.
End JsonRoundTrip.

(* ================================================================= *)
(** * The task store *)

Section TaskStore.
Import TaskManager.

Ltac run_m :=
  unfold add_task, delete_task, complete_task, clear_completed_tasks, search_tasks,
    delete_at, complete_at, pop, save_tasks, try_except, bind, ret, raise, or_raise,
    gets, modify, now_isoformat, now, can_write, write_file in *; simpl in *.

Lemma first_index_shift (test : Task -> bool) (l : list Task) (k : nat) :
  first_index test (S k) l = option_map S (first_index test k l).
Proof.
  revert k. induction l as [|a l IH]; intro k; simpl.
  - reflexivity.
  - destruct (test a); [reflexivity | apply IH].
Qed.

Lemma first_index_found (test : Task -> bool) (l : list Task) (i : nat) (t : Task) :
  FirstMatch test l i t -> first_index test 0 l = Some i.
Proof.
  revert i. induction l as [|a l IH]; intros i (Hn & Ht & Hb).
  - destruct i; discriminate.
  - simpl. destruct i as [|i].
    + simpl in Hn. injection Hn as ->. now rewrite Ht.
    + rewrite (Hb 0 a) by (simpl; auto; lia).
      rewrite first_index_shift, (IH i); [reflexivity|].
      repeat split; auto.
      intros j u Hj Hu. apply (Hb (S j) u); [lia | exact Hu].
Qed.

Lemma first_index_sound (test : Task -> bool) (l : list Task) (i : nat) :
  first_index test 0 l = Some i -> exists t, FirstMatch test l i t.
Proof.
  revert i. induction l as [|a l IH]; intros i H; simpl in H.
  - discriminate.
  - destruct (test a) eqn:Ea.
    + injection H as <-. exists a. repeat split; auto. intros j u Hj. lia.
    + rewrite first_index_shift in H.
      destruct (first_index test 0 l) as [i'|] eqn:E; [|discriminate].
      injection H as <-. destruct (IH i' eq_refl) as (t & Hn & Ht & Hb).
      exists t. repeat split; auto.
      intros [|j] u Hj Hu; simpl in Hu.
      * now injection Hu as <-.
      * apply (Hb j u); [lia | exact Hu].
Qed.

Lemma first_index_none (test : Task -> bool) (l : list Task) :
  (forall t, In t l -> test t = false) -> first_index test 0 l = None.
Proof.
  induction l as [|a l IH]; intro H; simpl.
  - reflexivity.
  - rewrite (H a) by (left; reflexivity).
    rewrite first_index_shift, IH; [reflexivity|].
    intros t Ht. apply H. now right.
Qed.

Lemma save_tasks_run (m : Manager) :
  exists w',
    save_tasks m
    = (Returned (writable (world m)),
       mkManager (set_last_modified (clock (world m) (ticks (world m))) (self_tasks m)) w')
    /\ writable w' = writable (world m) /\ clock w' = clock (world m)
    /\ ticks w' = S (ticks (world m)).
Proof.
  run_m. destruct (writable (world m)) eqn:E; eexists; split; try reflexivity; simpl; auto.
Qed.

Lemma delete_at_run (m : Manager) (i : nat) (t : Task) :
  nth_error (tasks (self_tasks m)) i = Some t ->
  exists w',
    delete_at i m
    = (Returned ("Task deleted: " ++ text t),
       mkManager
         (mkStore (remove_nth i (tasks (self_tasks m))) (completed (self_tasks m))
                  (created_date (self_tasks m)) (clock (world m) (ticks (world m))))
         w').
Proof.
  intro H. run_m. rewrite H. simpl.
  destruct (writable (world m)); eexists; reflexivity.
Qed.

Lemma opt_eqb_eq (a b : option string) : opt_eqb a b = true <-> a = b.
Proof.
  destruct a, b; simpl; split; intro H; try congruence; try discriminate.
  - apply String.eqb_eq in H. now subst.
  - injection H as ->. apply String.eqb_refl.
Qed.

Lemma task_eqb_eq (a b : Task) : task_eqb a b = true <-> a = b.
Proof.
  unfold task_eqb. split.
  - intro H. repeat (apply andb_true_iff in H; destruct H as [H ?]).
    destruct a, b; simpl in *.
    apply Z.eqb_eq in H.
    repeat match goal with
           | E : String.eqb _ _ = true |- _ => apply String.eqb_eq in E
           | E : opt_eqb _ _ = true |- _ => apply opt_eqb_eq in E
           end.
    congruence.
  - intros ->. rewrite Z.eqb_refl, !String.eqb_refl.
    assert (R : forall o, opt_eqb o o = true) by (intro o; now apply opt_eqb_eq).
    now rewrite !R.
Qed.

(** [remove] drops the entry at position [i] when no earlier entry is
    equal to it. *)
Lemma list_remove_at (x : Task) (l : list Task) (i : nat) :
  nth_error l i = Some x ->
  (forall j u, j < i -> nth_error l j = Some u -> u <> x) ->
  list_remove x l = Some (remove_nth i l).
Proof.
  revert i. induction l as [|a l IH]; intros i Hn Hb.
  - destruct i; discriminate.
  - destruct i as [|i]; simpl in *.
    + injection Hn as ->.
      assert (E : task_eqb x x = true) by now apply task_eqb_eq.
      now rewrite E.
    + destruct (task_eqb a x) eqn:E.
      * apply task_eqb_eq in E. exfalso. apply (Hb 0 a); [lia | reflexivity | exact E].
      * rewrite (IH i Hn); [reflexivity|].
        intros j u Hj Hu. apply (Hb (S j) u); [lia | exact Hu].
Qed.

Lemma update_at_nth (f : Task -> Task) (l : list Task) (i : nat) (t : Task) :
  nth_error l i = Some t -> nth_error (update_at i f l) i = Some (f t).
Proof.
  revert i. induction l as [|a l IH]; intros [|i] H; simpl in *; try discriminate.
  - now injection H as ->.
  - now apply IH.
Qed.

Lemma update_at_other (f : Task -> Task) (l : list Task) (i j : nat) :
  j <> i -> nth_error (update_at i f l) j = nth_error l j.
Proof.
  revert i j. induction l as [|a l IH]; intros [|i] [|j] H; simpl;
    try reflexivity; try congruence.
  apply IH. congruence.
Qed.

Lemma remove_nth_update_at (f : Task -> Task) (l : list Task) (i : nat) :
  remove_nth i (update_at i f l) = remove_nth i l.
Proof.
  unfold remove_nth. revert i. induction l as [|a l IH]; intros [|i]; simpl; auto.
  f_equal. apply IH.
Qed.

Lemma complete_at_run (test : Task -> bool) (m : Manager) (i : nat) (t : Task) :
  by_id_and_text test ->
  FirstMatch test (tasks (self_tasks m)) i t ->
  exists w',
    complete_at i m
    = (Returned ("Task completed: " ++ text t),
       mkManager
         (mkStore (remove_nth i (tasks (self_tasks m)))
                  (completed (self_tasks m)
                     ++ [completed_entry t (clock (world m) (ticks (world m)))])%list
                  (created_date (self_tasks m))
                  (clock (world m) (S (ticks (world m)))))
         w').
Proof.
  intros Hid (Hn & Ht & Hb).
  set (ts := clock (world m) (ticks (world m))).
  set (l2 := update_at i (set_completed_date (Some ts))
               (update_at i (set_status "completed") (tasks (self_tasks m)))).
  assert (N2 : nth_error l2 i = Some (completed_entry t ts)).
  { unfold l2. rewrite (update_at_nth _ _ i (set_status "completed" t)).
    - reflexivity.
    - now apply update_at_nth. }
  assert (R : list_remove (completed_entry t ts) l2
              = Some (remove_nth i (tasks (self_tasks m)))).
  { rewrite (list_remove_at _ _ i N2).
    - unfold l2. now rewrite !remove_nth_update_at.
    - intros j u Hj Hu ->. unfold l2 in Hu.
      rewrite !update_at_other in Hu by lia.
      pose proof (Hb j _ Hj Hu) as F.
      rewrite (Hid _ t) in F by reflexivity. congruence. }
  unfold complete_at, bind, modify, gets, now_isoformat, now, or_raise, ret. simpl.
  fold ts. fold l2. rewrite N2. simpl. rewrite R. simpl.
  unfold save_tasks, bind, modify, gets, now_isoformat, now, can_write, write_file, ret. simpl.
  destruct (writable (world m)); eexists; reflexivity.
Qed.

Lemma id_is_by_id_and_text (n : Z) : by_id_and_text (id_is n).
Proof. intros a b Hi _. unfold id_is. now rewrite Hi. Qed.

Lemma text_has_by_id_and_text (s : string) : by_id_and_text (text_has s).
Proof. intros a b _ Ht. unfold text_has. now rewrite Ht. Qed.

Lemma strategy_by_id_and_text (s : string) : by_id_and_text (strategy s).
Proof.
  unfold strategy. destruct (Py.int s).
  - apply id_is_by_id_and_text.
  - apply text_has_by_id_and_text.
Qed.

(** [delete_task] runs the loop of the applicable way. *)
Lemma delete_task_unfold (ident : string) (m : Manager) :
  delete_task ident m
  = match first_index (strategy ident) 0 (tasks (self_tasks m)) with
    | Some i => delete_at i m
    | None => (Returned (not_found ident), m)
    end.
Proof.
  unfold delete_task, strategy, not_found, try_except, bind, or_raise, gets, ret, raise.
  destruct (Py.int ident) as [n|]; simpl.
  - fold (id_is n).
    destruct (first_index (id_is n) 0 (tasks (self_tasks m))) as [i|] eqn:E; [|reflexivity].
    destruct (first_index_sound _ _ _ E) as (t & Hn & _).
    destruct (delete_at_run m i t Hn) as (w' & ->). reflexivity.
  - fold (text_has ident).
    destruct (first_index (text_has ident) 0 (tasks (self_tasks m))); reflexivity.
Qed.

(** [complete_task] runs the loop of the applicable way. *)
Lemma complete_task_unfold (ident : string) (m : Manager) :
  complete_task ident m
  = match first_index (strategy ident) 0 (tasks (self_tasks m)) with
    | Some i => complete_at i m
    | None => (Returned (not_found ident), m)
    end.
Proof.
  unfold complete_task, strategy, not_found, try_except, bind, or_raise, gets, ret, raise.
  destruct (Py.int ident) as [n|]; simpl.
  - fold (id_is n).
    destruct (first_index (id_is n) 0 (tasks (self_tasks m))) as [i|] eqn:E; [|reflexivity].
    destruct (first_index_sound _ _ _ E) as (t & Hm).
    destruct (complete_at_run _ m i t (id_is_by_id_and_text n) Hm) as (w' & ->). reflexivity.
  - fold (text_has ident).
    destruct (first_index (text_has ident) 0 (tasks (self_tasks m))); reflexivity.
Qed.

Lemma clear_completed_run (m : Manager) :
  exists m',
    clear_completed_tasks m
    = (Returned ("Cleared " ++ Py.str_nat (List.length (completed (self_tasks m)))
                   ++ " completed task" ++ plural (List.length (completed (self_tasks m)))
                   ++ "."),
       m')
    /\ completed (self_tasks m') = []
    /\ tasks (self_tasks m') = tasks (self_tasks m)
    /\ created_date (self_tasks m') = created_date (self_tasks m).
Proof.
  run_m. destruct (writable (world m)); eexists; split; try reflexivity; simpl; auto.
Qed.

Lemma remove_nth_incl (i : nat) (l : list Task) (x : Task) :
  In x (remove_nth i l) -> In x l.
Proof.
  unfold remove_nth. revert i. induction l as [|a l IH]; intros [|i]; simpl; auto.
  intros [H|H]; [now left | right; now apply (IH i)].
Qed.

Lemma remove_nth_Forall (P : Task -> Prop) (i : nat) (l : list Task) :
  Forall P l -> Forall P (remove_nth i l).
Proof.
  rewrite !Forall_forall. intros H x Hx. apply H. eapply remove_nth_incl; eauto.
Qed.

(** What [add_task] does to the manager when the text is not blank. *)
Lemma add_task_run (task_text prio : string) (due : option string) (m : Manager) :
  Py.strip task_text <> "" ->
  exists w',
    add_task task_text prio due m
    = (Returned (if writable (world m)
                 then "Task added successfully: " ++ Py.strip task_text
                 else "Error: Could not save task."),
       mkManager
         (mkStore
            (tasks (self_tasks m)
               ++ [mkTask (Z.of_nat (List.length (tasks (self_tasks m)) + 1))
                     (Py.strip task_text) (Py.lower prio) "pending"
                     (clock (world m) (ticks (world m))) due None])%list
            (completed (self_tasks m)) (created_date (self_tasks m))
            (clock (world m) (S (ticks (world m)))))
         w').
Proof.
  intro H. apply String.eqb_neq in H.
  unfold add_task. rewrite H. run_m.
  destruct (writable (world m)); eexists; reflexivity.
Qed.

Lemma add_task_blank (task_text prio : string) (due : option string) (m : Manager) :
  Py.strip task_text = "" ->
  add_task task_text prio due m = (Returned "Error: Task cannot be empty.", m).
Proof.
  intro H. unfold add_task. rewrite H. reflexivity.
Qed.


Lemma contains_empty (s : string) : Py.contains "" s = true.
Proof. destruct s; reflexivity. Qed.

Lemma filter_in_order (test : Task -> bool) (l : list Task) :
  InOrder (filter test l) l.
Proof.
  induction l as [|a l IH]; simpl.
  - constructor.
  - destruct (test a); now constructor.
Qed.

Lemma grown_ids_bounded (m : Manager) :
  Grown m ->
  Forall (fun t => (id t <= Z.of_nat (List.length (tasks (self_tasks m))))%Z)
         (tasks (self_tasks m)).
Proof.
  induction 1 as [w m Hd Hi | st w w' _ IH | m m' tx pr du r _ IH Hr].
  - unfold init, load_tasks in Hi. rewrite Hd in Hi. simpl in Hi.
    injection Hi as <-. constructor.
  - exact IH.
  - destruct (string_dec (Py.strip tx) "") as [E|E].
    + rewrite (add_task_blank _ _ _ _ E) in Hr. now injection Hr as _ <-.
    + destruct (add_task_run tx pr du m E) as (w' & Hrun).
      rewrite Hrun in Hr. injection Hr as _ <-. simpl.
      rewrite length_app. simpl. apply Forall_app. split.
      * eapply Forall_impl; [|exact IH]. simpl. intros t Ht. lia.
      * constructor; [simpl; lia | constructor].
Qed.

Lemma demo_start_eq :
  init demo_world = Some demo_start.
Proof. reflexivity. Qed.

Lemma demo_rent_reachable : Reachable demo_rent.
Proof.
  eapply reach_add.
  - eapply reach_start; [|exact demo_start_eq]. reflexivity.
  - unfold demo_rent, after. apply surjective_pairing.
Qed.

Lemma demo_after_delete_reachable : Reachable demo_after_delete.
Proof.
  eapply reach_delete; [|unfold demo_after_delete, after at 1; apply surjective_pairing].
  eapply reach_add; [|unfold after at 1; apply surjective_pairing].
  eapply reach_add; [|unfold after at 1; apply surjective_pairing].
  eapply reach_add; [|unfold after at 1; apply surjective_pairing].
  eapply reach_start; [|exact demo_start_eq]. reflexivity.
Qed.

Lemma task_of_to_json (t : Task) : task_of_json (task_to_json t) = Some t.
Proof. destruct t as [i tx p s c [d|] [e|]]; reflexivity. Qed.

Lemma tasks_of_to_json (l : list Task) :
  tasks_of_json (map task_to_json l) = Some l.
Proof.
  induction l as [|t l IH]; [reflexivity|].
  cbn [map tasks_of_json]. now rewrite task_of_to_json, IH.
Qed.

Lemma store_of_to_json (st : Store) : store_of_json (store_to_json st) = Some st.
Proof.
  destruct st as [p c cd lm]. unfold store_to_json, store_of_json.
  cbn [tasks completed created_date last_modified].
  cbv beta iota. rewrite !tasks_of_to_json. reflexivity.
Qed.



(** C2: [delete_task] and [complete_task] pick the pending task by id
    when the identifier reads as an integer and by text, capitals aside,
    only when it does not ([strategy]); they take the first pending task
    that passes, and when none passes they answer that the task was not
    found and leave the manager, both lists included, as it was.  The
    identifier and the texts of the pending tasks are ASCII and the
    identifier has at most 640 characters: there [Py.int] is [int] and
    [Py.lower] is [lower]. *)
Theorem two_phase_resolution (m : Manager) (ident : string) :
  Py.is_ascii ident = true ->
  String.length ident <= Py.int_unlimited ->
  ascii_texts (tasks (self_tasks m)) = true ->
  (forall i t,
      FirstMatch (strategy ident) (tasks (self_tasks m)) i t ->
      (exists m1,
          delete_task ident m = (Returned ("Task deleted: " ++ text t), m1)
          /\ tasks (self_tasks m1) = remove_nth i (tasks (self_tasks m))
          /\ completed (self_tasks m1) = completed (self_tasks m))
      /\ (exists m2,
          complete_task ident m = (Returned ("Task completed: " ++ text t), m2)
          /\ tasks (self_tasks m2) = remove_nth i (tasks (self_tasks m))))
  /\ ((forall t, In t (tasks (self_tasks m)) -> strategy ident t = false) ->
      delete_task ident m = (Returned (not_found ident), m)
      /\ complete_task ident m = (Returned (not_found ident), m)).
Proof.
  intros _ _ _. split.
  - intros i t Hm. pose proof Hm as (Hn & _). split.
    + rewrite delete_task_unfold, (first_index_found _ _ _ _ Hm).
      destruct (delete_at_run m i t Hn) as (w' & ->).
      eexists. repeat split.
    + rewrite complete_task_unfold, (first_index_found _ _ _ _ Hm).
      destruct (complete_at_run _ m i t (strategy_by_id_and_text ident) Hm) as (w' & ->).
      eexists. repeat split.
  - intro Hnone.
    rewrite delete_task_unfold, complete_task_unfold, (first_index_none _ _ Hnone).
    split; reflexivity.
Qed.

Lemma two_phase_resolution_witness :
  ((exists m1,
       delete_task "3" demo_after_delete = (Returned "Task deleted: c", m1)
       /\ map text (tasks (self_tasks m1)) = ["b"])
   /\ (exists m1,
       delete_task "C" demo_after_delete = (Returned "Task deleted: c", m1)
       /\ map text (tasks (self_tasks m1)) = ["b"]))
  /\ delete_task "1" demo_after_delete
     = (Returned "Task not found with that ID.", demo_after_delete)
  /\ complete_task "rent" demo_after_delete
     = (Returned "Task not found with that text.", demo_after_delete).
Proof.
  split; [split | split].
  - destruct (two_phase_resolution demo_after_delete "3" eq_refl
                ltac:(unfold Py.int_unlimited; simpl; lia) eq_refl) as [H _].
    destruct (H 1 (mkTask 3 "c" "medium" "pending" "T6" None None))
      as ((m1 & E1 & E2 & _) & _).
    + repeat split; try reflexivity.
      intros [|[|j]] u Hj Hu; [|lia|lia]. injection Hu as <-. reflexivity.
    + exists m1. rewrite E1, E2. split; reflexivity.
  - destruct (two_phase_resolution demo_after_delete "C" eq_refl
                ltac:(unfold Py.int_unlimited; simpl; lia) eq_refl) as [H _].
    destruct (H 1 (mkTask 3 "c" "medium" "pending" "T6" None None))
      as ((m1 & E1 & E2 & _) & _).
    + repeat split; try reflexivity.
      intros [|[|j]] u Hj Hu; [|lia|lia]. injection Hu as <-. reflexivity.
    + exists m1. rewrite E1, E2. split; reflexivity.
  - destruct (two_phase_resolution demo_after_delete "1" eq_refl
                ltac:(unfold Py.int_unlimited; simpl; lia) eq_refl) as [_ H].
    apply H. intros t [<-|[<-|[]]]; reflexivity.
  - destruct (two_phase_resolution demo_after_delete "rent" eq_refl
                ltac:(unfold Py.int_unlimited; simpl; lia) eq_refl) as [_ H].
    apply H. intros t [<-|[<-|[]]]; reflexivity.
Defined.

(** C3: when the file can be written, [save_tasks] followed by
    [load_tasks] gives the store the manager holds after saving: the
    pending and the completed tasks it had before, field for field and
    in the same order. *)
Theorem save_then_load (m : Manager) :
  writable (world m) = true ->
  exists m',
    save_tasks m = (Returned true, m')
    /\ load_tasks (world m') = (Loaded (self_tasks m'), world m')
    /\ tasks (self_tasks m') = tasks (self_tasks m)
    /\ completed (self_tasks m') = completed (self_tasks m)
    /\ created_date (self_tasks m') = created_date (self_tasks m).
Proof.
  intro Hw. run_m. rewrite Hw. eexists. split; [reflexivity|].
  split; [|repeat split].
  unfold load_tasks. cbn [disk world self_tasks].
  rewrite loads_dumps, store_of_to_json. reflexivity.
Qed.

Lemma save_then_load_witness :
  exists m',
    save_tasks demo_after_delete = (Returned true, m')
    /\ load_tasks (world m') = (Loaded (self_tasks m'), world m')
    /\ map text (tasks (self_tasks m')) = ["b"; "c"].
Proof.
  destruct (save_then_load demo_after_delete eq_refl) as (m' & E1 & E2 & E3 & _).
  exists m'. rewrite E3. repeat split; assumption.
Defined.
(** C4 (as amended): for a text that is not blank, [add_task] appends one
    task whose id is the length of the pending list before the addition
    plus one; in a manager reached by additions alone no pending task has
    that id. *)
Theorem add_assigns_length_plus_one
  (m : Manager) (task_text prio : string) (due : option string) :
  Py.strip task_text <> "" ->
  exists r m' new,
    add_task task_text prio due m = (Returned r, m')
    /\ tasks (self_tasks m') = (tasks (self_tasks m) ++ [new])%list
    /\ id new = Z.of_nat (List.length (tasks (self_tasks m)) + 1)
    /\ (Grown m -> forall t, In t (tasks (self_tasks m)) -> id t <> id new).
Proof.
  intro H. destruct (add_task_run task_text prio due m H) as (w' & ->).
  do 3 eexists. split; [reflexivity|]. simpl. repeat split.
  intros G t Ht E. pose proof (grown_ids_bounded m G) as B.
  rewrite Forall_forall in B. specialize (B t Ht). simpl in E. lia.
Qed.

Lemma add_assigns_length_plus_one_witness :
  exists r m' new,
    add_task "call mom" "high" None demo_rent = (Returned r, m')
    /\ tasks (self_tasks m') = (tasks (self_tasks demo_rent) ++ [new])%list
    /\ id new = 2%Z
    /\ (forall t, In t (tasks (self_tasks demo_rent)) -> id t <> id new).
Proof.
  destruct (add_assigns_length_plus_one demo_rent "call mom" "high" None)
    as (r & m' & new & E1 & E2 & E3 & E4).
  - discriminate.
  - exists r, m', new. repeat split; auto.
    apply E4. eapply grown_add.
    + eapply grown_start; [|exact demo_start_eq]. reflexivity.
    + unfold demo_rent, after. apply surjective_pairing.
Defined.

(** C4, as stated, fails after a deletion: with the tasks of ids 2 and 3
    pending, a manager the session reaches, the text is not blank and the
    new task gets the id 3, which the second pending task already has. *)
Lemma add_reuses_id_after_delete :
  Reachable demo_after_delete
  /\ map id (tasks (self_tasks demo_after_delete)) = [2; 3]%Z
  /\ Py.strip "d" <> ""
  /\ map id (tasks (self_tasks (after (add_task "d" "medium" None) demo_after_delete)))
     = [2; 3; 3]%Z.
Proof.
  split; [exact demo_after_delete_reachable|].
  split; [reflexivity|]. split; [discriminate | reflexivity].
Qed.

(** C5: a text that strips to the empty string is refused and the manager
    stays as it was; any other text is stored, stripped, at the end of
    the pending list, and [add_task] answers with the success message
    when the file is written.  [Py.strip] takes away every blank of
    [str.strip()], those above U+007F included. *)
Theorem add_validates_text
  (m : Manager) (task_text prio : string) (due : option string) :
  (Py.strip task_text = "" ->
   add_task task_text prio due m = (Returned "Error: Task cannot be empty.", m))
  /\ (Py.strip task_text <> "" ->
      exists r m' new,
        add_task task_text prio due m = (Returned r, m')
        /\ r <> "Error: Task cannot be empty."
        /\ (writable (world m) = true ->
            r = "Task added successfully: " ++ Py.strip task_text)
        /\ tasks (self_tasks m') = (tasks (self_tasks m) ++ [new])%list
        /\ text new = Py.strip task_text
        /\ status new = "pending").
Proof.
  split.
  - apply add_task_blank.
  - intro H. destruct (add_task_run task_text prio due m H) as (w' & ->).
    do 3 eexists. split; [reflexivity|]. simpl. repeat split.
    + destruct (writable (world m)); discriminate.
    + now intros ->.
Qed.

Lemma add_validates_text_witness :
  add_task "   " "medium" None demo_rent
  = (Returned "Error: Task cannot be empty.", demo_rent)
  /\ add_task (Py.bytes [194; 160; 227; 128; 128]) "medium" None demo_rent
     = (Returned "Error: Task cannot be empty.", demo_rent)
  /\ (exists m' new,
         add_task "  call mom " "medium" None demo_rent
         = (Returned "Task added successfully: call mom", m')
         /\ tasks (self_tasks m') = (tasks (self_tasks demo_rent) ++ [new])%list
         /\ text new = "call mom").
Proof.
  split; [|split].
  - destruct (add_validates_text demo_rent "   " "medium" None) as [H _].
    apply H. reflexivity.
  - destruct (add_validates_text demo_rent (Py.bytes [194; 160; 227; 128; 128])
                "medium" None) as [H _].
    apply H. reflexivity.
  - destruct (add_validates_text demo_rent "  call mom " "medium" None) as [_ H].
    destruct H as (r & m' & new & E1 & _ & E3 & E4 & E5 & _); [discriminate|].
    exists m', new. rewrite E1, (E3 eq_refl). repeat split; assumption.
Defined.

(** C6: [search_tasks] returns the pending tasks whose text contains the
    term, capitals aside: those and no others, each as often as it is
    pending, in the order of the pending list; the manager is left as it
    was.  The term and the texts of the pending tasks are ASCII: there
    [Py.lower] is [lower]. *)
Theorem search_exact_ordered_pure (m : Manager) (term : string) :
  Py.is_ascii term = true ->
  ascii_texts (tasks (self_tasks m)) = true ->
  exists found,
    search_tasks term m = (Returned found, m)
    /\ found = filter (text_has term) (tasks (self_tasks m))
    /\ (forall t, In t found <-> In t (tasks (self_tasks m)) /\ text_has term t = true)
    /\ InOrder found (tasks (self_tasks m)).
Proof.
  intros _ _. exists (filter (text_has term) (tasks (self_tasks m))).
  split; [reflexivity|]. split; [reflexivity|]. split.
  - intro t. apply filter_In.
  - apply filter_in_order.
Qed.

Lemma search_exact_ordered_pure_witness :
  exists found,
    search_tasks "C" demo_after_delete = (Returned found, demo_after_delete)
    /\ map text found = ["c"]
    /\ InOrder found (tasks (self_tasks demo_after_delete)).
Proof.
  destruct (search_exact_ordered_pure demo_after_delete "C" eq_refl eq_refl)
    as (found & E & F & _ & O).
  exists found. split; [exact E|]. split; [|exact O].
  rewrite F. reflexivity.
Defined.

(** C9: with a pending list that is not empty, an identifier that does
    not read as an integer and whose lower-case form is the empty string
    picks the first pending task: [delete_task] removes it and
    [complete_task] completes it, neither answers that nothing was
    found. *)
Theorem empty_identifier_takes_first
  (m : Manager) (ident : string) (t : Task) (rest : list Task) :
  tasks (self_tasks m) = t :: rest ->
  Py.int ident = None ->
  Py.lower ident = "" ->
  (exists m1,
      delete_task ident m = (Returned ("Task deleted: " ++ text t), m1)
      /\ tasks (self_tasks m1) = rest
      /\ completed (self_tasks m1) = completed (self_tasks m))
  /\ (exists m2,
      complete_task ident m = (Returned ("Task completed: " ++ text t), m2)
      /\ tasks (self_tasks m2) = rest
      /\ completed (self_tasks m2)
         = (completed (self_tasks m)
              ++ [completed_entry t (clock (world m) (ticks (world m)))])%list).
Proof.
  intros Hl Hi Hlow.
  assert (Hm : FirstMatch (strategy ident) (tasks (self_tasks m)) 0 t).
  { rewrite Hl. repeat split.
    - unfold strategy, text_has. rewrite Hi, Hlow. apply contains_empty.
    - intros j u Hj. lia. }
  pose proof Hm as (Hn & _). split.
  - rewrite delete_task_unfold, (first_index_found _ _ _ _ Hm).
    destruct (delete_at_run m 0 t Hn) as (w' & ->).
    eexists. split; [reflexivity|]. simpl. rewrite Hl. split; reflexivity.
  - rewrite complete_task_unfold, (first_index_found _ _ _ _ Hm).
    destruct (complete_at_run _ m 0 t (strategy_by_id_and_text ident) Hm) as (w' & ->).
    eexists. split; [reflexivity|]. simpl. rewrite Hl. split; reflexivity.
Qed.

Lemma empty_identifier_takes_first_witness :
  (exists m1,
      delete_task "" demo_after_delete = (Returned "Task deleted: b", m1)
      /\ map text (tasks (self_tasks m1)) = ["c"])
  /\ (exists m2,
      complete_task "" demo_after_delete = (Returned "Task completed: b", m2)
      /\ map text (tasks (self_tasks m2)) = ["c"]
      /\ map text (completed (self_tasks m2)) = ["b"]).
Proof.
  destruct (empty_identifier_takes_first demo_after_delete ""
              (mkTask 2 "b" "medium" "pending" "T4" None None)
              [mkTask 3 "c" "medium" "pending" "T6" None None]
              eq_refl eq_refl eq_refl)
    as ((m1 & E1 & E2 & _) & (m2 & E3 & E4 & E5)).
  split.
  - exists m1. rewrite E1, E2. split; reflexivity.
  - exists m2. rewrite E3, E4, E5. repeat split; reflexivity.
Defined.

(** C10: [clear_completed_tasks] empties the completed list and tells how
    many entries it held; the pending list and the date of creation of
    the store are as before. *)
Theorem clear_completed_frame (m : Manager) :
  exists m',
    clear_completed_tasks m
    = (Returned ("Cleared " ++ Py.str_nat (List.length (completed (self_tasks m)))
                   ++ " completed task" ++ plural (List.length (completed (self_tasks m)))
                   ++ "."),
       m')
    /\ completed (self_tasks m') = []
    /\ tasks (self_tasks m') = tasks (self_tasks m)
    /\ created_date (self_tasks m') = created_date (self_tasks m).
Proof.
  exact (clear_completed_run m).
Qed.

End TaskStore.

(* ================================================================= *)
(** * Deletion behind a confirmation *)

Section Confirmation.
Import FileManager.

Lemma assent_first_affirmed (n : nat) (e : Env) :
  assent_first n (captures e) (heard e) = true <-> AffirmedWithin n e.
Proof.
  unfold AffirmedWithin. generalize (heard e) as h. generalize (captures e) as caps.
  intro caps. induction n as [|n IH]; intro h; simpl.
  - split; [discriminate | intros (k & Hk & _); lia].
  - destruct (token (caps h)) as [b|] eqn:E.
    + split.
      * intros ->. exists 0. rewrite Nat.add_0_r. repeat split; [lia | exact E | intros j Hj; lia].
      * intros ([|k] & Hk & Ht & Hb).
        -- rewrite Nat.add_0_r in Ht. congruence.
        -- specialize (Hb 0 ltac:(lia)). rewrite Nat.add_0_r in Hb. congruence.
    + rewrite IH. split.
      * intros (k & Hk & Ht & Hb). exists (S k). repeat split; [lia | | ].
        -- now rewrite Nat.add_succ_r.
        -- intros [|j] Hj; [now rewrite Nat.add_0_r|].
           rewrite Nat.add_succ_r. apply Hb. lia.
      * intros ([|k] & Hk & Ht & Hb).
        -- rewrite Nat.add_0_r in Ht. congruence.
        -- exists k. repeat split; [lia | | ].
           ++ now rewrite Nat.add_succ_r in Ht.
           ++ intros j Hj. specialize (Hb (S j) ltac:(lia)).
              now rewrite Nat.add_succ_r in Hb.
Qed.

(** The loop answers "yes" exactly when the first settling token is a
    word of assent; it touches neither the files nor the record of the
    removals. *)
Lemma listen_loop_run (n : nat) (e : Env) :
  exists h',
    listen_loop n e
    = (if assent_first n (captures e) (heard e) then "yes" else "no",
       mkEnv (expanduser e) (join e) (entries e) (captures e) h' (on_remove e) (calls e)).
Proof.
  revert e. induction n as [|n IH]; intro e.
  - exists (heard e). destruct e; reflexivity.
  - cbn [listen_loop assent_first]. unfold bind, next_capture.
    set (e1 := mkEnv (expanduser e) (join e) (entries e) (captures e) (S (heard e))
                     (on_remove e) (calls e)).
    destruct (IH e1) as (h' & Hrec). cbn [captures heard expanduser join entries on_remove calls e1] in Hrec.
    unfold token.
    destruct (captures e (heard e)) as [r| | |]; try (exists h'; exact Hrec).
    destruct (mem (Py.lower r) affirmative); [exists (S (heard e)); reflexivity|].
    destruct (mem (Py.lower r) negative); [exists (S (heard e)); reflexivity|].
    exists h'. exact Hrec.
Qed.

Lemma get_full_path_pure (from_folder : string) (e : Env) :
  get_full_path from_folder e = (fst (get_full_path from_folder e), e).
Proof.
  unfold get_full_path. destruct (lookup (Py.lower from_folder) folder_mapping); reflexivity.
Qed.

(** C8: [delete_item] removes the item exactly when a word of assent is
    captured within the three attempts.  With the item at hand and a word
    of assent captured, the removal is asked for once, at the path of the
    item.  With a word of refusal, or with nothing that settles the
    matter in three attempts, the answer is that the operation was
    cancelled and no removal is asked for.  No removal is ever asked for
    without a word of assent. *)
Theorem delete_needs_affirmation (item_name from_folder : string) (e : Env) :
  exists msg e',
    delete_item item_name from_folder e = (msg, e')
    /\ (accessible e (target e item_name from_folder) = true -> Affirmed e ->
        exists call,
          calls e' = (calls e ++ [call])%list
          /\ (call = Rmtree (target e item_name from_folder)
              \/ call = Remove (target e item_name from_folder)))
    /\ (accessible e (target e item_name from_folder) = true -> ~ Affirmed e ->
        msg = "Delete operation cancelled."
        /\ calls e' = calls e /\ entries e' = entries e)
    /\ (accessible e (target e item_name from_folder) = false ->
        calls e' = calls e /\ entries e' = entries e)
    /\ (calls e' <> calls e -> Affirmed e).
Proof.
  unfold accessible, target, Affirmed, delete_item, bind, validate_path.
  rewrite get_full_path_pure. unfold ask. cbn [fst].
  remember (join e (fst (get_full_path from_folder e)) item_name) as path eqn:Ep.
  destruct (match entries e path with Some x => readable x | None => false end) eqn:V;
    cbn [negb]; cbv beta.
  - unfold listen_for_confirmation.
    destruct (listen_loop_run max_attempts e) as (h' & ->).
    pose proof (assent_first_affirmed max_attempts e) as A.
    destruct (assent_first max_attempts (captures e) (heard e)); cbv beta iota zeta;
      [ change (negb ("yes" =? "yes")%string) with false
      | change (negb ("no" =? "yes")%string) with true ]; cbv beta iota.
    + unfold isdir, ask, remove_path, ret. cbn [entries on_remove calls].
      destruct (match entries e path with Some x => is_folder x | None => false end);
        destruct (on_remove e path); do 2 eexists; (split; [reflexivity|]);
        cbn [calls];
        (split;
         [ intros _ _; eexists; split; [reflexivity | auto]
         | split;
           [ intros _ N; exfalso; apply N, A; reflexivity
           | split; [ discriminate | intros _; apply A; reflexivity ] ] ]).
    + do 2 eexists. split; [reflexivity|]. cbn [calls entries]. repeat split.
      * intros _ N. apply A in N. discriminate.
      * intro N. now contradiction N.
  - do 2 eexists. split; [reflexivity|]. repeat split; try discriminate.
    intro N. now contradiction N.
Qed.

Lemma delete_needs_affirmation_witness :
  (exists e',
      delete_item "report.docx" "downloads" (demo_env (fun _ => Heard "No"))
      = ("Delete operation cancelled.", e')
      /\ calls e' = [])
  /\ (exists msg e' call,
         delete_item "report.docx" "downloads"
           (demo_env (fun k => if k =? 1 then Heard "Yes" else UnknownValueError))
         = (msg, e')
         /\ calls e' = [call]).
Proof.
  split.
  - destruct (delete_needs_affirmation "report.docx" "downloads"
                (demo_env (fun _ => Heard "No")))
      as (msg & e' & E & _ & H & _).
    destruct H as (-> & Hc & _); [reflexivity | | exists e'; split; assumption].
    intro A. apply assent_first_affirmed in A. discriminate.
  - destruct (delete_needs_affirmation "report.docx" "downloads"
                (demo_env (fun k => if k =? 1 then Heard "Yes" else UnknownValueError)))
      as (msg & e' & E & H & _).
    destruct H as (call & Hc & _); [reflexivity | | exists msg, e', call; split; assumption].
    apply assent_first_affirmed. reflexivity.
Defined.
End Confirmation.

(* ================================================================= *)
(** * The new-task branch of the command loop *)

Section Dispatch.
Import TaskManager.

Example new_task_before_later_triggers :
  Synbi.route "new task open the door" = Synbi.NewTask
  /\ Synbi.route "open the door" = Synbi.OpenApp
  /\ Synbi.route "new task wait for the bus" = Synbi.Wait
  /\ Synbi.route "what is a task" = Synbi.Unknown.
Proof. repeat split; reflexivity. Qed.

(** C7, as stated, fails: the request reaches the new-task branch, but
    what is left after the trigger is taken out still holds the words
    before it, so the text of the one task added is not "buy milk". *)
Lemma new_task_keeps_leading_words :
  Synbi.route "add a new task buy milk" = Synbi.NewTask
  /\ Synbi.new_task_text "add a new task buy milk" = "add a  buy milk"
  /\ String.eqb (Synbi.new_task_text "add a new task buy milk") "buy milk" = false
  /\ map text
       (tasks (self_tasks
                 (after (Synbi.new_task_branch "add a new task buy milk" "") demo_start)))
     = ["add a  buy milk"].
Proof. repeat split; reflexivity. Qed.

(** C7 (as amended): the request "add a new task buy milk" is taken by
    the new-task branch, which is tested before the final [else]; what is
    left after the trigger is taken out is "add a  buy milk" (it is
    "buy milk" for the request "new task buy milk"); the branch appends
    one task with that text and the priority "medium", so a pending list
    that was empty holds exactly that entry. *)
Theorem add_a_new_task_buy_milk (m : Manager) (follow_up : string) :
  Synbi.route "add a new task buy milk" = Synbi.NewTask
  /\ Synbi.new_task_text "add a new task buy milk" = "add a  buy milk"
  /\ Synbi.new_task_text "new task buy milk" = "buy milk"
  /\ exists r m' t,
       Synbi.new_task_branch "add a new task buy milk" follow_up m = (Returned [r], m')
       /\ tasks (self_tasks m') = (tasks (self_tasks m) ++ [t])%list
       /\ text t = "add a  buy milk"
       /\ priority t = "medium"
       /\ status t = "pending"
       /\ (tasks (self_tasks m) = [] -> tasks (self_tasks m') = [t]).
Proof.
  split; [reflexivity|]. split; [reflexivity|]. split; [reflexivity|].
  unfold Synbi.new_task_branch.
  change (Synbi.new_task_text "add a new task buy milk") with "add a  buy milk".
  change (Synbi.new_task_priority "add a new task buy milk") with "medium".
  change (negb ("add a  buy milk" =? "")%string) with true. cbv iota.
  unfold bind.
  destruct (add_task_run "add a  buy milk" "medium" None m) as (w' & ->); [discriminate|].
  do 3 eexists. split; [reflexivity|]. cbn [self_tasks tasks].
  repeat split. intros ->. reflexivity.
Qed.
End Dispatch.

(* ================================================================= *)
(** * Numbers as text *)

Section NumbersAsText.

Lemma digit_not_space (c : ascii) : Py.is_digit c = true -> Py.is_int_space c = false.
Proof. destruct c as [[] [] [] [] [] [] [] []]; simpl; intro H; try discriminate; reflexivity. Qed.

Lemma int_lstrip_no_space (s : string) : no_space s = true -> Py.int_lstrip s = s.
Proof.
  destruct s as [|c r]; simpl; [reflexivity|].
  intro H. apply andb_true_iff in H. destruct H as [H _].
  apply negb_true_iff in H. now rewrite H.
Qed.

Lemma int_rstrip_no_space (s : string) : no_space s = true -> Py.int_rstrip s = s.
Proof.
  induction s as [|c r IH]; simpl; [reflexivity|].
  intro H. apply andb_true_iff in H. destruct H as [Hc Hr].
  apply negb_true_iff in Hc. rewrite (IH Hr), Hc. now destruct r.
Qed.

Lemma int_strip_no_space (s : string) :
  no_space s = true -> Py.int_rstrip (Py.int_lstrip s) = s.
Proof.
  intro H. rewrite (int_lstrip_no_space s H). now apply int_rstrip_no_space.
Qed.

Lemma uint_no_space (d : Decimal.uint) : no_space (NilEmpty.string_of_uint d) = true.
Proof. induction d; simpl; auto. Qed.

Lemma int_digits_uint (d : Decimal.uint) :
  forall b acc,
    Py.int_digits b acc (NilEmpty.string_of_uint d)
    = match d with
      | Decimal.Nil => if b then Some acc else None
      | _ => Some (uint_val acc d)
      end.
Proof.
  induction d; intros b acc; try reflexivity;
    cbn [NilEmpty.string_of_uint Py.int_digits];
    match goal with
    | |- context [Py.is_digit ?c] => change (Py.is_digit c) with true
    end; cbv iota; rewrite IHd; destruct d; reflexivity.
Qed.

Lemma uint_val_pos (d : Decimal.uint) :
  forall p, uint_val (Zpos p) d = Zpos (Pos.of_uint_acc d p).
Proof.
  induction d; intro p; cbn [uint_val Pos.of_uint_acc]; try reflexivity;
    match goal with
    | |- uint_val ?a _ = Zpos (Pos.of_uint_acc _ ?q) =>
        replace a with (Zpos q) by lia
    end; apply IHd.
Qed.

Lemma uint_val_of_uint (d : Decimal.uint) : uint_val 0 d = Z.of_uint d.
Proof.
  unfold Z.of_uint.
  induction d; cbn [uint_val Pos.of_uint]; try reflexivity;
    try (change (10 * 0 + 0)%Z with 0%Z; exact IHd);
    match goal with
    | |- uint_val ?a _ = _ => change a with (Zpos (Z.to_pos a))
    end; rewrite uint_val_pos; reflexivity.
Qed.

Lemma uint_val_nat (d : Decimal.uint) :
  forall a, uint_val (Z.of_nat a) d = Z.of_nat (Nat.of_uint_acc d a).
Proof.
  induction d; intro a; cbn [uint_val Nat.of_uint_acc]; try reflexivity;
    rewrite <- IHd; f_equal; rewrite Nat.tail_mul_spec; lia.
Qed.

(** [int] of a numeral without sign. *)
Lemma int_of_uint (d : Decimal.uint) :
  d <> Decimal.Nil -> Py.int (NilEmpty.string_of_uint d) = Some (uint_val 0 d).
Proof.
  intro H. unfold Py.int. rewrite (int_strip_no_space _ (uint_no_space d)).
  pose proof (int_digits_uint d false 0) as E.
  destruct d; try contradiction; cbn [NilEmpty.string_of_uint] in *; exact E.
Qed.

(** [int(str(z)) == z] *)
Lemma int_str_int (z : Z) : Py.int (Py.str_int z) = Some z.
Proof.
  unfold Py.str_int. destruct z as [|p|p]; [reflexivity | |].
  - cbn [Z.to_int NilZero.string_of_int].
    pose proof (DecimalPos.Unsigned.to_uint_nonnil p) as N.
    replace (NilZero.string_of_uint (Pos.to_uint p))
      with (NilEmpty.string_of_uint (Pos.to_uint p))
      by (destruct (Pos.to_uint p); [contradiction | reflexivity ..]).
    rewrite (int_of_uint _ N), uint_val_of_uint. unfold Z.of_uint.
    now rewrite DecimalPos.Unsigned.of_to.
  - cbn [Z.to_int NilZero.string_of_int].
    pose proof (DecimalPos.Unsigned.to_uint_nonnil p) as N.
    replace (NilZero.string_of_uint (Pos.to_uint p))
      with (NilEmpty.string_of_uint (Pos.to_uint p))
      by (destruct (Pos.to_uint p); [contradiction | reflexivity ..]).
    unfold Py.int.
    assert (S : Py.int_rstrip
                  (Py.int_lstrip (String "-" (NilEmpty.string_of_uint (Pos.to_uint p))))
                = String "-" (NilEmpty.string_of_uint (Pos.to_uint p))).
    { apply int_strip_no_space. simpl. apply uint_no_space. }
    rewrite S.
    pose proof (int_digits_uint (Pos.to_uint p) false 0) as E.
    change (option_map Z.opp
              (Py.int_digits false 0 (NilEmpty.string_of_uint (Pos.to_uint p)))
            = Some (Zneg p)).
    rewrite E. destruct (Pos.to_uint p) eqn:Ep; try contradiction;
      rewrite <- Ep, uint_val_of_uint; unfold Z.of_uint;
      rewrite DecimalPos.Unsigned.of_to; reflexivity.
Qed.

(** [int(str(n)) == n] for the numbers [get_tasks_text] speaks. *)
Lemma int_str_nat (n : nat) : Py.int (Py.str_nat n) = Some (Z.of_nat n).
Proof.
  unfold Py.str_nat.
  assert (N : Nat.to_uint n <> Decimal.Nil).
  { rewrite <- (DecimalNat.Unsigned.of_to n) at 1.
    rewrite DecimalNat.Unsigned.to_of. apply DecimalFacts.unorm_nonnil. }
  replace (NilZero.string_of_uint (Nat.to_uint n))
    with (NilEmpty.string_of_uint (Nat.to_uint n))
    by (destruct (Nat.to_uint n); [contradiction | reflexivity ..]).
  rewrite (int_of_uint _ N). f_equal.
  change 0%Z with (Z.of_nat 0). rewrite uint_val_nat.
  change (Nat.of_uint_acc (Nat.to_uint n) 0) with (Nat.of_uint (Nat.to_uint n)).
  now rewrite DecimalNat.Unsigned.of_to.
Qed.

End NumbersAsText.

(* ================================================================= *)
(** * More on the task store *)

Section TaskStoreMore.
Import TaskManager.

Ltac run_all :=
  unfold add_task, delete_task, complete_task, clear_completed_tasks, search_tasks,
    get_tasks_by_priority, get_tasks_summary, get_tasks_text, get_pending_tasks,
    delete_at, complete_at, pop, save_tasks, try_except, bind, ret, raise, or_raise,
    gets, modify, now_isoformat, now, can_write, write_file in *; simpl in *.

Lemma committed_store (m : Manager) :
  self_tasks (committed m)
  = set_last_modified (clock (world m) (ticks (world m))) (self_tasks m).
Proof. unfold committed, after. run_all. destruct (writable (world m)); reflexivity. Qed.

Lemma committed_in_sync (m : Manager) :
  writable (world m) = true -> in_sync (committed m).
Proof. intro H. unfold in_sync, committed, after. run_all. rewrite H. reflexivity. Qed.


Lemma committed_writable (m : Manager) :
  writable (world (committed m)) = writable (world m).
Proof. unfold committed, after. run_all. destruct (writable (world m)); reflexivity. Qed.

Lemma in_sync_init (m : Manager) : in_sync m -> init (world m) = Some m.
Proof.
  unfold in_sync, init, load_tasks. intros ->.
  rewrite loads_dumps, store_of_to_json. now destruct m.
Qed.

(** The manager [add_task] leaves for a text that is not blank. *)
Lemma add_task_exact (tx pr : string) (du : option string) (m : Manager) :
  Py.strip tx <> "" ->
  add_task tx pr du m
  = (Returned (if writable (world m)
               then "Task added successfully: " ++ Py.strip tx
               else "Error: Could not save task."),
     committed (with_tasks (tasks (self_tasks m) ++ [new_task m tx pr du])%list (ticked m))).
Proof.
  intro H. apply String.eqb_neq in H.
  unfold add_task. rewrite H. unfold committed, after, with_tasks, ticked, new_task.
  run_all. destruct (writable (world m)); reflexivity.
Qed.

(** The manager [delete_task] leaves when it finds its task. *)
Lemma delete_task_exact (ident : string) (m : Manager) (i : nat) (t : Task) :
  FirstMatch (strategy ident) (tasks (self_tasks m)) i t ->
  delete_task ident m
  = (Returned ("Task deleted: " ++ text t),
     committed (with_tasks (remove_nth i (tasks (self_tasks m))) m)).
Proof.
  intro Hm. rewrite delete_task_unfold, (first_index_found _ _ _ _ Hm).
  destruct Hm as (Hn & _).
  unfold committed, after, with_tasks. run_all. rewrite Hn. simpl.
  destruct (writable (world m)); reflexivity.
Qed.

(** The manager [complete_task] leaves when it finds its task. *)
Lemma complete_task_exact (ident : string) (m : Manager) (i : nat) (t : Task) :
  FirstMatch (strategy ident) (tasks (self_tasks m)) i t ->
  complete_task ident m
  = (Returned ("Task completed: " ++ text t),
     committed
       (mkManager
          (mkStore (remove_nth i (tasks (self_tasks m)))
             (completed (self_tasks m)
                ++ [completed_entry t (clock (world m) (ticks (world m)))])%list
             (created_date (self_tasks m)) (last_modified (self_tasks m)))
          (world (ticked m)))).
Proof.
  intro Hm. rewrite complete_task_unfold, (first_index_found _ _ _ _ Hm).
  destruct (complete_at_run _ m i t (strategy_by_id_and_text ident) Hm) as (w' & E).
  rewrite E. f_equal.
  unfold committed, after, ticked.
  revert E. unfold complete_at. run_all.
  destruct Hm as (Hn & Ht & Hb).
  rewrite (update_at_nth _ _ i (set_status "completed" t))
    by (now apply update_at_nth).
  simpl.
  rewrite (list_remove_at _ _ i).
  - rewrite !remove_nth_update_at. simpl.
    destruct (writable (world m)); intro E; injection E as <-; reflexivity.
  - rewrite (update_at_nth _ _ i (set_status "completed" t)) by (now apply update_at_nth).
    reflexivity.
  - intros j u Hj Hu ->. rewrite !update_at_other in Hu by lia.
    pose proof (Hb j _ Hj Hu) as F.
    rewrite (strategy_by_id_and_text ident _ t) in F by reflexivity. congruence.
Qed.

(** What a method does, in the two cases there are. *)
Lemma delete_task_cases (ident : string) (m : Manager) :
  (exists i t,
      FirstMatch (strategy ident) (tasks (self_tasks m)) i t
      /\ delete_task ident m
         = (Returned ("Task deleted: " ++ text t),
            committed (with_tasks (remove_nth i (tasks (self_tasks m))) m)))
  \/ delete_task ident m = (Returned (not_found ident), m).
Proof.
  destruct (first_index (strategy ident) 0 (tasks (self_tasks m))) as [i|] eqn:E.
  - destruct (first_index_sound _ _ _ E) as (t & Hm).
    left. exists i, t. split; [exact Hm | now apply delete_task_exact].
  - right. rewrite delete_task_unfold, E. reflexivity.
Qed.

Lemma complete_task_cases (ident : string) (m : Manager) :
  (exists i t,
      FirstMatch (strategy ident) (tasks (self_tasks m)) i t
      /\ complete_task ident m
         = (Returned ("Task completed: " ++ text t),
            committed
              (mkManager
                 (mkStore (remove_nth i (tasks (self_tasks m)))
                    (completed (self_tasks m)
                       ++ [completed_entry t (clock (world m) (ticks (world m)))])%list
                    (created_date (self_tasks m)) (last_modified (self_tasks m)))
                 (world (ticked m)))))
  \/ complete_task ident m = (Returned (not_found ident), m).
Proof.
  destruct (first_index (strategy ident) 0 (tasks (self_tasks m))) as [i|] eqn:E.
  - destruct (first_index_sound _ _ _ E) as (t & Hm).
    left. exists i, t. split; [exact Hm | now apply complete_task_exact].
  - right. rewrite complete_task_unfold, E. reflexivity.
Qed.

Lemma add_task_cases (tx pr : string) (du : option string) (m : Manager) :
  (Py.strip tx <> ""
   /\ add_task tx pr du m
      = (Returned (if writable (world m)
                   then "Task added successfully: " ++ Py.strip tx
                   else "Error: Could not save task."),
         committed
           (with_tasks (tasks (self_tasks m) ++ [new_task m tx pr du])%list (ticked m))))
  \/ add_task tx pr du m = (Returned "Error: Task cannot be empty.", m).
Proof.
  destruct (string_dec (Py.strip tx) "") as [E|E].
  - right. now apply add_task_blank.
  - left. split; [exact E | now apply add_task_exact].
Qed.

Lemma remove_nth_length (i : nat) (l : list Task) (t : Task) :
  nth_error l i = Some t -> S (List.length (remove_nth i l)) = List.length l.
Proof.
  unfold remove_nth. revert i. induction l as [|a l IH]; intros [|i] H; simpl in *;
    try discriminate; [reflexivity|].
  f_equal. now apply IH.
Qed.

(** X1: no exception leaves [add_task], [delete_task], [complete_task]
    or [clear_completed_tasks], whatever the store and the arguments:
    each returns its answer. *)
Theorem methods_never_raise (m : Manager) :
  (forall tx pr du, exists r m', add_task tx pr du m = (Returned r, m'))
  /\ (forall ident, exists r m', delete_task ident m = (Returned r, m'))
  /\ (forall ident, exists r m', complete_task ident m = (Returned r, m'))
  /\ (exists r m', clear_completed_tasks m = (Returned r, m')).
Proof.
  repeat split.
  - intros tx pr du. destruct (add_task_cases tx pr du m) as [(_ & ->)| ->]; eauto.
  - intro ident. destruct (delete_task_cases ident m) as [(i & t & _ & ->)| ->]; eauto.
  - intro ident. destruct (complete_task_cases ident m) as [(i & t & _ & ->)| ->]; eauto.
  - destruct (clear_completed_run m) as (m' & -> & _). eauto.
Qed.

(** X2: [complete_task] neither loses nor adds a task: the pending and
    the completed list hold together as many tasks after it as before,
    whether it finds its task or not; [delete_task] takes away one task
    or none, and [add_task] adds one or none. *)
Theorem methods_count_tasks (m : Manager) :
  (forall ident, total (after (complete_task ident) m) = total m)
  /\ (forall ident,
         total (after (delete_task ident) m) = total m
         \/ S (total (after (delete_task ident) m)) = total m)
  /\ (forall tx pr du,
         total (after (add_task tx pr du) m) = total m
         \/ total (after (add_task tx pr du) m) = S (total m)).
Proof.
  unfold total, after. repeat split.
  - intro ident. destruct (complete_task_cases ident m) as [(i & t & (Hn & _) & ->)| ->];
      [|reflexivity].
    cbn [snd]. rewrite committed_store. cbn [set_last_modified tasks completed self_tasks].
    rewrite length_app. cbn [List.length].
    pose proof (remove_nth_length i _ t Hn). lia.
  - intro ident. destruct (delete_task_cases ident m) as [(i & t & (Hn & _) & ->)| ->];
      [right | left; reflexivity].
    cbn [snd]. rewrite committed_store.
    cbn [set_last_modified with_tasks set_tasks tasks completed self_tasks].
    pose proof (remove_nth_length i _ t Hn). lia.
  - intros tx pr du. destruct (add_task_cases tx pr du m) as [(_ & ->)| ->];
      [right | left; reflexivity].
    cbn [snd]. rewrite committed_store.
    cbn [set_last_modified with_tasks ticked set_tasks tasks completed self_tasks].
    rewrite length_app. cbn [List.length]. lia.
Qed.

(** X3: [add_task] and [delete_task] leave the completed list as it is,
    [complete_task] only appends to it, and none of the three changes
    the date of creation of the store. *)
Theorem completed_only_grows (m : Manager) :
  (forall tx pr du,
      completed (self_tasks (after (add_task tx pr du) m)) = completed (self_tasks m)
      /\ created_date (self_tasks (after (add_task tx pr du) m))
         = created_date (self_tasks m))
  /\ (forall ident,
         completed (self_tasks (after (delete_task ident) m)) = completed (self_tasks m)
         /\ created_date (self_tasks (after (delete_task ident) m))
            = created_date (self_tasks m))
  /\ (forall ident,
         (exists more,
             completed (self_tasks (after (complete_task ident) m))
             = (completed (self_tasks m) ++ more)%list)
         /\ created_date (self_tasks (after (complete_task ident) m))
            = created_date (self_tasks m)).
Proof.
  unfold after. repeat split.
  1,2: destruct (add_task_cases tx pr du m) as [(_ & ->)| ->]; [|reflexivity];
    cbn [snd]; rewrite committed_store; reflexivity.
  1,2: destruct (delete_task_cases ident m) as [(i & t & _ & ->)| ->]; [|reflexivity];
    cbn [snd]; rewrite committed_store; reflexivity.
  - destruct (complete_task_cases ident m) as [(i & t & _ & ->)| ->].
    + cbn [snd]. rewrite committed_store. eexists. reflexivity.
    + exists []. cbn [snd]. now rewrite app_nil_r.
  - destruct (complete_task_cases ident m) as [(i & t & _ & ->)| ->]; [|reflexivity].
    cbn [snd]. rewrite committed_store. reflexivity.
Qed.

Lemma clear_completed_exact (m : Manager) :
  clear_completed_tasks m
  = (Returned ("Cleared " ++ Py.str_nat (List.length (completed (self_tasks m)))
                 ++ " completed task" ++ plural (List.length (completed (self_tasks m)))
                 ++ "."),
     committed (mkManager (set_completed [] (self_tasks m)) (world m))).
Proof.
  unfold committed, after. run_all. destruct (writable (world m)); reflexivity.
Qed.

(** X4: when the file can be written, each of [add_task], [delete_task],
    [complete_task] and [clear_completed_tasks] either leaves the manager
    as it was or leaves the file holding exactly the store in memory, so
    that a new start loads that store. *)
Theorem changes_reach_the_file (m : Manager) :
  writable (world m) = true ->
  (forall tx pr du,
      after (add_task tx pr du) m = m
      \/ (in_sync (after (add_task tx pr du) m)
          /\ init (world (after (add_task tx pr du) m)) = Some (after (add_task tx pr du) m)))
  /\ (forall ident,
         after (delete_task ident) m = m
         \/ (in_sync (after (delete_task ident) m)
             /\ init (world (after (delete_task ident) m))
                = Some (after (delete_task ident) m)))
  /\ (forall ident,
         after (complete_task ident) m = m
         \/ (in_sync (after (complete_task ident) m)
             /\ init (world (after (complete_task ident) m))
                = Some (after (complete_task ident) m)))
  /\ in_sync (after clear_completed_tasks m)
  /\ init (world (after clear_completed_tasks m)) = Some (after clear_completed_tasks m).
Proof.
  intro W.
  assert (S : forall x, writable (world x) = true ->
                        in_sync (committed x) /\ init (world (committed x)) = Some (committed x)).
  { intros x Hx. pose proof (committed_in_sync x Hx) as I.
    split; [exact I | now apply in_sync_init]. }
  unfold after. repeat split.
  - intros tx pr du. destruct (add_task_cases tx pr du m) as [(_ & ->)| ->];
      [right | left; reflexivity].
    cbn [snd]. apply S. exact W.
  - intro ident. destruct (delete_task_cases ident m) as [(i & t & _ & ->)| ->];
      [right | left; reflexivity].
    cbn [snd]. apply S. exact W.
  - intro ident. destruct (complete_task_cases ident m) as [(i & t & _ & ->)| ->];
      [right | left; reflexivity].
    cbn [snd]. apply S. exact W.
  - rewrite clear_completed_exact. cbn [snd]. apply S. exact W.
  - rewrite clear_completed_exact. cbn [snd]. apply S. exact W.
Qed.

Lemma changes_reach_the_file_witness :
  init (world (after (delete_task "2") demo_after_delete))
  = Some (after (delete_task "2") demo_after_delete)
  /\ init (world (after clear_completed_tasks demo_after_delete))
     = Some (after clear_completed_tasks demo_after_delete).
Proof.
  destruct (changes_reach_the_file demo_after_delete eq_refl) as (_ & D & _ & _ & C).
  split; [|exact C].
  destruct (D "2") as [E|[_ E]]; [|exact E].
  apply (f_equal (fun x => List.length (tasks (self_tasks x)))) in E. discriminate.
Defined.



(** X6: a file whose text [json.load] rejects is treated like no file:
    [load_tasks] returns an empty store dated by the clock and leaves the
    file as it is. *)
Theorem unreadable_file_gives_empty_store (w : World) (content : string) :
  disk w = Some content ->
  Json.loads content = Json.Err ->
  exists w',
    load_tasks w
    = (Loaded (mkStore [] [] (clock w (ticks w)) (clock w (S (ticks w)))), w')
    /\ disk w' = Some content
    /\ ticks w' = S (S (ticks w)).
Proof.
  intros D L. unfold load_tasks. rewrite D, L.
  unfold new_structure, now. cbn. eexists. split; [reflexivity|]. cbn. now split.
Qed.

Lemma unreadable_file_gives_empty_store_witness :
  exists w',
    load_tasks (mkWorld (fun _ => "T") 0 (Some "{ tasks: [") true)
    = (Loaded (mkStore [] [] "T" "T"), w')
    /\ disk w' = Some "{ tasks: [".
Proof.
  destruct (unreadable_file_gives_empty_store
              (mkWorld (fun _ => "T") 0 (Some "{ tasks: [") true) "{ tasks: ["
              eq_refl eq_refl) as (w' & E & D & _).
  exists w'. split; assumption.
Defined.

Lemma grown_ids_positions (m : Manager) :
  Grown m ->
  forall j t, nth_error (tasks (self_tasks m)) j = Some t -> id t = Z.of_nat (j + 1).
Proof.
  induction 1 as [w m Hd Hi | st w w' _ IH | m m' tx pr du r _ IH Hr]; intros j t Hj.
  - unfold init, load_tasks in Hi. rewrite Hd in Hi. simpl in Hi.
    injection Hi as <-. destruct j; discriminate.
  - now apply IH.
  - destruct (add_task_cases tx pr du m) as [(_ & E)|E]; rewrite E in Hr;
      injection Hr as _ <-; [|now apply IH].
    rewrite committed_store in Hj.
    cbn [set_last_modified with_tasks ticked set_tasks tasks self_tasks] in Hj.
    destruct (Nat.lt_ge_cases j (List.length (tasks (self_tasks m)))) as [L|L].
    + rewrite nth_error_app1 in Hj by exact L. now apply IH.
    + rewrite nth_error_app2 in Hj by exact L.
      destruct (j - List.length (tasks (self_tasks m))) as [|k] eqn:K; simpl in Hj.
      * injection Hj as <-. unfold new_task. cbn [id]. f_equal. lia.
      * destruct k; discriminate.
Qed.

Lemma task_lines_nth (l : list Task) :
  forall i j t, nth_error l j = Some t ->
                nth_error (task_lines i l) j = Some (task_line (i + j) t).
Proof.
  induction l as [|a l IH]; intros i [|j] t H; simpl in *; try discriminate.
  - injection H as ->. now rewrite Nat.add_0_r.
  - rewrite (IH (S i) j t H). do 2 f_equal. lia.
Qed.

Lemma grown_first_match (m : Manager) (j : nat) (t : Task) :
  Grown m ->
  nth_error (tasks (self_tasks m)) j = Some t ->
  FirstMatch (strategy (Py.str_nat (j + 1))) (tasks (self_tasks m)) j t.
Proof.
  intros G Hj. unfold strategy. rewrite int_str_nat. unfold id_is.
  repeat split; [exact Hj | |].
  - rewrite (grown_ids_positions m G j t Hj). apply Z.eqb_refl.
  - intros k u Hk Hu. rewrite (grown_ids_positions m G k u Hu).
    apply Z.eqb_neq. lia.
Qed.

(** X7: in a store built by additions alone the pending tasks carry the
    ids 1, 2, 3, ... in the order of the list. *)
Theorem additions_number_in_order (m : Manager) (j : nat) (t : Task) :
  Grown m ->
  nth_error (tasks (self_tasks m)) j = Some t ->
  id t = Z.of_nat (j + 1).
Proof. intros G H. exact (grown_ids_positions m G j t H). Qed.

Lemma additions_number_in_order_witness :
  id (mkTask 1 "pay rent" "medium" "pending" "T2" None None) = Z.of_nat (0 + 1).
Proof.
  apply (additions_number_in_order demo_rent 0).
  - eapply grown_add.
    + eapply grown_start; [|exact demo_start_eq]. reflexivity.
    + unfold demo_rent, after. apply surjective_pairing.
  - reflexivity.
Defined.

(** X8: in a store built by additions alone, the number [get_tasks_text]
    speaks before a task is its id: given that number, [delete_task]
    removes that task and [complete_task] completes it. *)
Theorem spoken_number_picks_its_task (m : Manager) (j : nat) (t : Task) :
  Grown m ->
  nth_error (tasks (self_tasks m)) j = Some t ->
  nth_error (task_lines 1 (tasks (self_tasks m))) j = Some (task_line (j + 1) t)
  /\ (exists m1,
         delete_task (Py.str_nat (j + 1)) m = (Returned ("Task deleted: " ++ text t), m1)
         /\ tasks (self_tasks m1) = remove_nth j (tasks (self_tasks m)))
  /\ (exists m2,
         complete_task (Py.str_nat (j + 1)) m
         = (Returned ("Task completed: " ++ text t), m2)
         /\ tasks (self_tasks m2) = remove_nth j (tasks (self_tasks m))).
Proof.
  intros G Hj. pose proof (grown_first_match m j t G Hj) as Hm. split; [|split].
  - rewrite (task_lines_nth _ 1 j t Hj). do 2 f_equal. lia.
  - rewrite (delete_task_exact _ m j t Hm). eexists. split; [reflexivity|].
    now rewrite committed_store.
  - rewrite (complete_task_exact _ m j t Hm). eexists. split; [reflexivity|].
    now rewrite committed_store.
Qed.

Lemma spoken_number_picks_its_task_witness :
  exists m1,
    delete_task (Py.str_nat (0 + 1)) demo_rent = (Returned "Task deleted: pay rent", m1)
    /\ tasks (self_tasks m1) = [].
Proof.
  destruct (spoken_number_picks_its_task demo_rent 0
              (mkTask 1 "pay rent" "medium" "pending" "T2" None None))
    as (_ & (m1 & E1 & E2) & _).
  - eapply grown_add.
    + eapply grown_start; [|exact demo_start_eq]. reflexivity.
    + unfold demo_rent, after. apply surjective_pairing.
  - reflexivity.
  - exists m1. split; [exact E1 | exact E2].
Defined.

Lemma remove_nth_last (l : list Task) (x : Task) :
  remove_nth (List.length l) (l ++ [x]) = l.
Proof.
  unfold remove_nth. induction l as [|a l IH]; simpl in *; [reflexivity | f_equal; exact IH].
Qed.

(** X9: an addition is undone by deleting the new id: when no pending
    task has the id the new task gets, [add_task] followed by
    [delete_task] with that id gives back the pending list there was. *)
Theorem delete_undoes_add
  (m : Manager) (tx pr : string) (du : option string) :
  Py.strip tx <> "" ->
  (forall t, In t (tasks (self_tasks m)) -> id t <> id (new_task m tx pr du)) ->
  tasks (self_tasks
           (after (delete_task (Py.str_int (id (new_task m tx pr du))))
              (after (add_task tx pr du) m)))
  = tasks (self_tasks m)
  /\ fst (delete_task (Py.str_int (id (new_task m tx pr du))) (after (add_task tx pr du) m))
     = Returned ("Task deleted: " ++ Py.strip tx).
Proof.
  intros H U. unfold after at 2 3. rewrite (add_task_exact tx pr du m H). cbn [snd].
  set (m1 := committed _).
  assert (T1 : tasks (self_tasks m1) = (tasks (self_tasks m) ++ [new_task m tx pr du])%list).
  { unfold m1. now rewrite committed_store. }
  assert (Hm : FirstMatch (strategy (Py.str_int (id (new_task m tx pr du))))
                 (tasks (self_tasks m1)) (List.length (tasks (self_tasks m)))
                 (new_task m tx pr du)).
  { rewrite T1. unfold strategy. rewrite int_str_int. unfold id_is. repeat split.
    - rewrite nth_error_app2 by apply Nat.le_refl. now rewrite Nat.sub_diag.
    - apply Z.eqb_refl.
    - intros j u Hj Hu. rewrite nth_error_app1 in Hu by exact Hj.
      apply Z.eqb_neq. apply U. eapply nth_error_In; eauto. }
  unfold after. rewrite (delete_task_exact _ m1 _ _ Hm). cbn [fst snd].
  rewrite committed_store. cbn [set_last_modified with_tasks set_tasks tasks self_tasks].
  rewrite T1, remove_nth_last. split; reflexivity.
Qed.

Lemma delete_undoes_add_witness :
  tasks (self_tasks
           (after (delete_task (Py.str_int (id (new_task demo_rent "call mom" "high" None))))
              (after (add_task "call mom" "high" None) demo_rent)))
  = tasks (self_tasks demo_rent).
Proof.
  apply (delete_undoes_add demo_rent "call mom" "high" None).
  - discriminate.
  - intros t [<-|[]]. discriminate.
Defined.

Lemma startswith_refl (s : string) : Py.startswith s s = true.
Proof. induction s as [|c s IH]; simpl; [reflexivity|]. now rewrite Ascii.eqb_refl. Qed.

Lemma contains_refl (s : string) : Py.contains s s = true.
Proof. destruct s; simpl; [reflexivity|]. now rewrite Ascii.eqb_refl, startswith_refl. Qed.

Lemma lower_char_idem (c : ascii) : Py.lower_char (Py.lower_char c) = Py.lower_char c.
Proof. destruct c as [[] [] [] [] [] [] [] []]; reflexivity. Qed.

Lemma lower_idem (s : string) : Py.lower (Py.lower s) = Py.lower s.
Proof. induction s as [|c s IH]; simpl; [reflexivity|]. now rewrite lower_char_idem, IH. Qed.

Lemma filter_all (test : Task -> bool) (l : list Task) :
  (forall t, In t l -> test t = true) -> filter test l = l.
Proof.
  induction l as [|a l IH]; intro H; simpl; [reflexivity|].
  rewrite (H a) by (now left). f_equal. apply IH. intros t Ht. apply H. now right.
Qed.

(** X10: a task that was just added is found by its own text: after
    [add_task] with a text that is not blank, [search_tasks] with the
    stored text, in any mix of capitals, returns the new task, and
    [get_pending_tasks] lists it last. *)
Theorem added_task_is_found
  (m : Manager) (tx pr term : string) (du : option string) :
  Py.strip tx <> "" ->
  Py.lower term = Py.lower (Py.strip tx) ->
  exists found,
    search_tasks term (after (add_task tx pr du) m)
    = (Returned found, after (add_task tx pr du) m)
    /\ In (new_task m tx pr du) found
    /\ fst (get_pending_tasks (after (add_task tx pr du) m))
       = Returned (tasks (self_tasks m) ++ [new_task m tx pr du])%list.
Proof.
  intros H L. unfold after. rewrite (add_task_exact tx pr du m H). cbn [snd].
  eexists. split; [reflexivity|]. rewrite committed_store.
  cbn [set_last_modified with_tasks ticked set_tasks tasks self_tasks]. split.
  - apply filter_In. split.
    + apply in_or_app. right. now left.
    + rewrite L. unfold new_task. cbn [text]. apply contains_refl.
  - unfold get_pending_tasks, gets. cbn [fst]. now rewrite committed_store.
Qed.

Lemma added_task_is_found_witness :
  exists found,
    search_tasks "CALL MOM" (after (add_task " call Mom " "high" None) demo_rent)
    = (Returned found, after (add_task " call Mom " "high" None) demo_rent)
    /\ In (new_task demo_rent " call Mom " "high" None) found.
Proof.
  destruct (added_task_is_found demo_rent " call Mom " "high" "CALL MOM" None)
    as (found & E & I & _); [discriminate | reflexivity |].
  exists found. split; assumption.
Defined.

(** X11: the empty search term matches every task: [search_tasks("")]
    returns the whole pending list. *)
Theorem empty_search_returns_all (m : Manager) :
  search_tasks "" m = (Returned (tasks (self_tasks m)), m).
Proof.
  unfold search_tasks, bind, gets, ret. cbn. do 2 f_equal.
  apply filter_all. intros t _. apply contains_empty.
Qed.

Lemma reachable_lower_priorities (m : Manager) :
  Reachable m ->
  Forall (fun t => Py.lower (priority t) = priority t) (tasks (self_tasks m)).
Proof.
  induction 1 as [w m Hd Hi | st w w' _ IH | m m' tx pr du r _ IH Hr
                 | m m' ident r _ IH Hr | m m' ident r _ IH Hr | m m' r _ IH Hr].
  - unfold init, load_tasks in Hi. rewrite Hd in Hi. simpl in Hi.
    injection Hi as <-. constructor.
  - exact IH.
  - destruct (add_task_cases tx pr du m) as [(_ & E)|E]; rewrite E in Hr;
      injection Hr as _ <-; [|exact IH].
    rewrite committed_store.
    cbn [set_last_modified with_tasks ticked set_tasks tasks self_tasks].
    apply Forall_app. split; [exact IH|].
    constructor; [|constructor]. unfold new_task. cbn [priority]. apply lower_idem.
  - destruct (delete_task_cases ident m) as [(i & t & _ & E)|E]; rewrite E in Hr;
      injection Hr as _ <-; [|exact IH].
    rewrite committed_store.
    cbn [set_last_modified with_tasks set_tasks tasks self_tasks].
    now apply remove_nth_Forall.
  - destruct (complete_task_cases ident m) as [(i & t & _ & E)|E]; rewrite E in Hr;
      injection Hr as _ <-; [|exact IH].
    rewrite committed_store. cbn [set_last_modified tasks self_tasks].
    now apply remove_nth_Forall.
  - rewrite clear_completed_exact in Hr. injection Hr as _ <-.
    rewrite committed_store. exact IH.
Qed.

(** X12: in a session every pending task is returned by
    [get_tasks_by_priority] under its own priority, however the
    priority, an ASCII text, is capitalised in the call; the answer
    holds pending tasks of that priority only, in the order of the
    pending list. *)
Theorem tasks_found_by_priority (m : Manager) (p : string) :
  Py.is_ascii p = true ->
  Reachable m ->
  exists found,
    get_tasks_by_priority p m = (Returned found, m)
    /\ InOrder found (tasks (self_tasks m))
    /\ (forall t, In t found <->
                  In t (tasks (self_tasks m)) /\ Py.lower (priority t) = Py.lower p).
Proof.
  intros _ R. unfold get_tasks_by_priority, bind, gets, ret. eexists.
  split; [reflexivity|]. split; [apply filter_in_order|].
  pose proof (reachable_lower_priorities m R) as F. rewrite Forall_forall in F.
  intro t. rewrite filter_In. split.
  - intros [I E]. split; [exact I|]. apply String.eqb_eq in E.
    now rewrite (F t I).
  - intros [I E]. split; [exact I|]. apply String.eqb_eq.
    now rewrite <- (F t I).
Qed.

Lemma tasks_found_by_priority_witness :
  exists found,
    get_tasks_by_priority "MEDIUM" demo_rent = (Returned found, demo_rent)
    /\ In (mkTask 1 "pay rent" "medium" "pending" "T2" None None) found.
Proof.
  destruct (tasks_found_by_priority demo_rent "MEDIUM" eq_refl demo_rent_reachable)
    as (found & E & _ & I).
  exists found. split; [exact E|]. apply I. split; [now left | reflexivity].
Defined.

Lemma str_nat_head (n : nat) :
  exists c r, Py.str_nat n = String c r /\ Py.is_digit c = true.
Proof.
  unfold Py.str_nat. destruct (Nat.to_uint n); do 2 eexists; split; reflexivity.
Qed.

(** X13: [get_tasks_summary] says that there are no tasks exactly when
    the pending and the completed list are both empty, and it leaves the
    manager as it was. *)
Theorem summary_tells_empty_store (m : Manager) :
  exists s,
    get_tasks_summary m = (Returned s, m)
    /\ (s = "You have no tasks." <-> total m = 0).
Proof.
  unfold get_tasks_summary, total, bind, gets, ret. cbn [self_tasks].
  set (p := List.length (tasks (self_tasks m))).
  set (c := List.length (completed (self_tasks m))).
  destruct (str_nat_head p) as (d & r & E & D).
  destruct ((p =? 0) && (c =? 0)) eqn:Z.
  - eexists. split; [reflexivity|]. split; [|reflexivity].
    intros _. apply andb_true_iff in Z. destruct Z as [Zp Zc].
    apply Nat.eqb_eq in Zp, Zc. lia.
  - assert (N : p + c <> 0).
    { intro T. assert (p = 0 /\ c = 0) as [-> ->] by lia. discriminate. }
    destruct (0 <? c); eexists; (split; [reflexivity|]); split; intro H;
      try contradiction; exfalso; rewrite E in H; cbn in H;
      injection H as H _; subst d; discriminate.
Qed.

End TaskStoreMore.

(* ================================================================= *)
(** * More on deleting, moving and copying *)

Section FilesMore.
Import FileManager.

(** What [delete_item] does for an item it cannot reach. *)
Lemma delete_item_missing (item_name from_folder : string) (e : Env) :
  accessible e (target e item_name from_folder) = false ->
  delete_item item_name from_folder e = (not_accessible item_name from_folder, e).
Proof.
  unfold accessible, target, delete_item, bind, validate_path.
  rewrite get_full_path_pure. unfold ask. cbn [fst].
  intros ->. reflexivity.
Qed.

(** X14: for an item that is not there or cannot be read, [delete_item]
    answers at once: it does not listen for a confirmation and changes
    nothing. *)
Theorem missing_item_asks_nothing (item_name from_folder : string) (e : Env) :
  accessible e (target e item_name from_folder) = false ->
  delete_item item_name from_folder e = (not_accessible item_name from_folder, e).
Proof.
  unfold accessible, target, delete_item, bind, validate_path.
  rewrite get_full_path_pure. unfold ask. cbn [fst].
  intros ->. reflexivity.
Qed.

Lemma missing_item_asks_nothing_witness :
  delete_item "notes.txt" "downloads" (demo_env (fun _ => Heard "yes"))
  = (not_accessible "notes.txt" "downloads", demo_env (fun _ => Heard "yes")).
Proof.
  apply missing_item_asks_nothing. reflexivity.
Defined.

Lemma listen_loop_bound (n : nat) (e : Env) :
  exists h',
    listen_loop n e
    = (if assent_first n (captures e) (heard e) then "yes" else "no",
       mkEnv (expanduser e) (join e) (entries e) (captures e) h' (on_remove e) (calls e))
    /\ heard e <= h' <= heard e + n
    /\ (0 < n -> heard e < h')
    /\ (0 < n -> token (captures e (heard e)) <> None -> h' = S (heard e)).
Proof.
  revert e. induction n as [|n IH]; intro e.
  - exists (heard e). destruct e; cbn. repeat split; lia.
  - cbn [listen_loop assent_first]. unfold bind, next_capture.
    set (e1 := mkEnv (expanduser e) (join e) (entries e) (captures e) (S (heard e))
                     (on_remove e) (calls e)).
    destruct (IH e1) as (h' & Hrec & B & _).
    cbn [captures heard expanduser join entries on_remove calls e1] in Hrec, B.
    unfold token.
    destruct (captures e (heard e)) as [r| | |];
      try (exists h'; split; [exact Hrec|]; repeat split; try lia; intros _ N; now contradiction N).
    destruct (mem (Py.lower r) affirmative);
      [exists (S (heard e)); split; [reflexivity|]; repeat split; lia|].
    destruct (mem (Py.lower r) negative);
      [exists (S (heard e)); split; [reflexivity|]; repeat split; lia|].
    exists h'. split; [exact Hrec|]. repeat split; try lia. intros _ N. now contradiction N.
Qed.

(** X15: [listen_for_confirmation] answers "yes" or "no" after at least
    one and at most three readings of the microphone, and it stops at
    the first reading that settles the matter: after a word of refusal
    nothing said later counts.  It touches neither the files nor the
    record of the removals. *)
Theorem listening_is_bounded (e : Env) :
  exists answer e',
    listen_for_confirmation e = (answer, e')
    /\ (answer = "yes" \/ answer = "no")
    /\ heard e < heard e' <= heard e + 3
    /\ (token (captures e (heard e)) = Some false ->
        answer = "no" /\ heard e' = S (heard e))
    /\ entries e' = entries e
    /\ calls e' = calls e.
Proof.
  unfold listen_for_confirmation.
  destruct (listen_loop_bound max_attempts e) as (h' & -> & B & P & Q).
  unfold max_attempts in *. do 2 eexists. split; [reflexivity|]. cbn [heard entries calls].
  split; [destruct (assent_first _ _ _); auto|].
  split; [split; [apply P; lia | lia]|].
  split; [|split; reflexivity].
  intro T. split.
  - cbn [assent_first]. now rewrite T.
  - apply Q; [lia | congruence].
Qed.

(** What [delete_item] does once a word of assent is captured. *)
Lemma delete_item_confirmed (item_name from_folder : string) (e : Env) :
  accessible e (target e item_name from_folder) = true ->
  Affirmed e ->
  exists h' call,
    delete_item item_name from_folder e
    = (match on_remove e (target e item_name from_folder) with
       | Removed =>
           "Successfully deleted " ++ quoted item_name ++ " from "
           ++ quoted from_folder ++ "."
       | PermissionError =>
           "Error: Permission denied. Cannot delete " ++ quoted item_name ++ "."
       | OSError msg => "Error deleting " ++ quoted item_name ++ ": " ++ msg
       end,
       mkEnv (expanduser e) (join e)
         (match on_remove e (target e item_name from_folder) with
          | Removed =>
              fun p => if String.eqb p (target e item_name from_folder)
                       then None else entries e p
          | _ => entries e
          end)
         (captures e) h' (on_remove e) (calls e ++ [call])%list).
Proof.
  unfold accessible, target, Affirmed, delete_item, bind, validate_path.
  rewrite get_full_path_pure. unfold ask. cbn [fst].
  remember (join e (fst (get_full_path from_folder e)) item_name) as path eqn:Ep.
  intros V A. rewrite V. cbn [negb]. cbv beta.
  unfold listen_for_confirmation.
  destruct (listen_loop_run max_attempts e) as (h' & ->).
  apply assent_first_affirmed in A. rewrite A. cbv beta iota zeta.
  change (negb ("yes" =? "yes")%string) with false. cbv beta iota.
  unfold isdir, ask, remove_path, ret. cbn [entries on_remove calls expanduser join captures heard].
  exists h'. eexists.
  destruct (on_remove e path); reflexivity.
Qed.

(** X16: after a confirmed deletion that went through, the item is gone:
    a second [delete_item] for it answers that it is not there, asks
    for no confirmation and removes nothing. *)
Theorem deleted_item_is_gone (item_name from_folder : string) (e : Env) :
  accessible e (target e item_name from_folder) = true ->
  Affirmed e ->
  on_remove e (target e item_name from_folder) = Removed ->
  exists e',
    delete_item item_name from_folder e
    = ("Successfully deleted " ++ quoted item_name ++ " from "
         ++ quoted from_folder ++ ".", e')
    /\ occupied e' (target e item_name from_folder) = false
    /\ delete_item item_name from_folder e' = (not_accessible item_name from_folder, e').
Proof.
  intros V A R.
  destruct (delete_item_confirmed item_name from_folder e V A) as (h' & call & E).
  rewrite R in E. rewrite E. eexists. split; [reflexivity|].
  set (e' := mkEnv _ _ _ _ _ _ _).
  assert (T : target e' item_name from_folder = target e item_name from_folder).
  { unfold target, get_full_path.
    destruct (lookup (Py.lower from_folder) folder_mapping); reflexivity. }
  assert (O : entries e' (target e item_name from_folder) = None).
  { unfold e'. cbn [entries]. now rewrite String.eqb_refl. }
  split.
  - unfold occupied. now rewrite O.
  - apply delete_item_missing. unfold accessible, validate_path, ask. cbn [fst].
    now rewrite T, O.
Qed.

Lemma deleted_item_is_gone_witness :
  exists e',
    delete_item "report.docx" "downloads" (demo_env (fun _ => Heard "yes"))
    = ("Successfully deleted 'report.docx' from 'downloads'.", e')
    /\ delete_item "report.docx" "downloads" e'
       = (not_accessible "report.docx" "downloads", e').
Proof.
  destruct (deleted_item_is_gone "report.docx" "downloads" (demo_env (fun _ => Heard "yes")))
    as (e' & E1 & _ & E2).
  - reflexivity.
  - apply assent_first_affirmed. reflexivity.
  - reflexivity.
  - exists e'. split; assumption.
Defined.

End FilesMore.

Section Transfers.
Import FileTransfer.

Lemma get_full_path_folder (folder : string) (e : FileManager.Env) :
  FileManager.get_full_path folder e = (folder_of e folder, e).
Proof.
  unfold folder_of, FileManager.get_full_path.
  destruct (FileManager.lookup (Py.lower folder) FileManager.folder_mapping); reflexivity.
Qed.

Ltac run_transfer :=
  unfold move_item, copy_item, transfer_item;
  repeat progress
    (unfold bind, lift, path_exists, makedirs, move, copy, record, ret,
       FileManager.validate_path, FileManager.isdir, FileManager.ask;
     cbv beta iota zeta; cbn [env on_makedirs on_transfer made];
     rewrite ?get_full_path_folder).

Lemma put_same (path : string) (x : option FileManager.entry) (e : FileManager.Env) :
  FileManager.entries (put path x e) path = x.
Proof. unfold put. cbn. now rewrite String.eqb_refl. Qed.

Lemma put_other (path p : string) (x : option FileManager.entry) (e : FileManager.Env) :
  p <> path -> FileManager.entries (put path x e) p = FileManager.entries e p.
Proof. intro H. unfold put. cbn. apply String.eqb_neq in H. now rewrite H. Qed.

Lemma put_paths (path : string) (x : option FileManager.entry) (e : FileManager.Env)
  (item folder : string) :
  target (put path x e) item folder = target e item folder
  /\ folder_of (put path x e) folder = folder_of e folder.
Proof.
  unfold target, folder_of, FileManager.get_full_path.
  destruct (FileManager.lookup (Py.lower folder) FileManager.folder_mapping); split; reflexivity.
Qed.

(** X17: for an item that is not there or cannot be read, [move_item]
    and [copy_item] answer so and do nothing: no folder is created and
    nothing is transferred. *)
Theorem missing_source_transfers_nothing (item_name from_folder to_folder : string) (d : Disk) :
  accessible (env d) (target (env d) item_name from_folder) = false ->
  move_item item_name from_folder to_folder d = (not_accessible item_name from_folder, d)
  /\ copy_item item_name from_folder to_folder d = (not_accessible item_name from_folder, d).
Proof.
  unfold accessible, target, FileManager.validate_path, FileManager.ask. cbn [fst].
  destruct d as [e mk tr md]. cbn [env]. fold (folder_of e from_folder). intro V.
  split; run_transfer; rewrite V; reflexivity.
Qed.

Lemma missing_source_transfers_nothing_witness :
  move_item "notes.txt" "downloads" "documents" demo_disk
  = (not_accessible "notes.txt" "downloads", demo_disk)
  /\ copy_item "notes.txt" "downloads" "documents" demo_disk
     = (not_accessible "notes.txt" "downloads", demo_disk).
Proof.
  apply missing_source_transfers_nothing. reflexivity.
Defined.

(** X18: [move_item] and [copy_item] never overwrite: when the folder of
    destination already holds something under the name of the item, they
    answer that it exists and change nothing. *)
Theorem transfer_never_overwrites (item_name from_folder to_folder : string) (d : Disk) :
  accessible (env d) (target (env d) item_name from_folder) = true ->
  occupied (env d) (folder_of (env d) to_folder) = true ->
  occupied (env d) (target (env d) item_name to_folder) = true ->
  move_item item_name from_folder to_folder d
  = ("Error: " ++ quoted item_name ++ " already exists in " ++ quoted to_folder
       ++ ". Cannot move.", d)
  /\ copy_item item_name from_folder to_folder d
     = ("Error: " ++ quoted item_name ++ " already exists in " ++ quoted to_folder
          ++ ". Cannot copy.", d).
Proof.
  unfold accessible, occupied, target, FileManager.validate_path, FileManager.ask.
  cbn [fst]. destruct d as [e mk tr md]. cbn [env].
  fold (folder_of e from_folder). fold (folder_of e to_folder). intros V F O.
  split; run_transfer; rewrite V; cbn [negb]; run_transfer; rewrite F; run_transfer;
    rewrite O; reflexivity.
Qed.

Lemma transfer_never_overwrites_witness :
  copy_item "report.docx" "downloads" "downloads" demo_disk
  = ("Error: 'report.docx' already exists in 'downloads'. Cannot copy.", demo_disk).
Proof.
  apply (transfer_never_overwrites "report.docx" "downloads" "downloads" demo_disk);
    reflexivity.
Defined.

Lemma occupied_differs (e : FileManager.Env) (a b : string) :
  accessible e a = true -> occupied e b = false -> b <> a.
Proof.
  unfold accessible, occupied, FileManager.validate_path, FileManager.ask. cbn [fst].
  intros A B ->. destruct (FileManager.entries e a); discriminate.
Qed.

(** What [move_item] does when everything is in place. *)
Lemma move_item_done (item_name from_folder to_folder : string) (d : Disk) :
  accessible (env d) (target (env d) item_name from_folder) = true ->
  occupied (env d) (folder_of (env d) to_folder) = true ->
  occupied (env d) (target (env d) item_name to_folder) = false ->
  on_transfer d (target (env d) item_name from_folder) (target (env d) item_name to_folder)
  = Done ->
  move_item item_name from_folder to_folder d
  = ("Successfully moved " ++ quoted item_name ++ " from " ++ quoted from_folder
       ++ " to " ++ quoted to_folder ++ ".",
     mkDisk
       (put (target (env d) item_name from_folder) None
          (put (target (env d) item_name to_folder)
             (FileManager.entries (env d) (target (env d) item_name from_folder)) (env d)))
       (on_makedirs d) (on_transfer d)
       (made d ++ [Move (target (env d) item_name from_folder)
                        (target (env d) item_name to_folder)])%list).
Proof.
  unfold accessible, occupied, target, FileManager.validate_path, FileManager.ask.
  cbn [fst]. destruct d as [e mk tr md]. cbn [env on_transfer on_makedirs made].
  fold (folder_of e from_folder). fold (folder_of e to_folder). intros V F O D.
  run_transfer. rewrite V. cbn [negb]. run_transfer. rewrite F. run_transfer.
  rewrite O. run_transfer. rewrite D. reflexivity.
Qed.

(** What [copy_item] does when everything is in place. *)
Lemma copy_item_done (item_name from_folder to_folder : string) (d : Disk) :
  accessible (env d) (target (env d) item_name from_folder) = true ->
  occupied (env d) (folder_of (env d) to_folder) = true ->
  occupied (env d) (target (env d) item_name to_folder) = false ->
  on_transfer d (target (env d) item_name from_folder) (target (env d) item_name to_folder)
  = Done ->
  exists c,
    copy_item item_name from_folder to_folder d
    = ("Successfully copied " ++ quoted item_name ++ " from " ++ quoted from_folder
         ++ " to " ++ quoted to_folder ++ ".",
       mkDisk
         (put (target (env d) item_name to_folder)
            (FileManager.entries (env d) (target (env d) item_name from_folder)) (env d))
         (on_makedirs d) (on_transfer d) (made d ++ [c])%list)
    /\ (c = Copytree (target (env d) item_name from_folder)
              (target (env d) item_name to_folder)
        \/ c = Copy2 (target (env d) item_name from_folder)
                 (target (env d) item_name to_folder)).
Proof.
  unfold accessible, occupied, target, FileManager.validate_path, FileManager.ask.
  cbn [fst]. destruct d as [e mk tr md]. cbn [env on_transfer on_makedirs made].
  fold (folder_of e from_folder). fold (folder_of e to_folder). intros V F O D.
  run_transfer. rewrite V. cbn [negb]. run_transfer. rewrite F. run_transfer.
  rewrite O. run_transfer. rewrite D.
  eexists. split; [reflexivity|].
  destruct (match FileManager.entries e _ with Some x => FileManager.is_folder x | None => false end);
    auto.
Qed.

(** X19: when the item can be read, the folder of destination is there,
    nothing in it has the name of the item and the transfer goes
    through, [copy_item] leaves the item where it was and puts the same
    at the destination, while [move_item] puts it at the destination and
    leaves nothing where it was; either makes one call, the transfer. *)
Theorem transfer_goes_through (item_name from_folder to_folder : string) (d : Disk) :
  accessible (env d) (target (env d) item_name from_folder) = true ->
  occupied (env d) (folder_of (env d) to_folder) = true ->
  occupied (env d) (target (env d) item_name to_folder) = false ->
  on_transfer d (target (env d) item_name from_folder) (target (env d) item_name to_folder)
  = Done ->
  (exists d1,
      snd (move_item item_name from_folder to_folder d) = d1
      /\ FileManager.entries (env d1) (target (env d) item_name from_folder) = None
      /\ FileManager.entries (env d1) (target (env d) item_name to_folder)
         = FileManager.entries (env d) (target (env d) item_name from_folder)
      /\ List.length (made d1) = S (List.length (made d)))
  /\ (exists d2,
         snd (copy_item item_name from_folder to_folder d) = d2
         /\ FileManager.entries (env d2) (target (env d) item_name from_folder)
            = FileManager.entries (env d) (target (env d) item_name from_folder)
         /\ FileManager.entries (env d2) (target (env d) item_name to_folder)
            = FileManager.entries (env d) (target (env d) item_name from_folder)
         /\ List.length (made d2) = S (List.length (made d))).
Proof.
  intros V F O D. pose proof (occupied_differs _ _ _ V O) as N. split.
  - rewrite (move_item_done _ _ _ d V F O D). eexists. split; [reflexivity|].
    cbn [snd env made]. rewrite put_same, put_other, put_same by exact N.
    rewrite length_app. cbn. repeat split. lia.
  - destruct (copy_item_done _ _ _ d V F O D) as (c & -> & _).
    eexists. split; [reflexivity|]. cbn [snd env made].
    rewrite put_same, put_other by (intro E; now apply N).
    rewrite length_app. cbn. repeat split. lia.
Qed.

Lemma transfer_goes_through_witness :
  (exists d1,
      snd (move_item "report.docx" "downloads" "documents" demo_disk) = d1
      /\ FileManager.entries (env d1) "~/Downloads/report.docx" = None
      /\ FileManager.entries (env d1) "~/Documents/report.docx"
         = Some (FileManager.mkEntry false true))
  /\ (exists d2,
         snd (copy_item "report.docx" "downloads" "documents" demo_disk) = d2
         /\ FileManager.entries (env d2) "~/Downloads/report.docx"
            = Some (FileManager.mkEntry false true)
         /\ FileManager.entries (env d2) "~/Documents/report.docx"
            = Some (FileManager.mkEntry false true)).
Proof.
  destruct (transfer_goes_through "report.docx" "downloads" "documents" demo_disk
              eq_refl eq_refl eq_refl eq_refl)
    as ((d1 & E1 & A1 & B1 & _) & (d2 & E2 & A2 & B2 & _)).
  split; [exists d1 | exists d2]; repeat split; assumption.
Defined.

(** The two refusals of a transfer, as the later proofs use them. *)
Lemma refused_when_missing (item_name from_folder to_folder : string) (d : Disk) :
  accessible (env d) (target (env d) item_name from_folder) = false ->
  move_item item_name from_folder to_folder d = (not_accessible item_name from_folder, d)
  /\ copy_item item_name from_folder to_folder d = (not_accessible item_name from_folder, d).
Proof.
  unfold accessible, target, FileManager.validate_path, FileManager.ask. cbn [fst].
  destruct d as [e mk tr md]. cbn [env]. fold (folder_of e from_folder). intro V.
  split; run_transfer; rewrite V; reflexivity.
Qed.

Lemma refused_when_taken (item_name from_folder to_folder : string) (d : Disk) :
  accessible (env d) (target (env d) item_name from_folder) = true ->
  occupied (env d) (folder_of (env d) to_folder) = true ->
  occupied (env d) (target (env d) item_name to_folder) = true ->
  move_item item_name from_folder to_folder d
  = ("Error: " ++ quoted item_name ++ " already exists in " ++ quoted to_folder
       ++ ". Cannot move.", d)
  /\ copy_item item_name from_folder to_folder d
     = ("Error: " ++ quoted item_name ++ " already exists in " ++ quoted to_folder
          ++ ". Cannot copy.", d).
Proof.
  unfold accessible, occupied, target, FileManager.validate_path, FileManager.ask.
  cbn [fst]. destruct d as [e mk tr md]. cbn [env].
  fold (folder_of e from_folder). fold (folder_of e to_folder). intros V F O.
  split; run_transfer; rewrite V; cbn [negb]; run_transfer; rewrite F; run_transfer;
    rewrite O; reflexivity.
Qed.

(** X20: a transfer cannot be repeated: after a move that went through,
    the same [move_item] answers that the item is not there, and after
    a copy that went through, the same [copy_item] answers that the
    item already exists; the second call changes nothing. *)
Theorem transfer_is_not_repeated (item_name from_folder to_folder : string) (d : Disk) :
  accessible (env d) (target (env d) item_name from_folder) = true ->
  occupied (env d) (folder_of (env d) to_folder) = true ->
  occupied (env d) (target (env d) item_name to_folder) = false ->
  on_transfer d (target (env d) item_name from_folder) (target (env d) item_name to_folder)
  = Done ->
  move_item item_name from_folder to_folder
    (snd (move_item item_name from_folder to_folder d))
  = (not_accessible item_name from_folder,
     snd (move_item item_name from_folder to_folder d))
  /\ copy_item item_name from_folder to_folder
       (snd (copy_item item_name from_folder to_folder d))
     = ("Error: " ++ quoted item_name ++ " already exists in " ++ quoted to_folder
          ++ ". Cannot copy.",
        snd (copy_item item_name from_folder to_folder d)).
Proof.
  intros V F O D. pose proof (occupied_differs _ _ _ V O) as N.
  assert (NF : folder_of (env d) to_folder <> target (env d) item_name to_folder).
  { intro E. rewrite E in F. rewrite F in O. discriminate. }
  split.
  - rewrite (move_item_done _ _ _ d V F O D). cbn [snd].
    apply refused_when_missing. cbn [env].
    destruct (put_paths (target (env d) item_name from_folder) None
                (put (target (env d) item_name to_folder)
                   (FileManager.entries (env d) (target (env d) item_name from_folder))
                   (env d)) item_name from_folder) as [-> _].
    destruct (put_paths (target (env d) item_name to_folder)
                (FileManager.entries (env d) (target (env d) item_name from_folder))
                (env d) item_name from_folder) as [-> _].
    unfold accessible, FileManager.validate_path, FileManager.ask. cbn [fst].
    now rewrite put_same.
  - destruct (copy_item_done _ _ _ d V F O D) as (c & -> & _). cbn [snd].
    set (x := FileManager.entries (env d) (target (env d) item_name from_folder)).
    set (e' := put (target (env d) item_name to_folder) x (env d)).
    destruct (put_paths (target (env d) item_name to_folder) x (env d) item_name from_folder)
      as [T1 _].
    destruct (put_paths (target (env d) item_name to_folder) x (env d) item_name to_folder)
      as [T2 T3].
    fold e' in T1, T2, T3.
    assert (X : exists y, x = Some y /\ FileManager.readable y = true).
    { unfold accessible, FileManager.validate_path, FileManager.ask in V. cbn [fst] in V.
      fold x in V. destruct x as [y|]; [|discriminate]. now exists y. }
    destruct X as (y & Ex & Ry).
    apply refused_when_taken; cbn [env].
    + rewrite T1. unfold accessible, FileManager.validate_path, FileManager.ask. cbn [fst].
      unfold e'. rewrite put_other by (intro E; now apply N). fold x. now rewrite Ex.
    + rewrite T3. unfold occupied, e'. rewrite put_other by exact NF. exact F.
    + rewrite T2. unfold occupied, e'. now rewrite put_same, Ex.
Qed.

Lemma transfer_is_not_repeated_witness :
  move_item "report.docx" "downloads" "documents"
    (snd (move_item "report.docx" "downloads" "documents" demo_disk))
  = (not_accessible "report.docx" "downloads",
     snd (move_item "report.docx" "downloads" "documents" demo_disk))
  /\ copy_item "report.docx" "downloads" "documents"
       (snd (copy_item "report.docx" "downloads" "documents" demo_disk))
     = ("Error: 'report.docx' already exists in 'documents'. Cannot copy.",
        snd (copy_item "report.docx" "downloads" "documents" demo_disk)).
Proof.
  apply (transfer_is_not_repeated "report.docx" "downloads" "documents" demo_disk);
    reflexivity.
Defined.

(** X21: when the folder of destination is missing and cannot be
    created, [move_item] and [copy_item] say so and transfer nothing:
    the one call made is the attempt to create the folder, and the
    files are as they were. *)
Theorem no_folder_no_transfer
  (item_name from_folder to_folder msg : string) (d : Disk) :
  accessible (env d) (target (env d) item_name from_folder) = true ->
  occupied (env d) (folder_of (env d) to_folder) = false ->
  (on_makedirs d (folder_of (env d) to_folder) = Denied msg
   \/ on_makedirs d (folder_of (env d) to_folder) = Failed msg) ->
  move_item item_name from_folder to_folder d
  = ("Error: Could not create destination folder " ++ quoted to_folder ++ ": " ++ msg,
     mkDisk (env d) (on_makedirs d) (on_transfer d)
       (made d ++ [Makedirs (folder_of (env d) to_folder)])%list)
  /\ copy_item item_name from_folder to_folder d
     = ("Error: Could not create destination folder " ++ quoted to_folder ++ ": " ++ msg,
        mkDisk (env d) (on_makedirs d) (on_transfer d)
          (made d ++ [Makedirs (folder_of (env d) to_folder)])%list).
Proof.
  unfold accessible, occupied, target, FileManager.validate_path, FileManager.ask.
  cbn [fst]. destruct d as [e mk tr md]. cbn [env on_transfer on_makedirs made].
  fold (folder_of e from_folder). fold (folder_of e to_folder). intros V F [M|M];
    split; run_transfer; rewrite V; cbn [negb]; run_transfer; rewrite F; run_transfer;
    rewrite M; reflexivity.
Qed.

Lemma no_folder_no_transfer_witness :
  move_item "report.docx" "downloads" "archive"
    (mkDisk (env demo_disk) (fun _ => Denied "denied") (on_transfer demo_disk) [])
  = ("Error: Could not create destination folder 'archive': denied",
     mkDisk (env demo_disk) (fun _ => Denied "denied") (on_transfer demo_disk)
       [Makedirs "archive"]).
Proof.
  apply (no_folder_no_transfer "report.docx" "downloads" "archive" "denied"
           (mkDisk (env demo_disk) (fun _ => Denied "denied") (on_transfer demo_disk) []));
    [reflexivity | reflexivity | left; reflexivity].
Defined.

End Transfers.

Section Listening.
Import Synbi.

Lemma command_loop_frame (n : nat) (mic : Mic) :
  readings (snd (command_loop n mic)) = readings mic
  /\ taken mic <= taken (snd (command_loop n mic)) <= taken mic + n
  /\ (0 < n -> taken mic < taken (snd (command_loop n mic)))
  /\ Py.lower (fst (command_loop n mic)) = fst (command_loop n mic)
  /\ exists said, spoken (snd (command_loop n mic)) = (spoken mic ++ said)%list
                  /\ List.length said <= n.
Proof.
  revert mic. induction n as [|n IH]; intro mic.
  - simpl. repeat split; try lia. exists []. now rewrite app_nil_r.
  - simpl. destruct (readings mic (taken mic)) as [c| | | |].
    + simpl. repeat split; try lia; [apply lower_idem|].
      exists []. split; [now rewrite app_nil_r | simpl; lia].
    + destruct (IH (mkMic (readings mic) (S (taken mic)) (spoken mic)))
        as (R & T & _ & L & said & S & N). cbn [readings taken spoken] in *.
      repeat split; try assumption; try lia. exists said. split; [assumption | lia].
    + destruct (IH (speak "Sorry, I didn't catch that. Please say again."
                      (mkMic (readings mic) (S (taken mic)) (spoken mic))))
        as (R & T & _ & L & said & S & N). unfold speak in *.
      cbn [readings taken spoken] in *.
      repeat split; try assumption; try lia.
      exists ("Sorry, I didn't catch that. Please say again." :: said).
      split; [rewrite S, <- app_assoc; reflexivity | simpl; lia].
    + unfold speak. cbn [readings taken spoken fst snd].
      repeat split; try lia.
      exists ["Sorry, I am unable to connect to the speech service."].
      split; [reflexivity | simpl; lia].
    + destruct (IH (speak "Sorry, something went wrong. Please try again."
                      (mkMic (readings mic) (S (taken mic)) (spoken mic))))
        as (R & T & _ & L & said & S & N). unfold speak in *.
      cbn [readings taken spoken] in *.
      repeat split; try assumption; try lia.
      exists ("Sorry, something went wrong. Please try again." :: said).
      split; [rewrite S, <- app_assoc; reflexivity | simpl; lia].
Qed.

(** X22: [command] takes at least one reading and at most three, says at
    most three sentences after what was spoken before, and what it
    returns is in lower case. *)
Theorem command_is_bounded (mic : Mic) :
  taken mic < taken (snd (command mic)) <= taken mic + 3
  /\ Py.lower (fst (command mic)) = fst (command mic)
  /\ exists said, spoken (snd (command mic)) = (spoken mic ++ said)%list
                  /\ List.length said <= 3.
Proof.
  destruct (command_loop_frame retries mic) as (_ & T & P & L & S).
  unfold command. repeat split; try apply T; try assumption.
  apply P. unfold retries. lia.
Qed.

(** The loop of [command] up to the first reading that ends it. *)
Lemma command_loop_decides (n : nat) :
  forall (mic : Mic) (k : nat),
    k < n ->
    (forall j, j < k -> passes (readings mic (taken mic + j)) = true) ->
    taken (snd (command_loop n mic)) = taken mic + S k
    /\ (forall c, readings mic (taken mic + k) = Said c ->
                  fst (command_loop n mic) = Py.lower c)
    /\ (readings mic (taken mic + k) = RequestError ->
        fst (command_loop n mic) = ""
        /\ exists before,
             spoken (snd (command_loop n mic))
             = (before ++ ["Sorry, I am unable to connect to the speech service."])%list)
    \/ passes (readings mic (taken mic + k)) = true.
Proof.
  induction n as [|n IH]; intros mic k Hk Q; [lia|].
  destruct k as [|k].
  - rewrite Nat.add_0_r. simpl.
    destruct (readings mic (taken mic)) as [c| | | |] eqn:E;
      try (right; reflexivity); left.
    + cbn [fst snd taken]. split; [lia|]. split; [|discriminate].
      intros c' [= <-]. reflexivity.
    + unfold speak. cbn [fst snd taken spoken]. split; [lia|].
      split; [discriminate|]. intros _. split; [reflexivity|]. now exists (spoken mic).
  - pose proof (Q 0 ltac:(lia)) as Q0. rewrite Nat.add_0_r in Q0.
    assert (Q' : forall mic1, readings mic1 = readings mic -> taken mic1 = S (taken mic) ->
                   forall j, j < k -> passes (readings mic1 (taken mic1 + j)) = true).
    { intros mic1 R T j Hj. rewrite R, T.
      replace (S (taken mic) + j) with (taken mic + S j) by lia. apply Q. lia. }
    assert (G : forall mic1, readings mic1 = readings mic -> taken mic1 = S (taken mic) ->
      (taken (snd (command_loop n mic1)) = taken mic + S (S k)
       /\ (forall c, readings mic (taken mic + S k) = Said c ->
                     fst (command_loop n mic1) = Py.lower c)
       /\ (readings mic (taken mic + S k) = RequestError ->
           fst (command_loop n mic1) = ""
           /\ exists before,
                spoken (snd (command_loop n mic1))
                = (before ++ ["Sorry, I am unable to connect to the speech service."])%list))
      \/ passes (readings mic (taken mic + S k)) = true).
    { intros mic1 R T.
      destruct (IH mic1 k ltac:(lia) (Q' mic1 R T)) as [H|H].
      - left. rewrite R, T in H.
        replace (S (taken mic) + k) with (taken mic + S k) in H by lia.
        replace (S (taken mic) + S k) with (taken mic + S (S k)) in H by lia. exact H.
      - right. rewrite R, T in H.
        now replace (S (taken mic) + k) with (taken mic + S k) in H by lia. }
    simpl. destruct (readings mic (taken mic)) as [c| | | |]; try discriminate;
      apply G; reflexivity.
Qed.

Lemma command_loop_exhausted (n : nat) :
  forall mic : Mic,
    (forall j, j < n -> passes (readings mic (taken mic + j)) = true) ->
    fst (command_loop n mic) = "" /\ taken (snd (command_loop n mic)) = taken mic + n.
Proof.
  induction n as [|n IH]; intros mic Q; [simpl; split; [reflexivity | lia]|].
  pose proof (Q 0 ltac:(lia)) as Q0. rewrite Nat.add_0_r in Q0.
  assert (G : forall mic1, readings mic1 = readings mic -> taken mic1 = S (taken mic) ->
                fst (command_loop n mic1) = ""
                /\ taken (snd (command_loop n mic1)) = taken mic + S n).
  { intros mic1 R T. destruct (IH mic1) as (A & B).
    - intros j Hj. rewrite R, T.
      replace (S (taken mic) + j) with (taken mic + S j) by lia. apply Q. lia.
    - split; [exact A | rewrite B, T; lia]. }
  simpl. destruct (readings mic (taken mic)) as [c| | | |]; try discriminate;
    apply G; reflexivity.
Qed.

(** X23: [command] returns, in lower case, the first thing it
    understands, an ASCII text, when that comes within its three
    readings and the speech service has answered until then; it reads
    no further. *)
Theorem command_hears_first (mic : Mic) (k : nat) (c : string) :
  Py.is_ascii c = true ->
  k < 3 ->
  (forall j, j < k -> passes (readings mic (taken mic + j)) = true) ->
  readings mic (taken mic + k) = Said c ->
  fst (command mic) = Py.lower c /\ taken (snd (command mic)) = taken mic + S k.
Proof.
  intros _ Hk Q E. unfold command.
  destruct (command_loop_decides retries mic k Hk Q) as [(T & S & _)|P].
  - split; [now apply S | exact T].
  - rewrite E in P. discriminate.
Qed.

Lemma command_hears_first_witness :
  fst (command demo_mic) = "new task buy milk" /\ taken (snd (command demo_mic)) = 3.
Proof.
  apply (command_hears_first demo_mic 2 "New Task Buy Milk");
    [reflexivity | lia | intros [|[|j]] Hj; [reflexivity | reflexivity | lia]
    | reflexivity].
Defined.

(** X24: [command] gives up with the empty string at once when the
    speech service cannot be reached, without a further reading, and
    after three readings with nothing understood. *)
Theorem command_gives_up (mic : Mic) (k : nat) :
  (forall j, j < k -> passes (readings mic (taken mic + j)) = true) ->
  (k < 3 /\ readings mic (taken mic + k) = RequestError) \/ k = 3 ->
  fst (command mic) = "" /\ taken (snd (command mic)) = taken mic + Nat.min (S k) 3.
Proof.
  intros Q [(Hk & E)| ->]; unfold command.
  - destruct (command_loop_decides retries mic k Hk Q) as [(T & _ & R)|P].
    + split; [now apply R | rewrite T; lia].
    + rewrite E in P. discriminate.
  - apply (command_loop_exhausted retries mic Q).
Qed.

Lemma command_gives_up_witness :
  fst (command (mkMic (readings demo_mic) 3 [])) = ""
  /\ taken (snd (command (mkMic (readings demo_mic) 3 []))) = 4.
Proof.
  apply (command_gives_up (mkMic (readings demo_mic) 3 []) 0);
    [intros j Hj; lia | left; split; [lia | reflexivity]].
Defined.

End Listening.

Section Branches.
Import Synbi.

Lemma startswith_app (p q s : string) :
  Py.startswith (p ++ q) s = true -> Py.startswith p s = true.
Proof.
  revert s. induction p as [|a p IH]; intros s H; [reflexivity|].
  destruct s as [|b s]; simpl in *; [discriminate|].
  apply andb_true_iff in H. destruct H as [E H]. rewrite E. now apply IH.
Qed.

(** A request that holds a phrase holds what the phrase begins with. *)
Lemma contains_app (p q s : string) :
  Py.contains (p ++ q) s = true -> Py.contains p s = true.
Proof.
  induction s as [|b s IH]; intro H.
  - simpl in H. rewrite orb_false_r in H.
    apply (startswith_app p q) in H. destruct p; [reflexivity | discriminate].
  - change (Py.startswith (p ++ q) (String b s) || Py.contains (p ++ q) s = true) in H.
    change (Py.startswith p (String b s) || Py.contains p s = true).
    apply orb_true_iff in H. apply orb_true_iff. destruct H as [H|H].
    + left. now apply (startswith_app p q).
    + right. now apply IH.
Qed.

(** Once a test of the chain passes, the branch taken is that one or one
    above it. *)
Lemma select_stops (pre post : list (branch * (string -> bool))) (b : branch)
  (test : string -> bool) (request : string) :
  test request = true ->
  In (select (pre ++ (b, test) :: post) request) (map fst pre ++ [b]).
Proof.
  intro H. induction pre as [|[b' t'] pre IH]; simpl.
  - rewrite H. now left.
  - destruct (t' request); [now left | now right].
Qed.

(** X25: of the three phrases of the branch that opens WhatsApp,
    ["open whatsapp"] never reaches it: a request that holds it is taken
    by the branch of ["open"], which opens an application, or by a
    branch tested before that one, and it is not the empty request. *)
Theorem open_whatsapp_is_shadowed (request : string) :
  Py.contains "open whatsapp" request = true ->
  no_later_than OpenApp (route request)
  /\ route request <> NoInput
  /\ route request <> OpenWhatsapp
  /\ route request <> Unknown.
Proof.
  intro H.
  assert (R : route request = select (tl chain) request).
  { destruct request; [discriminate H | reflexivity]. }
  apply (contains_app "open" " whatsapp") in H.
  assert (T : any_in ["open"] request = true).
  { unfold any_in. simpl. now rewrite H. }
  pose proof (select_stops (firstn 42 (tl chain)) (skipn 43 (tl chain)) OpenApp
                (any_in ["open"]) request T) as S.
  change (firstn 42 (tl chain) ++ (OpenApp, any_in ["open"]) :: skipn 43 (tl chain))%list
    with (tl chain) in S.
  rewrite <- R in S. split.
  - exists (firstn 43 chain), (skipn 44 chain), (any_in ["open"]).
    split; [reflexivity|]. right. exact S.
  - remember (route request) as taken eqn:E. clear E R. cbn in S.
    repeat (destruct S as [S|S]; [subst taken; repeat split; discriminate|]).
    destruct S.
Qed.

Lemma open_whatsapp_is_shadowed_witness :
  route "open whatsapp" = OpenApp
  /\ no_later_than OpenApp (route "open whatsapp")
  /\ route "open whatsapp" <> NoInput
  /\ route "open whatsapp" <> OpenWhatsapp
  /\ route "open whatsapp" <> Unknown.
Proof.
  split; [reflexivity|].
  apply (open_whatsapp_is_shadowed "open whatsapp"). reflexivity.
Defined.

Lemma pick_task_branch_acts (phrases : list string) (act : string -> TaskManager.M string)
  (question nothing request follow_up : string) (m : TaskManager.Manager) :
  snd (pick_task_branch phrases act question nothing request follow_up m) = m
  \/ exists identifier,
       identifier <> ""
       /\ snd (pick_task_branch phrases act question nothing request follow_up m)
          = snd (act identifier m).
Proof.
  unfold pick_task_branch, TaskManager.get_pending_tasks, TaskManager.get_tasks_text,
    TaskManager.bind, TaskManager.gets, TaskManager.ret.
  destruct (String.eqb_spec
              (Py.strip (fold_left (fun r phrase => Py.replace phrase "" r) phrases request))
              "") as [E|E]; cbn [negb].
  - destruct (TaskManager.tasks (TaskManager.self_tasks m)) as [|t l] eqn:L;
      [left; reflexivity|].
    cbv beta iota. rewrite L. cbv beta iota.
    destruct (String.eqb_spec follow_up "") as [F|F]; cbn [negb]; [left; reflexivity|].
    right. exists follow_up. split; [exact F|].
    destruct (act follow_up m) as [[r|e] m']; reflexivity.
  - right. eexists. split; [exact E|].
    destruct (act _ m) as [[r|e] m']; reflexivity.
Qed.

(** X26: the branches of ["delete task"] and ["complete task"] never
    hand the empty identifier to [delete_task] or [complete_task]: they
    leave the store alone, or act on an identifier that is not empty. *)
Theorem task_branches_name_a_task (request follow_up : string) (m : TaskManager.Manager) :
  (snd (delete_task_branch request follow_up m) = m
   \/ exists identifier,
        identifier <> ""
        /\ snd (delete_task_branch request follow_up m)
           = snd (TaskManager.delete_task identifier m))
  /\ (snd (complete_task_branch request follow_up m) = m
      \/ exists identifier,
           identifier <> ""
           /\ snd (complete_task_branch request follow_up m)
              = snd (TaskManager.complete_task identifier m)).
Proof. split; apply pick_task_branch_acts. Qed.

Lemma lstrip_step (s : string) :
  Py.lstrip s = match Py.after_blank s with
                | Some r => Py.lstrip r
                | None => s
                end.
Proof.
  destruct s as [|a [|b [|c r]]]; [reflexivity | | |].
  - change (Py.lstrip (String a ""))
      with (if Py.is_space a then Py.lstrip "" else String a "").
    cbn [Py.after_blank]. now destruct (Py.is_space a).
  - change (Py.lstrip (String a (String b "")))
      with (if Py.is_space a then Py.lstrip (String b "")
            else if Py.is_space2 a b then Py.lstrip "" else String a (String b "")).
    cbn [Py.after_blank]. destruct (Py.is_space a); [reflexivity|].
    now destruct (Py.is_space2 a b).
  - change (Py.lstrip (String a (String b (String c r))))
      with (if Py.is_space a then Py.lstrip (String b (String c r))
            else if Py.is_space2 a b then Py.lstrip (String c r)
                 else if Py.is_space3 a b c then Py.lstrip r
                      else String a (String b (String c r))).
    cbn [Py.after_blank]. destruct (Py.is_space a); [reflexivity|].
    destruct (Py.is_space2 a b); [reflexivity|].
    now destruct (Py.is_space3 a b c).
Qed.

Lemma after_blank_app (s r w : string) :
  Py.after_blank s = Some r -> Py.after_blank (s ++ w) = Some (r ++ w).
Proof.
  destruct s as [|a [|b [|c s]]]; cbn [Py.after_blank String.append];
    try discriminate;
    repeat match goal with
      | |- context [if ?b then _ else _] => destruct b
      end;
    try discriminate; intros [= <-]; reflexivity.
Qed.

Lemma after_blank_shorter (s r : string) :
  Py.after_blank s = Some r -> String.length r < String.length s.
Proof.
  destruct s as [|a [|b [|c s]]]; cbn [Py.after_blank];
    try discriminate;
    repeat match goal with
      | |- context [if ?b then _ else _] => destruct b
      end;
    try discriminate; intros [= <-]; simpl; lia.
Qed.

(** Blanks at the head of a text do not count. *)
Lemma lstrip_blank_app (n : nat) :
  forall s w, String.length s <= n -> Py.lstrip s = "" -> Py.lstrip (s ++ w) = Py.lstrip w.
Proof.
  induction n as [|n IH]; intros s w L H.
  - destruct s; [reflexivity | simpl in L; lia].
  - rewrite lstrip_step in H. destruct (Py.after_blank s) as [r|] eqn:E.
    + rewrite (lstrip_step (s ++ w)), (after_blank_app _ _ w E).
      apply IH; [|exact H]. apply after_blank_shorter in E. lia.
    + subst s. reflexivity.
Qed.

Lemma is_blank_app (s w : string) :
  Py.is_blank s = true -> Py.is_blank (s ++ w) = Py.is_blank w.
Proof.
  unfold Py.is_blank. intro H.
  rewrite (lstrip_blank_app (String.length s) s w (le_n _)); [reflexivity|].
  destruct (Py.lstrip s); [reflexivity | discriminate].
Qed.

(** What [lstrip] leaves does not begin with a blank. *)
Lemma lstrip_stable (n : nat) :
  forall s, String.length s <= n -> Py.after_blank (Py.lstrip s) = None.
Proof.
  induction n as [|n IH]; intros s L.
  - destruct s; [reflexivity | simpl in L; lia].
  - rewrite lstrip_step. destruct (Py.after_blank s) as [r|] eqn:E; [|exact E].
    apply IH. apply after_blank_shorter in E. lia.
Qed.

Lemma lstrip_fixed (s : string) : Py.after_blank s = None -> Py.lstrip s = s.
Proof. intro H. now rewrite lstrip_step, H. Qed.

(** [rstrip] takes blanks away, and from the end. *)
Lemma rstrip_split (s : string) :
  exists w, s = Py.rstrip s ++ w /\ Py.is_blank w = true.
Proof.
  induction s as [|a r (w & E & B)]; [now exists ""|].
  cbn [Py.rstrip]. destruct (Py.is_blank (String a r)) eqn:Ba.
  - now exists (String a r).
  - exists w. split; [|exact B]. cbn [String.append]. now rewrite <- E.
Qed.

Lemma rstrip_idem (s : string) : Py.rstrip (Py.rstrip s) = Py.rstrip s.
Proof.
  induction s as [|a r IH]; [reflexivity|].
  cbn [Py.rstrip]. destruct (Py.is_blank (String a r)) eqn:Ba; [reflexivity|].
  cbn [Py.rstrip]. rewrite IH.
  destruct (Py.is_blank (String a (Py.rstrip r))) eqn:Bb; [|reflexivity].
  destruct (rstrip_split r) as (w & E & B).
  pose proof (is_blank_app _ w Bb) as C. cbn [String.append] in C.
  rewrite <- E, B in C. congruence.
Qed.

Lemma rstrip_no_blank_head (s : string) :
  Py.after_blank s = None -> Py.after_blank (Py.rstrip s) = None.
Proof.
  intro H. destruct (Py.after_blank (Py.rstrip s)) as [x|] eqn:E; [|reflexivity].
  destruct (rstrip_split s) as (w & S & _).
  apply (after_blank_app _ _ w) in E. rewrite <- S in E. congruence.
Qed.

(** [s.strip().strip() == s.strip()] *)
Lemma strip_idem (s : string) : Py.strip (Py.strip s) = Py.strip s.
Proof.
  unfold Py.strip.
  rewrite (lstrip_fixed (Py.rstrip (Py.lstrip s))).
  - apply rstrip_idem.
  - apply rstrip_no_blank_head. apply (lstrip_stable (String.length s)). apply le_n.
Qed.

Lemma new_task_priority_lower (request : string) :
  Py.lower (new_task_priority request) = new_task_priority request.
Proof.
  unfold new_task_priority.
  destruct (any_in _ request); [reflexivity|]. now destruct (any_in _ request).
Qed.

(** X27: a request that carries the text of the task stores it as one
    task at the end of the pending list: its text is the request without
    the phrases ["new task"] and ["add task"], stripped, its priority the
    one the request names, and nothing more is asked. *)
Theorem request_with_text_adds_it (request follow_up : string) (m : TaskManager.Manager) :
  new_task_text request <> "" ->
  exists t m',
    new_task_branch request follow_up m
    = (TaskManager.Returned
         [if TaskManager.writable (TaskManager.world m)
          then "Task added successfully: " ++ new_task_text request
          else "Error: Could not save task."], m')
    /\ TaskManager.tasks (TaskManager.self_tasks m')
       = (TaskManager.tasks (TaskManager.self_tasks m) ++ [t])%list
    /\ TaskManager.text t = new_task_text request
    /\ TaskManager.priority t = new_task_priority request
    /\ TaskManager.status t = "pending".
Proof.
  intro H. unfold new_task_branch. apply String.eqb_neq in H. rewrite H. cbn [negb].
  apply String.eqb_neq in H.
  assert (I : Py.strip (new_task_text request) = new_task_text request)
    by apply strip_idem.
  unfold TaskManager.bind. rewrite add_task_exact by (rewrite I; exact H).
  unfold TaskManager.ret. rewrite I.
  exists (new_task m (new_task_text request) (new_task_priority request) None).
  eexists. split; [reflexivity|].
  rewrite committed_store. unfold new_task.
  cbn [TaskManager.set_last_modified with_tasks ticked TaskManager.set_tasks
         TaskManager.tasks TaskManager.self_tasks TaskManager.text TaskManager.priority
         TaskManager.status].
  rewrite I, new_task_priority_lower. repeat split.
Qed.

Lemma request_with_text_adds_it_witness :
  exists t m',
    new_task_branch "new task call mom urgent" "" demo_start
    = (TaskManager.Returned ["Task added successfully: call mom urgent"], m')
    /\ TaskManager.tasks (TaskManager.self_tasks m') = [t]
    /\ TaskManager.text t = "call mom urgent"
    /\ TaskManager.priority t = "high"
    /\ TaskManager.status t = "pending".
Proof.
  apply (request_with_text_adds_it "new task call mom urgent" "" demo_start).
  vm_compute. discriminate.
Defined.

(** X28: a task given in answer to ["What task would you like to add?"]
    is stored with the priority ["medium"], whatever the answer says of
    its priority, and the whole answer, stripped, is the text. *)
Theorem answered_task_is_medium (request follow_up : string) (m : TaskManager.Manager) :
  new_task_text request = "" ->
  Py.strip follow_up <> "" ->
  exists t m',
    new_task_branch request follow_up m
    = (TaskManager.Returned
         ["What task would you like to add?";
          if TaskManager.writable (TaskManager.world m)
          then "Task added successfully: " ++ Py.strip follow_up
          else "Error: Could not save task."], m')
    /\ TaskManager.tasks (TaskManager.self_tasks m')
       = (TaskManager.tasks (TaskManager.self_tasks m) ++ [t])%list
    /\ TaskManager.text t = Py.strip follow_up
    /\ TaskManager.priority t = "medium".
Proof.
  intros E H. unfold new_task_branch. rewrite E. cbn [String.eqb negb].
  assert (F : follow_up <> "") by (intros ->; now apply H).
  apply String.eqb_neq in F. rewrite F. cbn [negb].
  unfold TaskManager.bind. rewrite add_task_exact by exact H.
  unfold TaskManager.ret. exists (new_task m follow_up "medium" None).
  eexists. split; [reflexivity|].
  rewrite committed_store. unfold new_task.
  cbn [TaskManager.set_last_modified with_tasks ticked TaskManager.set_tasks
         TaskManager.tasks TaskManager.self_tasks TaskManager.text TaskManager.priority].
  repeat split.
Qed.

Lemma answered_task_is_medium_witness :
  new_task_priority "urgent call mom" = "high"
  /\ exists t m',
       new_task_branch "add task" "urgent call mom" demo_start
       = (TaskManager.Returned
            ["What task would you like to add?";
             "Task added successfully: urgent call mom"], m')
       /\ TaskManager.tasks (TaskManager.self_tasks m') = [t]
       /\ TaskManager.text t = "urgent call mom"
       /\ TaskManager.priority t = "medium".
Proof.
  split; [reflexivity|].
  apply (answered_task_is_medium "add task" "urgent call mom" demo_start);
    [reflexivity | vm_compute; discriminate].
Defined.

(** X29: when the request names no task and the store was built by
    additions alone, the branch of ["delete task"] reads the list out,
    and the number heard in answer deletes the task read out under that
    number. *)
Theorem answered_number_takes_listed_task
  (request : string) (m : TaskManager.Manager) (j : nat) (t : TaskManager.Task) :
  Grown m ->
  nth_error (TaskManager.tasks (TaskManager.self_tasks m)) j = Some t ->
  Py.strip (Py.replace "remove task" "" (Py.replace "delete task" "" request)) = "" ->
  exists listing m',
    delete_task_branch request (Py.str_nat (j + 1)) m
    = (TaskManager.Returned
         ["Which task would you like to delete? Say the number or task name.";
          "Your pending tasks are: " ++ Py.join ". " listing;
          "Task deleted: " ++ TaskManager.text t], m')
    /\ nth_error listing j = Some (TaskManager.task_line (j + 1) t)
    /\ TaskManager.tasks (TaskManager.self_tasks m')
       = TaskManager.remove_nth j (TaskManager.tasks (TaskManager.self_tasks m)).
Proof.
  intros G Hj E. pose proof (grown_first_match m j t G Hj) as Hm.
  pose proof (delete_task_exact _ m j t Hm) as D.
  pose proof (task_lines_nth _ 1 j t Hj) as P.
  unfold delete_task_branch, pick_task_branch, TaskManager.get_pending_tasks,
    TaskManager.get_tasks_text, TaskManager.bind, TaskManager.gets, TaskManager.ret.
  cbn [fold_left]. rewrite E. cbn [String.eqb negb].
  destruct (TaskManager.tasks (TaskManager.self_tasks m)) as [|a l] eqn:L;
    [destruct j; discriminate|].
  cbv beta iota. rewrite L. cbv beta iota.
  destruct (str_nat_head (j + 1)) as (c & r & S & _).
  assert (N : (Py.str_nat (j + 1) =? "")%string = false) by now rewrite S.
  rewrite N. cbn [negb]. rewrite D.
  exists (TaskManager.task_lines 1 (a :: l)). eexists. split; [reflexivity|]. split.
  - rewrite P. do 2 f_equal. lia.
  - rewrite committed_store.
    cbn [TaskManager.set_last_modified with_tasks TaskManager.set_tasks
           TaskManager.tasks TaskManager.self_tasks].
    reflexivity.
Qed.

Lemma answered_number_takes_listed_task_witness :
  exists listing m',
    delete_task_branch "delete task" "1" demo_rent
    = (TaskManager.Returned
         ["Which task would you like to delete? Say the number or task name.";
          "Your pending tasks are: " ++ Py.join ". " listing;
          "Task deleted: pay rent"], m')
    /\ nth_error listing 0
       = Some (TaskManager.task_line 1
                 (TaskManager.mkTask 1 "pay rent" "medium" "pending" "T2" None None))
    /\ TaskManager.tasks (TaskManager.self_tasks m') = [].
Proof.
  apply (answered_number_takes_listed_task "delete task" demo_rent 0
           (TaskManager.mkTask 1 "pay rent" "medium" "pending" "T2" None None)).
  - eapply grown_add.
    + eapply grown_start; [|exact demo_start_eq]. reflexivity.
    + unfold demo_rent, after. apply surjective_pairing.
  - reflexivity.
  - reflexivity.
Defined.

End Branches.
